(** * Agriculture agent: query pipeline, intent classifier, date resolver
      and climate statistics, embedded from the Python sources.

    Conventions of the embedding.
    - A Python [str] is a list of Unicode code points ([text]).  String
      literals of the sources are written as Rocq strings (UTF-8 bytes) and
      decoded with [utf8].  Case mapping and the character classes of [re]
      ([\w], [\d], [\s]) are those of Basic Latin and Latin-1 Supplement;
      code points above U+00FF are caseless and belong to no class.
    - A [datetime] is used by the date resolver only through its calendar
      date, represented by its proleptic Gregorian ordinal
      ([date.toordinal()], 1 = 0001-01-01).
    - A Python exception is a value [Raise e] of the [result] type.
    - A Python [float] of the statistics engine is an exact real number;
      NaN (and a missing value of a pandas column) is [None]. *)

From Stdlib Require Import String Ascii List Bool Arith NArith ZArith Lia.
From Stdlib Require Import QArith Reals Lra DecimalString.
From Stdlib Require Import Sorted Permutation.
Import ListNotations.

Set Implicit Arguments.

(* ------------------------------------------------------------------ *)
(** ** Exceptions *)

Inductive result (E A : Type) : Type :=
| Ok (a : A)
| Raise (e : E).
Arguments Ok {E A} a.
Arguments Raise {E A} e.

Definition bind {E A B : Type} (m : result E A) (k : A -> result E B)
  : result E B :=
  match m with
  | Ok a => k a
  | Raise e => Raise e
  end.

Notation "x <- m ;; k" := (bind m (fun x => k))
  (at level 61, m at next level, right associativity).

(* ------------------------------------------------------------------ *)
(** ** Text: Python [str] as code points *)

Module Text.

Definition text := list N.

(** UTF-8 decoding of a source literal (well-formed input only). *)
Fixpoint decode (bs : list N) : text :=
  match bs with
  | [] => []
  | b0 :: r0 =>
    if (b0 <? 128)%N then b0 :: decode r0
    else
      match r0 with
      | [] => []
      | b1 :: r1 =>
        if (b0 <? 224)%N then
          ((b0 mod 32) * 64 + b1 mod 64)%N :: decode r1
        else
          match r1 with
          | [] => []
          | b2 :: r2 =>
            if (b0 <? 240)%N then
              ((b0 mod 16) * 4096 + (b1 mod 64) * 64 + b2 mod 64)%N
                :: decode r2
            else
              match r2 with
              | [] => []
              | b3 :: r3 =>
                ((b0 mod 8) * 262144 + (b1 mod 64) * 4096
                 + (b2 mod 64) * 64 + b3 mod 64)%N :: decode r3
              end
          end
      end
  end.

Definition utf8 (s : string) : text :=
  decode (map N_of_ascii (list_ascii_of_string s)).

Definition eqb (a b : text) : bool :=
  if list_eq_dec N.eq_dec a b then true else false.

(** [str.lower()] on one code point: A-Z, and the upper-case letters
    U+00C0..U+00DE other than the multiplication sign U+00D7. *)
Definition lower_cp (c : N) : N :=
  if ((65 <=? c) && (c <=? 90))%N then (c + 32)%N
  else if ((192 <=? c) && (c <=? 222) && negb (c =? 215))%N then (c + 32)%N
  else c.

Definition lower (s : text) : text := map lower_cp s.

(** [str.isspace()]. *)
Definition is_space (c : N) : bool :=
  (((9 <=? c) && (c <=? 13)) || ((28 <=? c) && (c <=? 32))
   || (c =? 133) || (c =? 160))%N.

(** Decimal digits: the class [\d]. *)
Definition is_digit (c : N) : bool := ((48 <=? c) && (c <=? 57))%N.

(** [str.isalnum()] or underscore: the class [\w]. *)
Definition is_word (c : N) : bool :=
  (is_digit c
   || ((65 <=? c) && (c <=? 90)) || ((97 <=? c) && (c <=? 122))
   || (c =? 95)
   || (c =? 170) || (c =? 178) || (c =? 179) || (c =? 181)
   || (c =? 185) || (c =? 186)
   || ((188 <=? c) && (c <=? 190))
   || ((192 <=? c) && (c <=? 214))
   || ((216 <=? c) && (c <=? 246))
   || ((248 <=? c) && (c <=? 255)))%N.

Fixpoint lstrip (s : text) : text :=
  match s with
  | c :: s' => if is_space c then lstrip s' else s
  | [] => []
  end.

(** [str.strip()]. *)
Definition strip (s : text) : text := rev (lstrip (rev (lstrip s))).

Fixpoint starts_with (p s : text) : bool :=
  match p, s with
  | [], _ => true
  | _ :: _, [] => false
  | a :: p', b :: s' => (a =? b)%N && starts_with p' s'
  end.

(** [needle in hay]. *)
Fixpoint contains (needle hay : text) : bool :=
  starts_with needle hay
  || match hay with
     | [] => false
     | _ :: hay' => contains needle hay'
     end.

(** [any(word in s for word in words)]. *)
Definition any_in (words : list text) (s : text) : bool :=
  existsb (fun w => contains w s) words.

(** First element of [words] that occurs in [s] (a [for] loop returning at
    the first hit). *)
Definition first_in (words : list text) (s : text) : option text :=
  find (fun w => contains w s) words.

(** Truthiness of a [str]. *)
Definition truthy (s : text) : bool :=
  match s with [] => false | _ :: _ => true end.

(** [int(s)] for the strings the date resolver passes to it: a run of
    decimal digits gives its value, anything else is a [ValueError]. *)
Fixpoint digits_value (acc : Z) (s : text) : option Z :=
  match s with
  | [] => Some acc
  | c :: s' =>
    if is_digit c then digits_value (acc * 10 + (Z.of_N c - 48))%Z s'
    else None
  end.

End Text.

Import Text.

(* ------------------------------------------------------------------ *)
(** ** Regular expressions: the fragment of [re] used by the resolver

    Backtracking matcher with the priorities of Python's [re]: leftmost
    start, alternatives left to right, greedy quantifiers. *)

Module Regex.

Inductive cls : Type :=
| Digit                 (* \d *)
| Space                 (* \s *)
| OneOf (l : list N).   (* [...] *)

Definition cls_match (c : cls) (x : N) : bool :=
  match c with
  | Digit => is_digit x
  | Space => is_space x
  | OneOf l => existsb (N.eqb x) l
  end.

Inductive re : Type :=
| Lit (s : text)                      (* literal characters *)
| Cls (c : cls)                       (* one character of a class *)
| Seq (a b : re)                      (* ab *)
| Alt (a b : re)                      (* a|b *)
| Opt (a : re)                        (* a? *)
| Plus (c : cls)                      (* c+ *)
| Rep (c : cls) (lo hi : nat)         (* c{lo,hi} *)
| Grp (i : nat) (a : re)              (* capturing group number i *)
| WordB.                              (* \b *)

(** Position in the subject: the character before it, what follows, and
    the index. *)
Record cursor : Type := { prev : option N; rest : text; pos : nat }.

(** Captured groups: group number, start and end index. *)
Definition caps := list (nat * (nat * nat)).

Definition at_boundary (cur : cursor) : bool :=
  let before := match prev cur with Some c => is_word c | None => false end in
  let after := match rest cur with c :: _ => is_word c | [] => false end in
  xorb before after.

Fixpoint lit {A : Type} (s : text) (p : option N) (r : text) (n : nat)
  (k : cursor -> option A) : option A :=
  match s with
  | [] => k {| prev := p; rest := r; pos := n |}
  | c :: s' =>
    match r with
    | x :: r' => if (c =? x)%N then lit s' (Some x) r' (S n) k else None
    | [] => None
    end
  end.

(** Greedy [c*]: the longest run first, then shorter ones. *)
Fixpoint star {A : Type} (c : cls) (p : option N) (r : text) (n : nat)
  (k : cursor -> option A) : option A :=
  match r with
  | x :: r' =>
    if cls_match c x then
      match star c (Some x) r' (S n) k with
      | Some v => Some v
      | None => k {| prev := p; rest := r; pos := n |}
      end
    else k {| prev := p; rest := r; pos := n |}
  | [] => k {| prev := p; rest := r; pos := n |}
  end.

(** Greedy [c{lo,hi}]. *)
Fixpoint rep {A : Type} (c : cls) (lo hi : nat) (p : option N) (r : text)
  (n : nat) (k : cursor -> option A) : option A :=
  let stop :=
    match lo with
    | O => k {| prev := p; rest := r; pos := n |}
    | S _ => None
    end in
  match hi with
  | O => stop
  | S hi' =>
    match r with
    | x :: r' =>
      if cls_match c x then
        match rep c (Nat.pred lo) hi' (Some x) r' (S n) k with
        | Some v => Some v
        | None => stop
        end
      else stop
    | [] => stop
    end
  end.

Fixpoint run {A : Type} (e : re) (cur : cursor) (cs : caps)
  (k : cursor -> caps -> option A) : option A :=
  match e with
  | Lit s => lit s (prev cur) (rest cur) (pos cur) (fun cur' => k cur' cs)
  | Cls c =>
    match rest cur with
    | x :: r' =>
      if cls_match c x
      then k {| prev := Some x; rest := r'; pos := S (pos cur) |} cs
      else None
    | [] => None
    end
  | Seq a b => run a cur cs (fun cur' cs' => run b cur' cs' k)
  | Alt a b =>
    match run a cur cs k with
    | Some v => Some v
    | None => run b cur cs k
    end
  | Opt a =>
    match run a cur cs k with
    | Some v => Some v
    | None => k cur cs
    end
  | Plus c =>
    match rest cur with
    | x :: r' =>
      if cls_match c x
      then star c (Some x) r' (S (pos cur)) (fun cur' => k cur' cs)
      else None
    | [] => None
    end
  | Rep c lo hi =>
    rep c lo hi (prev cur) (rest cur) (pos cur) (fun cur' => k cur' cs)
  | Grp i a =>
    run a cur cs (fun cur' cs' => k cur' ((i, (pos cur, pos cur')) :: cs'))
  | WordB => if at_boundary cur then k cur cs else None
  end.

(** A match object: the subject and the groups that took part. *)
Record match_ : Type := { subject : text; groups : caps }.

Fixpoint search_from (e : re) (whole : text) (p : option N) (r : text)
  (n : nat) : option match_ :=
  match run e {| prev := p; rest := r; pos := n |} []
              (fun _ cs => Some {| subject := whole; groups := cs |}) with
  | Some m => Some m
  | None =>
    match r with
    | [] => None
    | x :: r' => search_from e whole (Some x) r' (S n)
    end
  end.

(** [re.search(e, s)]. *)
Definition search (e : re) (s : text) : option match_ :=
  search_from e s None s 0.

Fixpoint lookup (i : nat) (cs : caps) : option (nat * nat) :=
  match cs with
  | [] => None
  | (j, span) :: cs' => if Nat.eqb i j then Some span else lookup i cs'
  end.

(** [m.group(i)]: [None] when the group did not take part. *)
Definition group (m : match_) (i : nat) : option text :=
  match lookup i (groups m) with
  | Some (a, b) => Some (firstn (b - a) (skipn a (subject m)))
  | None => None
  end.

Definition matches (e : re) (s : text) : bool :=
  match search e s with Some _ => true | None => false end.

End Regex.

(* ------------------------------------------------------------------ *)
(** ** utils/date_parser.py *)

Module DateParser.
Import Regex.

Local Open Scope Z_scope.

(** *** Calendar dates (the part of [datetime] the resolver uses) *)

Definition date := Z.

(** [date.min.toordinal()] and [date.max.toordinal()]. *)
Definition MINORD : Z := 1.
Definition MAXORD : Z := 3652059.

Inductive error : Type := ValueError | OverflowError | TypeError.

Definition is_leap (y : Z) : bool :=
  (y mod 4 =? 0) && (negb (y mod 100 =? 0) || (y mod 400 =? 0)).

Definition days_before_year (y : Z) : Z :=
  let y1 := y - 1 in y1 * 365 + y1 / 4 - y1 / 100 + y1 / 400.

Definition DAYS_IN_MONTH : list Z :=
  [0; 31; 28; 31; 30; 31; 30; 31; 31; 30; 31; 30; 31].

Definition DAYS_BEFORE_MONTH : list Z :=
  [0; 0; 31; 59; 90; 120; 151; 181; 212; 243; 273; 304; 334].

Definition days_in_month (y m : Z) : Z :=
  if (m =? 2) && is_leap y then 29 else nth (Z.to_nat m) DAYS_IN_MONTH 0.

Definition days_before_month (y m : Z) : Z :=
  nth (Z.to_nat m) DAYS_BEFORE_MONTH 0
  + (if (2 <? m) && is_leap y then 1 else 0).

Definition ymd2ord (y m d : Z) : Z :=
  days_before_year y + days_before_month y m + d.

(** [datetime(year, month, day)]: [ValueError] outside the calendar. *)
Definition datetime (y m d : Z) : result error date :=
  if (1 <=? y) && (y <=? 9999) && (1 <=? m) && (m <=? 12)
     && (1 <=? d) && (d <=? days_in_month y m)
  then Ok (ymd2ord y m d)
  else Raise ValueError.

(** CPython's [_ord2ymd]. *)
Definition ord2ymd (n0 : Z) : Z * Z * Z :=
  let n := n0 - 1 in
  let n400 := n / 146097 in
  let n := n mod 146097 in
  let n100 := n / 36524 in
  let n := n mod 36524 in
  let n4 := n / 1461 in
  let n := n mod 1461 in
  let n1 := n / 365 in
  let n := n mod 365 in
  let year := n400 * 400 + 1 + n100 * 100 + n4 * 4 + n1 in
  if (n1 =? 4) || (n100 =? 4) then (year - 1, 12, 31)
  else
    let leapyear := (n1 =? 3) && (negb (n4 =? 24) || (n100 =? 3)) in
    let month := Z.shiftr (n + 50) 5 in
    let preceding :=
      nth (Z.to_nat month) DAYS_BEFORE_MONTH 0
      + (if (2 <? month) && leapyear then 1 else 0) in
    if n <? preceding then
      let month' := month - 1 in
      let preceding' :=
        preceding
        - (nth (Z.to_nat month') DAYS_IN_MONTH 0
           + (if (month' =? 2) && leapyear then 1 else 0)) in
      (year, month', n - preceding' + 1)
    else (year, month, n - preceding + 1).

Definition year (d : date) : Z := fst (fst (ord2ymd d)).
Definition month (d : date) : Z := snd (fst (ord2ymd d)).
Definition day (d : date) : Z := snd (ord2ymd d).

(** [d.weekday()]: Monday is 0, Sunday is 6. *)
Definition weekday (d : date) : Z := (d + 6) mod 7.

(** [d + timedelta(days=k)]: [OverflowError] outside [date.min..date.max]. *)
Definition add_days (d : date) (k : Z) : result error date :=
  let o := d + k in
  if (MINORD <=? o) && (o <=? MAXORD) then Ok o else Raise OverflowError.

(** [d.replace(day=1)]. *)
Definition replace_day1 (d : date) : date := d - (day d - 1).

(** [d + relativedelta(months=1)]: the day is clipped to the length of the
    new month. *)
Definition add_month (d : date) : result error date :=
  let '(y, m, dd) := ord2ymd d in
  let y' := if m =? 12 then y + 1 else y in
  let m' := if m =? 12 then 1 else m + 1 in
  datetime y' m' (Z.min dd (days_in_month y' m')).

(** The dict [{"start": ..., "end": ...}]; each date stands for its
    [strftime("%Y-%m-%d")] rendering. *)
Record period : Type := { start : date; end_ : date }.

Definition single_day (d : date) : period := {| start := d; end_ := d |}.

(** *** TIME_PATTERNS (the entries the resolver searches for) *)

Declare Scope re_scope.
Delimit Scope re_scope with re.
Notation "a >> b" := (Seq a b) (at level 40, left associativity) : re_scope.
Notation "a <|> b" := (Alt a b) (at level 50, left associativity) : re_scope.
Local Open Scope re_scope.

Definition L (s : string) : re := Lit (utf8 s).
Definition d_plus : re := Plus Digit.
Definition s_plus : re := Plus Space.

(** [\b(hoy)\b] *)
Definition P_hoy : re := WordB >> Grp 1 (L "hoy") >> WordB.
(** [\b(ayer)\b] *)
Definition P_ayer : re := WordB >> Grp 1 (L "ayer") >> WordB.
(** [\b(mañana|manana)\b] *)
Definition P_manana : re :=
  WordB >> Grp 1 (L "mañana" <|> L "manana") >> WordB.
(** [\b(anteayer|ante ayer)\b] *)
Definition P_anteayer : re :=
  WordB >> Grp 1 (L "anteayer" <|> L "ante ayer") >> WordB.
(** [\b(pasado mañana|pasado manana)\b] *)
Definition P_pasado_manana : re :=
  WordB >> Grp 1 (L "pasado mañana" <|> L "pasado manana") >> WordB.
(** [\b(última semana|ultima semana|semana pasada)\b] *)
Definition P_ultima_semana : re :=
  WordB >> Grp 1 (L "última semana" <|> L "ultima semana"
                  <|> L "semana pasada") >> WordB.
(** [\b(próxima semana|proxima semana|siguiente semana)\b] *)
Definition P_proxima_semana : re :=
  WordB >> Grp 1 (L "próxima semana" <|> L "proxima semana"
                  <|> L "siguiente semana") >> WordB.
(** [\b(último mes|ultimo mes|mes pasado)\b] *)
Definition P_ultimo_mes : re :=
  WordB >> Grp 1 (L "último mes" <|> L "ultimo mes" <|> L "mes pasado")
        >> WordB.
(** [\b(próximo mes|proximo mes|siguiente mes)\b] *)
Definition P_proximo_mes : re :=
  WordB >> Grp 1 (L "próximo mes" <|> L "proximo mes" <|> L "siguiente mes")
        >> WordB.
(** [\b(últimos?\s+(\d+)\s+días?|ultimos?\s+(\d+)\s+dias)\b] *)
Definition P_ultimos_dias : re :=
  WordB
  >> Grp 1 ((L "último" >> Opt (L "s") >> s_plus >> Grp 2 d_plus >> s_plus
               >> L "día" >> Opt (L "s"))
            <|> (L "ultimo" >> Opt (L "s") >> s_plus >> Grp 3 d_plus
                   >> s_plus >> L "dias"))
  >> WordB.
(** [\b(próximos?\s+(\d+)\s+días?|proximos?\s+(\d+)\s+dias)\b] *)
Definition P_proximos_dias : re :=
  WordB
  >> Grp 1 ((L "próximo" >> Opt (L "s") >> s_plus >> Grp 2 d_plus >> s_plus
               >> L "día" >> Opt (L "s"))
            <|> (L "proximo" >> Opt (L "s") >> s_plus >> Grp 3 d_plus
                   >> s_plus >> L "dias"))
  >> WordB.
(** [\b(\d{1,2})[/-](\d{1,2})[/-](\d{4})\b] *)
Definition sep : re := Cls (OneOf (utf8 "/-")).
Definition P_fecha_especifica : re :=
  WordB >> Grp 1 (Rep Digit 1 2) >> sep >> Grp 2 (Rep Digit 1 2) >> sep
        >> Grp 3 (Rep Digit 4 4) >> WordB.
(** [\b(\d{1,2})\s+(de\s+)?(enero|...|diciembre)(\s+(de\s+)?(\d{4}))?\b] *)
Definition month_names : re :=
  L "enero" <|> L "febrero" <|> L "marzo" <|> L "abril" <|> L "mayo"
  <|> L "junio" <|> L "julio" <|> L "agosto" <|> L "septiembre"
  <|> L "octubre" <|> L "noviembre" <|> L "diciembre".
Definition P_fecha_texto : re :=
  WordB >> Grp 1 (Rep Digit 1 2) >> s_plus >> Opt (Grp 2 (L "de" >> s_plus))
        >> Grp 3 month_names
        >> Opt (Grp 4 (s_plus >> Opt (Grp 5 (L "de" >> s_plus))
                         >> Grp 6 (Rep Digit 4 4)))
        >> WordB.

Local Close Scope re_scope.

(** DIAS_SEMANA, in insertion order. *)
Definition DIAS_SEMANA : list (text * Z) :=
  [ (utf8 "lunes", 0); (utf8 "martes", 1); (utf8 "miércoles", 2);
    (utf8 "miercoles", 2); (utf8 "jueves", 3); (utf8 "viernes", 4);
    (utf8 "sábado", 5); (utf8 "sabado", 5); (utf8 "domingo", 6) ].

(** MESES. *)
Definition MESES : list (text * Z) :=
  [ (utf8 "enero", 1); (utf8 "febrero", 2); (utf8 "marzo", 3);
    (utf8 "abril", 4); (utf8 "mayo", 5); (utf8 "junio", 6);
    (utf8 "julio", 7); (utf8 "agosto", 8); (utf8 "septiembre", 9);
    (utf8 "octubre", 10); (utf8 "noviembre", 11); (utf8 "diciembre", 12) ].

Fixpoint dict_get {V : Type} (d : list (text * V)) (k : text) : option V :=
  match d with
  | [] => None
  | (k', v) :: d' => if Text.eqb k k' then Some v else dict_get d' k
  end.

(** [int(g)] on a group: [TypeError] on [None], [ValueError] unless the
    group is a run of digits. *)
Definition py_int (g : option text) : result error Z :=
  match g with
  | None => Raise TypeError
  | Some [] => Raise ValueError
  | Some s =>
    match digits_value 0 s with
    | Some v => Ok v
    | None => Raise ValueError
    end
  end.

(** [a or b] on two groups. *)
Definition group_or (a b : option text) : option text :=
  match a with
  | Some s => if truthy s then a else b
  | None => b
  end.

(** [try: datetime(y, m, d) ... except ValueError: return None]. *)
Definition try_single_day (y : Z) (m : option Z) (d : Z)
  : result error (option period) :=
  match m with
  | None => Raise TypeError
  | Some m =>
    match datetime y m d with
    | Ok dt => Ok (Some (single_day dt))
    | Raise ValueError => Ok None
    | Raise e => Raise e
    end
  end.

Section Resolver.

(** [datetime.now()], as a calendar date. *)
Variable today : date.

Definition _parse_specific_expressions (t : text)
  : result error (option period) :=
  if matches P_hoy t then Ok (Some (single_day today))
  else if matches P_ayer t then
    yesterday <- add_days today (-1) ;; Ok (Some (single_day yesterday))
  else if matches P_manana t then
    tomorrow <- add_days today 1 ;; Ok (Some (single_day tomorrow))
  else if matches P_anteayer t then
    d <- add_days today (-2) ;; Ok (Some (single_day d))
  else if matches P_pasado_manana t then
    d <- add_days today 2 ;; Ok (Some (single_day d))
  else Ok None.

Definition _parse_relative_periods (t : text)
  : result error (option period) :=
  if matches P_ultima_semana t then
    end_date <- add_days today (- (weekday today + 1)) ;;
    start_date <- add_days end_date (-6) ;;
    Ok (Some {| start := start_date; end_ := end_date |})
  else if matches P_proxima_semana t then
    start_date <- add_days today (7 - weekday today) ;;
    end_date <- add_days start_date 6 ;;
    Ok (Some {| start := start_date; end_ := end_date |})
  else if matches P_ultimo_mes t then
    end_date <- add_days (replace_day1 today) (-1) ;;
    Ok (Some {| start := replace_day1 end_date; end_ := end_date |})
  else if matches P_proximo_mes t then
    start_date <- add_month (replace_day1 today) ;;
    next <- add_month start_date ;;
    end_date <- add_days next (-1) ;;
    Ok (Some {| start := start_date; end_ := end_date |})
  else
    match search P_ultimos_dias t with
    | Some m =>
      days <- py_int (group_or (group m 2) (group m 3)) ;;
      start_date <- add_days today (- (days - 1)) ;;
      Ok (Some {| start := start_date; end_ := today |})
    | None =>
      match search P_proximos_dias t with
      | Some m =>
        days <- py_int (group_or (group m 2) (group m 3)) ;;
        end_date <- add_days today (days - 1) ;;
        Ok (Some {| start := today; end_ := end_date |})
      | None => Ok None
      end
    end.

Definition _parse_specific_dates (t : text)
  : result error (option period) :=
  match search P_fecha_especifica t with
  | Some m =>
    d <- py_int (group m 1) ;;
    mo <- py_int (group m 2) ;;
    y <- py_int (group m 3) ;;
    try_single_day y (Some mo) d
  | None =>
    match search P_fecha_texto t with
    | Some m =>
      d <- py_int (group m 1) ;;
      let mo := match group m 3 with
                | Some name => dict_get MESES name
                | None => None
                end in
      y <- match group m 5 with
           | Some g => if truthy g then py_int (Some g) else Ok (year today)
           | None => Ok (year today)
           end ;;
      try_single_day y mo d
    | None => Ok None
    end
  end.

Fixpoint weekday_loop (items : list (text * Z)) (t : text)
  : result error (option period) :=
  match items with
  | [] => Ok None
  | (day_name, day_num) :: items' =>
    if contains day_name t then
      let days_ahead := day_num - weekday today in
      let days_ahead := if days_ahead <=? 0 then days_ahead + 7
                        else days_ahead in
      target <- add_days today days_ahead ;;
      Ok (Some (single_day target))
    else weekday_loop items' t
  end.

Definition _parse_weekday (t : text) : result error (option period) :=
  weekday_loop DIAS_SEMANA t.

(** The body of the [try] block: the four resolvers in source order, the
    first one returning a dict wins. *)
Definition parse_body (t : text) : result error (option period) :=
  r <- _parse_specific_expressions t ;;
  match r with
  | Some p => Ok (Some p)
  | None =>
    r <- _parse_specific_dates t ;;
    match r with
    | Some p => Ok (Some p)
    | None =>
      r <- _parse_relative_periods t ;;
      match r with
      | Some p => Ok (Some p)
      | None => _parse_weekday t
      end
    end
  end.

(** [DateParser.parse_time_expression]: any exception gives [None]. *)
Definition parse_time_expression (t : text) : option period :=
  match parse_body (strip (lower t)) with
  | Ok r => r
  | Raise _ => None
  end.

Inductive season : Type :=
  epoca_seca | inicio_lluvias | epoca_lluviosa | transicion.

(** [DateParser.get_current_season]. *)
Definition get_current_season : season :=
  let m := month today in
  if existsb (Z.eqb m) [12; 1; 2; 3] then epoca_seca
  else if existsb (Z.eqb m) [4; 5] then inicio_lluvias
  else if existsb (Z.eqb m) [6; 7; 8; 9; 10] then epoca_lluviosa
  else transicion.

End Resolver.

End DateParser.

(* ------------------------------------------------------------------ *)
(** ** utils/climate_analyzer.py *)

Module ClimateAnalyzer.

Local Open Scope R_scope.

(** *** Telemetry rows and pandas columns *)

Inductive metric : Type := Temperature | Humidity.

(** A timestamp, through the accessors the engine uses: [.dt.date] and
    [.dt.hour]. *)
Record Timestamp : Type := { ts_date : DateParser.date; ts_hour : Z }.

(** A row of the telemetry store.  Every row carries every selected
    column; a SQL NULL is [None]. *)
Record Reading : Type := {
  timestamp : Timestamp;
  temperature : option R;
  humidity : option R;
  sensor_id : text;
  location : option text
}.

(** A float column: NaN marks a missing value. *)
Definition Series := list (option R).

Definition value_of (m : metric) (r : Reading) : option R :=
  match m with
  | Temperature => temperature r
  | Humidity => humidity r
  end.

(** [df[metric]]. *)
Definition column (m : metric) (df : list Reading) : Series :=
  map (value_of m) df.

(** [s.dropna()]. *)
Fixpoint dropna (s : Series) : list R :=
  match s with
  | [] => []
  | Some x :: s' => x :: dropna s'
  | None :: s' => dropna s'
  end.

Definition total (l : list R) : R := fold_right Rplus 0 l.

Definition mean_of (l : list R) : R := total l / INR (length l).

(** Sum of squared deviations from the mean. *)
Definition sq_dev (l : list R) : R :=
  total (map (fun x => (x - mean_of l) * (x - mean_of l)) l).

(** [s.mean()]: missing values are skipped; NaN when none is left. *)
Definition Series_mean (s : Series) : option R :=
  match dropna s with
  | [] => None
  | v => Some (mean_of v)
  end.

(** [s.std(ddof=ddof)]: missing values are skipped; NaN when the number
    of values left does not exceed [ddof]. *)
Definition Series_std_ddof (ddof : nat) (s : Series) : option R :=
  let v := dropna s in
  if (length v <=? ddof)%nat then None
  else Some (sqrt (sq_dev v / INR (length v - ddof))).

(** [s.std()]: pandas' default is [ddof=1]. *)
Definition Series_std (s : Series) : option R := Series_std_ddof 1 s.

Fixpoint insert_sorted (x : R) (l : list R) : list R :=
  match l with
  | [] => [x]
  | y :: l' => if Rle_dec x y then x :: l else y :: insert_sorted x l'
  end.

Definition sorted_values (l : list R) : list R :=
  fold_right insert_sorted [] l.

(** [s.median()] on the values left after [dropna]. *)
Definition median_of (l : list R) : R :=
  let s := sorted_values l in
  let n := length s in
  if Nat.even n
  then (nth (n / 2 - 1) s 0 + nth (n / 2) s 0) / 2
  else nth (n / 2) s 0.

Definition min_of (l : list R) : R :=
  match l with
  | [] => 0
  | x :: l' => fold_left Rmin l' x
  end.

Definition max_of (l : list R) : R :=
  match l with
  | [] => 0
  | x :: l' => fold_left Rmax l' x
  end.

(** [s.min()], [s.max()]: NaN when every value is missing. *)
Definition Series_min (s : Series) : option R :=
  match dropna s with [] => None | v => Some (min_of v) end.

Definition Series_max (s : Series) : option R :=
  match dropna s with [] => None | v => Some (max_of v) end.

(** *** _calculate_basic_stats *)

Inductive metric_stats : Type :=
| Stats (st_mean st_median st_min st_max : R) (st_std : option R)
        (st_count : nat)
| StatsError (msg : text).

Definition stats_of (m : metric) (df : list Reading) : metric_stats :=
  let values := dropna (column m df) in
  if (0 <? length values)%nat then
    Stats (mean_of values) (median_of values) (min_of values)
          (max_of values) (Series_std (column m df)) (length values)
  else StatsError (utf8 "No hay datos válidos").

(** The dict keyed by metric, in insertion order. *)
Definition _calculate_basic_stats (df : list Reading)
  : list (metric * metric_stats) :=
  map (fun m => (m, stats_of m df)) [Temperature; Humidity].

Definition metric_eqb (a b : metric) : bool :=
  match a, b with
  | Temperature, Temperature | Humidity, Humidity => true
  | _, _ => false
  end.

(** [d.get(metric)]. *)
Fixpoint get_metric {V : Type} (d : list (metric * V)) (m : metric)
  : option V :=
  match d with
  | [] => None
  | (m', v) :: d' => if metric_eqb m m' then Some v else get_metric d' m
  end.

(** [Stats ... .get("std")]. *)
Definition std_field (s : metric_stats) : option (option R) :=
  match s with
  | Stats _ _ _ _ sd _ => Some sd
  | StatsError _ => None
  end.

Definition mean_field (s : metric_stats) : option R :=
  match s with
  | Stats mu _ _ _ _ _ => Some mu
  | StatsError _ => None
  end.

(** *** _analyze_variability *)

(** An exception raised inside the engine; the engine only logs it. *)
Inductive failure : Type :=
| AllNA   (* arg-max or arg-min of a column with no valid value *)
| Fault.  (* any other exception *)

Fixpoint group_insert (k : Z) (v : option R) (gs : list (Z * Series))
  : list (Z * Series) :=
  match gs with
  | [] => [(k, [v])]
  | (k', vs) :: gs' =>
    if (k <? k')%Z then (k, [v]) :: gs
    else if (k =? k')%Z then (k', vs ++ [v]) :: gs'
    else (k', vs) :: group_insert k v gs'
  end.

(** [df.groupby(key)[metric]]: one group per key value, keys ascending,
    rows in their original order. *)
Definition groupby (key : Reading -> Z) (m : metric) (df : list Reading)
  : list (Z * Series) :=
  fold_left (fun gs r => group_insert (key r) (value_of m r) gs) df [].

(** Position of the first best value among the valid ones. *)
Fixpoint arg_best (better : R -> R -> bool) (s : Series) (i : nat)
  (best : option (nat * R)) : option (nat * R) :=
  match s with
  | [] => best
  | None :: s' => arg_best better s' (S i) best
  | Some x :: s' =>
    match best with
    | None => arg_best better s' (S i) (Some (i, x))
    | Some (_, b) =>
      if better x b then arg_best better s' (S i) (Some (i, x))
      else arg_best better s' (S i) best
    end
  end.

Definition gt (x y : R) : bool := if Rlt_dec y x then true else false.
Definition lt (x y : R) : bool := if Rlt_dec x y then true else false.

(** [frame.loc[s.idxmax(), col]]: the arg-max skips missing values; with
    no valid value the lookup raises. *)
Definition idxmax (s : Series) : result failure nat :=
  match arg_best gt s 0%nat None with
  | Some (i, _) => Ok i
  | None => Raise AllNA
  end.

Definition idxmin (s : Series) : result failure nat :=
  match arg_best lt s 0%nat None with
  | Some (i, _) => Ok i
  | None => Raise AllNA
  end.

(** Element-wise [a - b] of two columns. *)
Definition sub_opt (a b : option R) : option R :=
  match a, b with
  | Some x, Some y => Some (x - y)
  | _, _ => None
  end.

Inductive level : Type := high | moderate | low.

Record hourly_pattern : Type := {
  hour_with_max_variability : Z;
  hour_with_min_variability : Z;
  max_std : option R;
  min_std : option R
}.

Record daily_pattern : Type := {
  day_with_max_range : DateParser.date;
  max_daily_range : option R;
  avg_daily_range : option R
}.

Record metric_variability : Type := {
  coefficient_of_variation : option R;
  variability_level : level;
  hourly : hourly_pattern;
  daily : daily_pattern
}.

(** [df[metric].std() / df[metric].mean() if df[metric].mean() != 0
    else 0]. *)
Definition overall_cv (s : Series) : option R :=
  match Series_mean s with
  | Some mu =>
    if Req_dec_T mu 0 then Some 0
    else match Series_std s with
         | Some sd => Some (sd / mu)
         | None => None
         end
  | None => None
  end.

Definition level_of (cv : option R) : level :=
  match cv with
  | Some c => if gt c (3 / 10) then high
              else if gt c (1 / 10) then moderate else low
  | None => low
  end.

Definition variability_of (m : metric) (df : list Reading)
  : result failure metric_variability :=
  let hourly_stats := groupby (fun r => ts_hour (timestamp r)) m df in
  let daily_stats := groupby (fun r => ts_date (timestamp r)) m df in
  let hours := map fst hourly_stats in
  let hourly_std := map (fun g => Series_std (snd g)) hourly_stats in
  let days := map fst daily_stats in
  let daily_range :=
    map (fun g => sub_opt (Series_max (snd g)) (Series_min (snd g)))
        daily_stats in
  let cv := overall_cv (column m df) in
  imax <- idxmax hourly_std ;;
  imin <- idxmin hourly_std ;;
  dmax <- idxmax daily_range ;;
  Ok {| coefficient_of_variation := cv;
        variability_level := level_of cv;
        hourly := {| hour_with_max_variability := nth imax hours 0%Z;
                     hour_with_min_variability := nth imin hours 0%Z;
                     max_std := Series_max hourly_std;
                     min_std := Series_min hourly_std |};
        daily := {| day_with_max_range := nth dmax days 0%Z;
                    max_daily_range := Series_max daily_range;
                    avg_daily_range := Series_mean daily_range |} |}.

Definition _analyze_variability (df : list Reading)
  : result failure (list (metric * metric_variability)) :=
  t <- variability_of Temperature df ;;
  h <- variability_of Humidity df ;;
  Ok [(Temperature, t); (Humidity, h)].

(** *** The analysis result *)

Inductive quality_tier : Type := excellent | good | fair | poor.

Record data_quality_t : Type := {
  quality : quality_tier;
  total_records : option nat;
  issues : list text;
  completeness : option R
}.

Section Engine.

(** [report] is the dict a sub-analysis returns.  The sub-analyses on
    trends, extremes, crop suitability, seasons and data quality are
    collaborators of this development: each maps the batch to its report
    or raises. *)
Variable report : Type.

Inductive ag_section : Type :=
| AgError (msg : text)          (* {"error": msg} *)
| AgReport (r : report).

Record Subanalyses : Type := {
  _analyze_trends : list Reading -> result failure report;
  _analyze_extremes : list Reading -> result failure report;
  _analyze_agricultural_conditions :
    list Reading -> result failure ag_section;
  _analyze_seasonal_patterns : list Reading -> result failure report;
  _assess_data_quality : list Reading -> result failure data_quality_t
}.

Variable sub : Subanalyses.

(** [datetime.now()]. *)
Variable now : DateParser.date.

(** The result dict; an empty sub-dict [{}] is [None] or [[]]. *)
Record Analysis : Type := {
  basic_stats : list (metric * metric_stats);
  trends : option report;
  extremes : option report;
  variability : list (metric * metric_variability);
  agricultural_analysis : ag_section;
  season_analysis : option report;
  data_quality : data_quality_t;
  analysis_timestamp : DateParser.date
}.

Definition _empty_analysis : Analysis :=
  {| basic_stats := [];
     trends := None;
     extremes := None;
     variability := [];
     agricultural_analysis := AgError (utf8 "No hay datos para analizar");
     season_analysis := None;
     data_quality := {| quality := poor;
                        total_records := None;
                        issues := [utf8 "No hay datos"];
                        completeness := None |};
     analysis_timestamp := now |}.

(** The body of the [try] block. *)
Definition analyze_body (df : list Reading) : result failure Analysis :=
  let basic := _calculate_basic_stats df in
  tr <- _analyze_trends sub df ;;
  ex <- _analyze_extremes sub df ;;
  va <- _analyze_variability df ;;
  ag <- _analyze_agricultural_conditions sub df ;;
  se <- _analyze_seasonal_patterns sub df ;;
  dq <- _assess_data_quality sub df ;;
  Ok {| basic_stats := basic;
        trends := Some tr;
        extremes := Some ex;
        variability := va;
        agricultural_analysis := ag;
        season_analysis := Some se;
        data_quality := dq;
        analysis_timestamp := now |}.

(** [ClimateAnalyzer.analyze_climate_data]. *)
Definition analyze_climate_data (sensor_data : list Reading) : Analysis :=
  match sensor_data with
  | [] => _empty_analysis
  | _ :: _ =>
    match analyze_body sensor_data with
    | Ok a => a
    | Raise _ => _empty_analysis
    end
  end.

End Engine.

End ClimateAnalyzer.

(* ------------------------------------------------------------------ *)
(** ** knowledge/casanare_crops.py (the entries the pipeline reads) *)

Module CasanareCrops.

Record CropInfo : Type := {
  name : text;
  optimal_temperature : Z * Z * Z;   (* min, max, ideal *)
  optimal_humidity : Z * Z * Z;
  growth_period_days : Z;
  regenerative_practices : list text
}.

Definition CROPS_DATA : list (text * CropInfo) :=
  [ (utf8 "arroz",
     {| name := utf8 "Arroz";
        optimal_temperature := (20, 35, 28)%Z;
        optimal_humidity := (70, 85, 78)%Z;
        growth_period_days := 120%Z;
        regenerative_practices :=
          [utf8 "Rotación con leguminosas";
           utf8 "Manejo integrado de plagas";
           utf8 "Uso de abonos orgánicos";
           utf8 "Sistema de riego eficiente"] |});
    (utf8 "maiz",
     {| name := utf8 "Maíz";
        optimal_temperature := (15, 35, 25)%Z;
        optimal_humidity := (60, 80, 70)%Z;
        growth_period_days := 90%Z;
        regenerative_practices :=
          [utf8 "Asociación con frijol";
           utf8 "Mulching con residuos";
           utf8 "Compostaje";
           utf8 "Control biológico de plagas"] |});
    (utf8 "yuca",
     {| name := utf8 "Yuca";
        optimal_temperature := (20, 35, 27)%Z;
        optimal_humidity := (50, 80, 65)%Z;
        growth_period_days := 240%Z;
        regenerative_practices :=
          [utf8 "Policultivo con frutales";
           utf8 "Abonos verdes";
           utf8 "Conservación de suelos";
           utf8 "Uso de residuos orgánicos"] |});
    (utf8 "platano",
     {| name := utf8 "Plátano";
        optimal_temperature := (20, 35, 28)%Z;
        optimal_humidity := (70, 90, 80)%Z;
        growth_period_days := 365%Z;
        regenerative_practices :=
          [utf8 "Sistemas agroforestales";
           utf8 "Mulching con hojas";
           utf8 "Compostaje de residuos";
           utf8 "Policultivo con cacao"] |});
    (utf8 "cacao",
     {| name := utf8 "Cacao";
        optimal_temperature := (20, 32, 26)%Z;
        optimal_humidity := (75, 85, 80)%Z;
        growth_period_days := 1095%Z;
        regenerative_practices :=
          [utf8 "Sistemas agroforestales";
           utf8 "Sombra con árboles nativos";
           utf8 "Compostaje";
           utf8 "Diversificación de cultivos"] |});
    (utf8 "citricos",
     {| name := utf8 "Cítricos";
        optimal_temperature := (15, 35, 25)%Z;
        optimal_humidity := (60, 80, 70)%Z;
        growth_period_days := 1095%Z;
        regenerative_practices :=
          [utf8 "Podas sanitarias";
           utf8 "Manejo integrado de plagas";
           utf8 "Abonos orgánicos";
           utf8 "Conservación de agua"] |}) ].

(** [s.replace(a, b)] for single characters. *)
Definition replace_cp (a b : N) (s : text) : text :=
  map (fun c => if (c =? a)%N then b else c) s.

(** [CasanareCrops.get_crop_info]; the empty dict is [None]. *)
Definition get_crop_info (crop_name : text) : option CropInfo :=
  let crop_key :=
    replace_cp 241 110 (replace_cp 237 105 (lower crop_name)) in
  DateParser.dict_get CROPS_DATA crop_key.

Record SeasonInfo : Type := {
  months : list text;
  characteristics : text;
  season_recommendations : list text
}.

(** [AGRICULTURAL_CALENDAR.get(season, {})]: every season has an entry. *)
Definition AGRICULTURAL_CALENDAR (s : DateParser.season) : SeasonInfo :=
  match s with
  | DateParser.epoca_seca =>
    {| months := [utf8 "diciembre"; utf8 "enero"; utf8 "febrero";
                  utf8 "marzo"];
       characteristics := utf8 "Baja precipitación, temperaturas altas";
       season_recommendations :=
         [utf8 "Preparación de suelos";
          utf8 "Siembra de cultivos resistentes a sequía";
          utf8 "Mantenimiento de sistemas de riego";
          utf8 "Cosecha de cultivos de temporada lluviosa"] |}
  | DateParser.inicio_lluvias =>
    {| months := [utf8 "abril"; utf8 "mayo"];
       characteristics := utf8 "Incremento de precipitaciones";
       season_recommendations :=
         [utf8 "Siembra principal de arroz";
          utf8 "Siembra de maíz";
          utf8 "Preparación de almácigos";
          utf8 "Control de malezas";
          utf8 "Esperar la segundas lluvia fuerte para sembrar"] |}
  | DateParser.epoca_lluviosa =>
    {| months := [utf8 "junio"; utf8 "julio"; utf8 "agosto";
                  utf8 "septiembre"; utf8 "octubre"];
       characteristics := utf8 "Alta precipitación y humedad";
       season_recommendations :=
         [utf8 "Mantenimiento de cultivos";
          utf8 "Control de plagas y enfermedades";
          utf8 "Cosecha de cultivos de ciclo corto";
          utf8 "Siembra de segunda temporada"] |}
  | DateParser.transicion =>
    {| months := [utf8 "noviembre"];
       characteristics := utf8 "Disminución gradual de lluvias";
       season_recommendations :=
         [utf8 "Cosecha principal";
          utf8 "Preparación para época seca";
          utf8 "Almacenamiento de agua";
          utf8 "Planificación de próxima temporada"] |}
  end.

End CasanareCrops.

(* ------------------------------------------------------------------ *)
(** ** agent/: shared state, stage nodes and the routing graph *)

Module Agent.
Import ClimateAnalyzer CasanareCrops.

(** The values of [query_type]: the empty string of the initial state and
    the five intents. *)
Inductive query_kind : Type :=
| Q_unset
| Q_current_status
| Q_climate_history
| Q_recommendations
| Q_crop_advice
| Q_general.

Definition query_kind_eqb (a b : query_kind) : bool :=
  match a, b with
  | Q_unset, Q_unset | Q_current_status, Q_current_status
  | Q_climate_history, Q_climate_history
  | Q_recommendations, Q_recommendations
  | Q_crop_advice, Q_crop_advice | Q_general, Q_general => true
  | _, _ => false
  end.

Definition nl : text := [10%N].

(** Truthiness of an optional string ([None] and [""] are false). *)
Definition truthy_opt (o : option text) : bool :=
  match o with Some s => truthy s | None => false end.

Definition nonempty {A : Type} (l : list A) : bool :=
  match l with [] => false | _ :: _ => true end.

Definition is_some {A : Type} (o : option A) : bool :=
  match o with Some _ => true | None => false end.

(** [str(n)] of an integer. *)
Definition str_of_Z (n : Z) : text :=
  utf8 (DecimalString.NilZero.string_of_int (Z.to_int n)).

Section Pipeline.

(** *** Collaborators *)

(** The dict of a sub-analysis of the statistics engine. *)
Variable report : Type.

Local Abbreviation Summary := (Analysis report).

Record Collaborators : Type := {
  (** The sub-analyses the statistics engine takes as parameters. *)
  engine : Subanalyses report;
  (** [datetime.now()], taken once for the whole request. *)
  now : DateParser.date;
  (** [GetCurrentReadingsTool.get_structured(query)]: the recent readings
      of the telemetry store filtered by the place named in the query; the
      filter raises on a row without location text. *)
  get_current_readings : text -> result text (list Reading);
  (** [sensor_queries.get_historical_data(start, end, location)]; the
      store turns its own failures into an empty list. *)
  get_historical_data :
    DateParser.date -> DateParser.date -> option text -> list Reading;
  (** [climate_analyzer.get_climate_recommendations(analysis)]. *)
  get_climate_recommendations : Summary -> list text;
  (** [GetGeneralAgricultureInfoTool._run(category, None)]: always a
      string. *)
  get_general_agriculture_info : text -> text;
  (** [_format_climate_analysis(analysis)]. *)
  _format_climate_analysis : Summary -> text;
  (** [DateParser.format_date_range(start, end)]. *)
  format_date_range : DateParser.date -> DateParser.date -> result text text
}.

Variable env : Collaborators.

(** *** agent/core/state.py

    The four keys after [timestamp] are not declared in the TypedDict; the
    nodes write and read them with [state[...]] and [state.get(...)]; a
    missing key reads as false or [None]. *)

#[projections(primitive)]
Record State : Type := {
  user_query : text;
  user_location : text;
  query_type : query_kind;
  time_period : option DateParser.period;
  crop_mentioned : option text;
  location_mentioned : option text;
  sensor_data : list Reading;
  climate_summary : option Summary;
  crop_requirements : option CropInfo;
  season_info : option SeasonInfo;
  recommendations : list text;
  final_answer : text;
  confidence : Q;
  needs_data_query : bool;
  needs_crop_analysis : bool;
  needs_clarification : bool;
  error_message : option text;
  processing_steps : list text;
  timestamp : DateParser.date;
  general_info_requested : bool;
  general_info_category : option text;
  suggest_general_info : bool;
  suggested_category : option text
}.

Definition set_query_type (v : query_kind) (s : State) : State :=
  let (f1, f2, _, f4, f5, f6, f7, f8, f9, f10, f11, f12, f13, f14, f15, f16,
       f17, f18, f19, f20, f21, f22, f23) := s in
  Build_State f1 f2 v f4 f5 f6 f7 f8 f9 f10 f11 f12 f13 f14 f15 f16 f17 f18
    f19 f20 f21 f22 f23.

Definition set_time_period (v : option DateParser.period) (s : State) : State :=
  let (f1, f2, f3, _, f5, f6, f7, f8, f9, f10, f11, f12, f13, f14, f15, f16,
       f17, f18, f19, f20, f21, f22, f23) := s in
  Build_State f1 f2 f3 v f5 f6 f7 f8 f9 f10 f11 f12 f13 f14 f15 f16 f17 f18
    f19 f20 f21 f22 f23.

Definition set_crop_mentioned (v : option text) (s : State) : State :=
  let (f1, f2, f3, f4, _, f6, f7, f8, f9, f10, f11, f12, f13, f14, f15, f16,
       f17, f18, f19, f20, f21, f22, f23) := s in
  Build_State f1 f2 f3 f4 v f6 f7 f8 f9 f10 f11 f12 f13 f14 f15 f16 f17 f18
    f19 f20 f21 f22 f23.

Definition set_location_mentioned (v : option text) (s : State) : State :=
  let (f1, f2, f3, f4, f5, _, f7, f8, f9, f10, f11, f12, f13, f14, f15, f16,
       f17, f18, f19, f20, f21, f22, f23) := s in
  Build_State f1 f2 f3 f4 f5 v f7 f8 f9 f10 f11 f12 f13 f14 f15 f16 f17 f18
    f19 f20 f21 f22 f23.

Definition set_sensor_data (v : list Reading) (s : State) : State :=
  let (f1, f2, f3, f4, f5, f6, _, f8, f9, f10, f11, f12, f13, f14, f15, f16,
       f17, f18, f19, f20, f21, f22, f23) := s in
  Build_State f1 f2 f3 f4 f5 f6 v f8 f9 f10 f11 f12 f13 f14 f15 f16 f17 f18
    f19 f20 f21 f22 f23.

Definition set_climate_summary (v : option Summary) (s : State) : State :=
  let (f1, f2, f3, f4, f5, f6, f7, _, f9, f10, f11, f12, f13, f14, f15, f16,
       f17, f18, f19, f20, f21, f22, f23) := s in
  Build_State f1 f2 f3 f4 f5 f6 f7 v f9 f10 f11 f12 f13 f14 f15 f16 f17 f18
    f19 f20 f21 f22 f23.

Definition set_crop_requirements (v : option CropInfo) (s : State) : State :=
  let (f1, f2, f3, f4, f5, f6, f7, f8, _, f10, f11, f12, f13, f14, f15, f16,
       f17, f18, f19, f20, f21, f22, f23) := s in
  Build_State f1 f2 f3 f4 f5 f6 f7 f8 v f10 f11 f12 f13 f14 f15 f16 f17 f18
    f19 f20 f21 f22 f23.

Definition set_season_info (v : option SeasonInfo) (s : State) : State :=
  let (f1, f2, f3, f4, f5, f6, f7, f8, f9, _, f11, f12, f13, f14, f15, f16,
       f17, f18, f19, f20, f21, f22, f23) := s in
  Build_State f1 f2 f3 f4 f5 f6 f7 f8 f9 v f11 f12 f13 f14 f15 f16 f17 f18
    f19 f20 f21 f22 f23.

Definition set_recommendations (v : list text) (s : State) : State :=
  let (f1, f2, f3, f4, f5, f6, f7, f8, f9, f10, _, f12, f13, f14, f15, f16,
       f17, f18, f19, f20, f21, f22, f23) := s in
  Build_State f1 f2 f3 f4 f5 f6 f7 f8 f9 f10 v f12 f13 f14 f15 f16 f17 f18
    f19 f20 f21 f22 f23.

Definition set_final_answer (v : text) (s : State) : State :=
  let (f1, f2, f3, f4, f5, f6, f7, f8, f9, f10, f11, _, f13, f14, f15, f16,
       f17, f18, f19, f20, f21, f22, f23) := s in
  Build_State f1 f2 f3 f4 f5 f6 f7 f8 f9 f10 f11 v f13 f14 f15 f16 f17 f18
    f19 f20 f21 f22 f23.

Definition set_confidence (v : Q) (s : State) : State :=
  let (f1, f2, f3, f4, f5, f6, f7, f8, f9, f10, f11, f12, _, f14, f15, f16,
       f17, f18, f19, f20, f21, f22, f23) := s in
  Build_State f1 f2 f3 f4 f5 f6 f7 f8 f9 f10 f11 f12 v f14 f15 f16 f17 f18
    f19 f20 f21 f22 f23.

Definition set_error_message (v : option text) (s : State) : State :=
  let (f1, f2, f3, f4, f5, f6, f7, f8, f9, f10, f11, f12, f13, f14, f15,
       f16, _, f18, f19, f20, f21, f22, f23) := s in
  Build_State f1 f2 f3 f4 f5 f6 f7 f8 f9 f10 f11 f12 f13 f14 f15 f16 v f18
    f19 f20 f21 f22 f23.

Definition set_processing_steps (v : list text) (s : State) : State :=
  let (f1, f2, f3, f4, f5, f6, f7, f8, f9, f10, f11, f12, f13, f14, f15,
       f16, f17, _, f19, f20, f21, f22, f23) := s in
  Build_State f1 f2 f3 f4 f5 f6 f7 f8 f9 f10 f11 f12 f13 f14 f15 f16 f17 v
    f19 f20 f21 f22 f23.

Definition set_general_info_requested (v : bool) (s : State) : State :=
  let (f1, f2, f3, f4, f5, f6, f7, f8, f9, f10, f11, f12, f13, f14, f15,
       f16, f17, f18, f19, _, f21, f22, f23) := s in
  Build_State f1 f2 f3 f4 f5 f6 f7 f8 f9 f10 f11 f12 f13 f14 f15 f16 f17 f18
    f19 v f21 f22 f23.

Definition set_general_info_category (v : option text) (s : State) : State :=
  let (f1, f2, f3, f4, f5, f6, f7, f8, f9, f10, f11, f12, f13, f14, f15,
       f16, f17, f18, f19, f20, _, f22, f23) := s in
  Build_State f1 f2 f3 f4 f5 f6 f7 f8 f9 f10 f11 f12 f13 f14 f15 f16 f17 f18
    f19 f20 v f22 f23.

Definition set_suggest_general_info (v : bool) (s : State) : State :=
  let (f1, f2, f3, f4, f5, f6, f7, f8, f9, f10, f11, f12, f13, f14, f15,
       f16, f17, f18, f19, f20, f21, _, f23) := s in
  Build_State f1 f2 f3 f4 f5 f6 f7 f8 f9 f10 f11 f12 f13 f14 f15 f16 f17 f18
    f19 f20 f21 v f23.

Definition set_suggested_category (v : option text) (s : State) : State :=
  let (f1, f2, f3, f4, f5, f6, f7, f8, f9, f10, f11, f12, f13, f14, f15,
       f16, f17, f18, f19, f20, f21, f22, _) := s in
  Build_State f1 f2 f3 f4 f5 f6 f7 f8 f9 f10 f11 f12 f13 f14 f15 f16 f17 f18
    f19 f20 f21 f22 v.
Definition append_step (step : text) (s : State) : State :=
  set_processing_steps (processing_steps s ++ [step]) s.

Definition create_initial_state (user_query : text) : State :=
  {| user_query := user_query;
     user_location := utf8 "El Guineo, Aguazul, Casanare, Colombia";
     query_type := Q_unset;
     time_period := None;
     crop_mentioned := None;
     location_mentioned := None;
     sensor_data := [];
     climate_summary := None;
     crop_requirements := None;
     season_info := None;
     recommendations := [];
     final_answer := [];
     confidence := 0;
     needs_data_query := false;
     needs_crop_analysis := false;
     needs_clarification := false;
     error_message := None;
     processing_steps := [];
     timestamp := now env;
     general_info_requested := false;
     general_info_category := None;
     suggest_general_info := false;
     suggested_category := None |}.

(** *** agent/nodes/classify.py *)

Definition status_cues : list text :=
  map utf8 ["actual"; "ahora"; "hoy"; "temperatura"; "humedad"; "sensor"]
  %string.

Definition history_cues : list text :=
  map utf8 ["histórico"; "historia"; "último"; "pasado"; "semana"; "mes"]
  %string.

Definition advice_cues : list text :=
  map utf8 ["recomendación"; "consejo"; "qué sembrar"; "cultivo"]%string.

Definition crop_cues : list text :=
  map utf8 ["arroz"; "maíz"; "yuca"; "plátano"; "cacao"; "cítricos"]%string.

Definition general_keywords : list text :=
  map utf8 ["información general"; "suelo"; "suelos"; "riego";
            "fertilización"; "fertilizacion"; "malezas"; "residuos";
            "prácticas"; "plagas"; "umbrales"; "estrés"; "estres"]%string.

Definition crops : list text :=
  map utf8 ["arroz"; "maíz"; "maiz"; "yuca"; "plátano"; "platano"; "cacao";
            "cítricos"; "citricos"]%string.

Definition locations : list text :=
  map utf8 ["aguazul"; "yopal"; "villanueva"; "tauramena"; "monterrey";
            "sabanalarga"]%string.

Definition _extract_crop_mention (query : text) : option text :=
  first_in crops (lower query).

Definition _extract_location_mention (query : text) : option text :=
  first_in locations (lower query).

(** The keyword cascade of [classify_query]. *)
Definition classify_kind (query_lower : text) : query_kind :=
  if any_in status_cues query_lower then Q_current_status
  else if any_in history_cues query_lower then Q_climate_history
  else if any_in advice_cues query_lower then Q_recommendations
  else if any_in crop_cues query_lower then Q_crop_advice
  else Q_general.

(** [classify_query]; nothing in its [try] block raises on a string. *)
Definition classify_query (state : State) : State :=
  let query := user_query state in
  let query_lower := lower query in
  let kind := classify_kind query_lower in
  let period := DateParser.parse_time_expression (now env) query in
  let crop := _extract_crop_mention query in
  let place := _extract_location_mention query in
  let state := set_query_type kind state in
  let state := set_time_period period state in
  let state := set_crop_mentioned crop state in
  let state := set_location_mentioned place state in
  let state := append_step (utf8 "query_classified") state in
  match first_in general_keywords query_lower with
  | Some kw =>
    set_general_info_category (Some kw)
      (set_general_info_requested true state)
  | None => state
  end.

(** *** agent/tools/historical_data.py and agent/nodes/fetch_sensor.py *)

Definition time_keywords : list text :=
  map utf8 ["ayer"; "hoy"; "mañana"; "última semana"; "ultima semana";
            "próxima semana"; "proxima semana"; "último mes"; "ultimo mes";
            "últimos días"; "ultimos dias"; "próximos días";
            "proximos dias"]%string.

Definition _extract_time_expression (query : text) : text :=
  match first_in time_keywords (lower query) with
  | Some keyword => keyword
  | None => utf8 "última semana"
  end.

(** The arguments [GetHistoricalDataTool.get_structured] passes to
    [sensor_queries.get_historical_data]; [None] when it returns the empty
    list without querying. *)
Definition historical_request (time_expression : text)
  (location : option text)
  : option (DateParser.date * DateParser.date * option text) :=
  match DateParser.parse_time_expression (now env) time_expression with
  | None => None
  | Some p => Some (DateParser.start p, DateParser.end_ p, location)
  end.

(** [GetHistoricalDataTool.get_structured]. *)
Definition get_structured (time_expression : text) (location : option text)
  : list Reading :=
  match historical_request time_expression location with
  | None => []
  | Some (start_date, end_date, loc) =>
    get_historical_data env start_date end_date loc
  end.

(** The range query the fetch node issues for a state, if any. *)
Definition fetch_range_request (state : State)
  : option (DateParser.date * DateParser.date * option text) :=
  if query_kind_eqb (query_type state) Q_current_status then None
  else if query_kind_eqb (query_type state) Q_climate_history
          && is_some (time_period state)
  then historical_request (_extract_time_expression (user_query state))
                          (location_mentioned state)
  else None.

Definition fetch_body (state : State) : result text State :=
  if query_kind_eqb (query_type state) Q_current_status then
    data <- get_current_readings env (user_query state) ;;
    Ok (set_sensor_data data state)
  else if query_kind_eqb (query_type state) Q_climate_history
          && is_some (time_period state)
  then
    Ok (set_sensor_data
          (get_structured (_extract_time_expression (user_query state))
                          (location_mentioned state))
          state)
  else if query_kind_eqb (query_type state) Q_recommendations
          || query_kind_eqb (query_type state) Q_crop_advice
  then
    data <- get_current_readings env (utf8 "condiciones actuales") ;;
    Ok (set_sensor_data data state)
  else Ok state.

Definition fetch_sensor_data (state : State) : State :=
  match fetch_body state with
  | Ok state' => append_step (utf8 "sensor_data_fetched") state'
  | Raise e =>
    set_error_message
      (Some (utf8 "Error obteniendo datos de sensores: " ++ e)) state
  end.

(** *** agent/nodes/analyze.py *)

(** [avg is not None and (avg < low or avg > high)]. *)
Definition out_of_band (avg : option R) (low high : R) : bool :=
  match avg with
  | Some a => ClimateAnalyzer.lt a low || ClimateAnalyzer.gt a high
  | None => false
  end.

Definition mean_in (analysis : Summary) (m : metric) : option R :=
  match get_metric (basic_stats analysis) m with
  | Some s => mean_field s
  | None => None
  end.

Definition flag_stress (state : State) : State :=
  set_suggested_category (Some (utf8 "umbrales"))
    (set_suggest_general_info true state).

(** [analyze_climate_data] (the node); nothing in its [try] block raises:
    the engine catches its own exceptions. *)
Definition analyze_node (state : State) : State :=
  let state :=
    if nonempty (sensor_data state) then
      let analysis :=
        ClimateAnalyzer.analyze_climate_data (engine env) (now env)
          (sensor_data state) in
      let state := set_climate_summary (Some analysis) state in
      let state :=
        if out_of_band (mean_in analysis Temperature) 15 35
        then flag_stress state else state in
      let state :=
        if out_of_band (mean_in analysis Humidity) 40 90
        then flag_stress state else state in
      set_recommendations
        (recommendations state ++ get_climate_recommendations env analysis)
        state
    else state in
  append_step (utf8 "climate_analyzed") state.

(** *** agent/nodes/recommendations.py *)

Definition get_crop_recommendations (state : State) : State :=
  let state :=
    if query_kind_eqb (query_type state) Q_crop_advice
       && truthy_opt (crop_mentioned state)
    then
      match crop_mentioned state with
      | Some crop =>
        match get_crop_info crop with
        | Some crop_info =>
          set_recommendations
            (recommendations state ++ regenerative_practices crop_info)
            (set_crop_requirements (Some crop_info) state)
        | None => state
        end
      | None => state
      end
    else if query_kind_eqb (query_type state) Q_recommendations then
      set_season_info
        (Some (AGRICULTURAL_CALENDAR (DateParser.get_current_season (now env))))
        state
    else state in
  append_step (utf8 "crop_recommendations_generated") state.

(** *** agent/nodes/response.py *)

Definition bullets (recs : list text) : text :=
  flat_map (fun rec => utf8 "   • " ++ rec ++ nl) recs.

Definition _generate_status_response (state : State) : text :=
  let response := utf8 "🌤️ **Estado Climático Actual:**" ++ nl ++ nl in
  let response :=
    if nonempty (sensor_data state) then
      response ++ utf8 "📊 **Lecturas de sensores:**" ++ nl
               ++ utf8 "   • Datos de sensores disponibles" ++ nl
    else
      response
      ++ utf8 "⚠️ No hay datos de sensores disponibles en este momento."
      ++ nl in
  let response :=
    match climate_summary state with
    | Some analysis =>
      response ++ nl ++ utf8 "🔬 **Resumen climático:**" ++ nl
               ++ _format_climate_analysis env analysis ++ nl
    | None => response
    end in
  if nonempty (recommendations state) then
    response ++ nl ++ utf8 "💡 **Recomendaciones:**" ++ nl
             ++ bullets (firstn 3 (recommendations state))
  else response.

Definition _generate_history_response (state : State) : result text text :=
  let response := utf8 "📈 **Análisis Histórico:**" ++ nl ++ nl in
  response <-
    match time_period state with
    | Some p =>
      period_str <- format_date_range env (DateParser.start p)
                                      (DateParser.end_ p) ;;
      Ok (response ++ utf8 "📅 **Período analizado:** " ++ period_str
                   ++ nl ++ nl)
    | None => Ok response
    end ;;
  Ok match climate_summary state with
     | Some analysis =>
       response ++ utf8 "🔬 **Resumen climático:**" ++ nl
                ++ _format_climate_analysis env analysis ++ nl
     | None => response
     end.

Definition _generate_recommendations_response (state : State) : text :=
  let response := utf8 "💡 **Recomendaciones Agrícolas:**" ++ nl ++ nl in
  let response :=
    match season_info state with
    | Some info =>
      response ++ utf8 "🌤️ **Temporada actual:** " ++ characteristics info
               ++ nl ++ nl
    | None => response
    end in
  if nonempty (recommendations state) then
    response ++ utf8 "📋 **Recomendaciones:**" ++ nl
             ++ bullets (recommendations state)
  else
    response
    ++ utf8 "No hay recomendaciones específicas disponibles en este momento."
    ++ nl.

Definition _generate_crop_advice_response (state : State) : text :=
  let response := utf8 "🌱 **Consejos de Cultivo:**" ++ nl ++ nl in
  let response :=
    match crop_requirements state with
    | Some req =>
      if truthy_opt (crop_mentioned state) then
        let '(tmin, tmax, _) := optimal_temperature req in
        let '(hmin, hmax, _) := optimal_humidity req in
        response
        ++ utf8 "📖 **Información de " ++ name req ++ utf8 ":**" ++ nl
        ++ utf8 "   • Temperatura óptima: " ++ str_of_Z tmin ++ utf8 "-"
        ++ str_of_Z tmax ++ utf8 "°C" ++ nl
        ++ utf8 "   • Humedad óptima: " ++ str_of_Z hmin ++ utf8 "-"
        ++ str_of_Z hmax ++ utf8 "%" ++ nl
        ++ utf8 "   • Período de crecimiento: "
        ++ str_of_Z (growth_period_days req) ++ utf8 " días" ++ nl ++ nl
      else response
    | None => response
    end in
  if nonempty (recommendations state) then
    response ++ utf8 "♻️ **Prácticas regenerativas:**" ++ nl
             ++ bullets (recommendations state)
  else response.

Definition _generate_general_response (state : State) : text :=
  utf8 "🤖 **Asistente de Agricultura Regenerativa:**" ++ nl ++ nl
  ++ utf8 "¡Hola! Soy tu asistente de agricultura regenerativa para Casanare."
  ++ nl ++ nl
  ++ utf8 "Puedo ayudarte con:" ++ nl
  ++ utf8 "   • 📊 Estado actual del clima" ++ nl
  ++ utf8 "   • 📈 Análisis histórico de datos" ++ nl
  ++ utf8 "   • 🌱 Información de cultivos" ++ nl
  ++ utf8 "   • 💡 Recomendaciones agrícolas" ++ nl
  ++ utf8 "   • 📅 Consejos estacionales" ++ nl ++ nl
  ++ utf8 "¿En qué puedo ayudarte hoy?".

Definition or_default (o : option text) (d : text) : text :=
  match o with Some s => s | None => d end.

Definition response_body (state : State) : result text text :=
  response <-
    match query_type state with
    | Q_current_status => Ok (_generate_status_response state)
    | Q_climate_history => _generate_history_response state
    | Q_recommendations => Ok (_generate_recommendations_response state)
    | Q_crop_advice => Ok (_generate_crop_advice_response state)
    | _ => Ok (_generate_general_response state)
    end ;;
  let response :=
    if general_info_requested state then
      response ++ nl ++ nl
      ++ utf8 "ℹ️ **Información agrícola solicitada:**" ++ nl
      ++ get_general_agriculture_info env
           (or_default (general_info_category state) [])
    else response in
  let response :=
    if suggest_general_info state then
      response ++ nl ++ nl ++ utf8 "⚠️ **Sugerencia técnica:**" ++ nl
      ++ get_general_agriculture_info env
           (or_default (suggested_category state) (utf8 "umbrales"))
    else response in
  Ok response.

Definition generate_final_response (state : State) : State :=
  match response_body state with
  | Ok response =>
    append_step (utf8 "final_response_generated")
      (set_confidence (9 # 10) (set_final_answer response state))
  | Raise e =>
    set_final_answer
      (utf8 "Lo siento, hubo un error procesando tu consulta. Por favor, intenta de nuevo.")
      (set_error_message
         (Some (utf8 "Error generando respuesta final: " ++ e)) state)
  end.

(** *** agent/nodes/control.py *)

Definition error_answer (msg : text) : text :=
  utf8 "❌ **Error:** " ++ msg ++ nl ++ nl
  ++ utf8 "Por favor, intenta reformular tu consulta o contacta soporte si el problema persiste.".

Definition handle_error (state : State) : State :=
  match error_message state with
  | Some msg =>
    if truthy msg then
      set_confidence 0 (set_final_answer (error_answer msg) state)
    else state
  | None => state
  end.

(** *** agent/core/graph.py *)

Inductive node : Type :=
| N_classify_query
| N_fetch_sensor_data
| N_analyze_climate_data
| N_get_crop_recommendations
| N_generate_final_response
| N_handle_error
| END.

(** The keys the routing functions return. *)
Inductive route : Type :=
| R_fetch_data
| R_analyze
| R_crop_advice
| R_recommendations
| R_generate_response
| R_error
| R_end.

Definition _route_after_classification (state : State) : route :=
  if truthy_opt (error_message state) then R_error
  else
    match query_type state with
    | Q_current_status | Q_climate_history => R_fetch_data
    | Q_crop_advice => R_crop_advice
    | Q_recommendations => R_recommendations
    | _ => R_end
    end.

Definition _route_after_fetch_data (state : State) : route :=
  if truthy_opt (error_message state) then R_error
  else if nonempty (sensor_data state) then R_analyze
  else
    match query_type state with
    | Q_crop_advice => R_crop_advice
    | Q_recommendations => R_recommendations
    | _ => R_end
    end.

Definition _route_after_analysis (state : State) : route :=
  if truthy_opt (error_message state) then R_error
  else
    match query_type state with
    | Q_crop_advice => R_crop_advice
    | Q_recommendations => R_recommendations
    | _ => R_generate_response
    end.

Definition _route_after_crop_recommendations (state : State) : route :=
  if truthy_opt (error_message state) then R_error
  else R_generate_response.

Definition _route_after_final_response (state : State) : route :=
  if truthy_opt (error_message state) then R_error
  else if truthy (final_answer state) then R_end
  else R_error.

(** The node functions registered with [add_node]. *)
Definition run_node (n : node) (state : State) : State :=
  match n with
  | N_classify_query => classify_query state
  | N_fetch_sensor_data => fetch_sensor_data state
  | N_analyze_climate_data => analyze_node state
  | N_get_crop_recommendations => get_crop_recommendations state
  | N_generate_final_response => generate_final_response state
  | N_handle_error => handle_error state
  | END => state
  end.

(** The routing function of each node's conditional edges. *)
Definition router (n : node) (state : State) : route :=
  match n with
  | N_classify_query => _route_after_classification state
  | N_fetch_sensor_data => _route_after_fetch_data state
  | N_analyze_climate_data => _route_after_analysis state
  | N_get_crop_recommendations => _route_after_crop_recommendations state
  | N_generate_final_response => _route_after_final_response state
  | N_handle_error => R_end
  | END => R_end
  end.

(** The mapping dict of each [add_conditional_edges] call; a key outside
    the dict has no target. *)
Definition edges (n : node) (r : route) : option node :=
  match n, r with
  | N_classify_query, R_fetch_data => Some N_fetch_sensor_data
  | N_classify_query, R_crop_advice => Some N_get_crop_recommendations
  | N_classify_query, R_recommendations => Some N_get_crop_recommendations
  | N_classify_query, R_error => Some N_handle_error
  | N_classify_query, R_end => Some END
  | N_fetch_sensor_data, R_analyze => Some N_analyze_climate_data
  | N_fetch_sensor_data, R_crop_advice => Some N_get_crop_recommendations
  | N_fetch_sensor_data, R_recommendations => Some N_get_crop_recommendations
  | N_fetch_sensor_data, R_error => Some N_handle_error
  | N_fetch_sensor_data, R_end => Some END
  | N_analyze_climate_data, R_crop_advice => Some N_get_crop_recommendations
  | N_analyze_climate_data, R_recommendations =>
    Some N_get_crop_recommendations
  | N_analyze_climate_data, R_generate_response =>
    Some N_generate_final_response
  | N_analyze_climate_data, R_error => Some N_handle_error
  | N_analyze_climate_data, R_end => Some END
  | N_get_crop_recommendations, R_generate_response =>
    Some N_generate_final_response
  | N_get_crop_recommendations, R_error => Some N_handle_error
  | N_get_crop_recommendations, R_end => Some END
  | N_generate_final_response, R_end => Some END
  | N_generate_final_response, R_error => Some N_handle_error
  | N_handle_error, R_end => Some END
  | _, _ => None
  end.

(** The node that runs after [n] has produced [state]. *)
Definition next_node (n : node) (state : State) : option node :=
  edges n (router n state).

Inductive graph_error : Type :=
| UnknownRoute         (* a routing key outside the mapping *)
| GraphRecursionError. (* more steps than the recursion limit *)

(** [graph.invoke] from node [n]: runs the nodes in turn, recording the
    ones that ran, until [END]; [limit] is the recursion limit. *)
Fixpoint invoke_from (limit : nat) (n : node) (state : State)
  (ran : list node) : result graph_error (list node * State) :=
  match n with
  | END => Ok (ran, state)
  | _ =>
    match limit with
    | O => Raise GraphRecursionError
    | S limit' =>
      let state' := run_node n state in
      match next_node n state' with
      | Some n' => invoke_from limit' n' state' (ran ++ [n])
      | None => Raise UnknownRoute
      end
    end
  end.

Definition recursion_limit : nat := 25.

Definition invoke (initial_state : State)
  : result graph_error (list node * State) :=
  invoke_from recursion_limit N_classify_query initial_state [].

(** The dict [process_query] returns (its metadata apart); [query_type]
    is [None] for the string "error". *)
Record Response : Type := {
  answer : text;
  r_confidence : Q;
  r_query_type : option query_kind;
  r_processing_steps : list text;
  r_error_message : option text
}.

Definition process_query (user_query : text) : Response :=
  match invoke (create_initial_state user_query) with
  | Ok (_, result) =>
    {| answer := final_answer result;
       r_confidence := confidence result;
       r_query_type := Some (query_type result);
       r_processing_steps := processing_steps result;
       r_error_message := error_message result |}
  | Raise e =>
    {| answer := utf8 "Lo siento, hubo un error procesando tu consulta. Por favor, intenta de nuevo.";
       r_confidence := 0;
       r_query_type := None;
       r_processing_steps := [];
       r_error_message :=
         Some (match e with
               | UnknownRoute => utf8 "KeyError"
               | GraphRecursionError => utf8 "GraphRecursionError"
               end) |}
  end.

(** The nodes that ran for a query, in order. *)
Definition nodes_run (user_query : text) : list node :=
  match invoke (create_initial_state user_query) with
  | Ok (ran, _) => ran
  | Raise _ => []
  end.

(** Configurations an execution goes through: node [n] is about to run
    on [state]. *)
Inductive reachable (user_query : text) : node -> State -> Prop :=
| reach_entry :
    reachable user_query N_classify_query (create_initial_state user_query)
| reach_step : forall n state n',
    reachable user_query n state ->
    next_node n (run_node n state) = Some n' ->
    reachable user_query n' (run_node n state).

End Pipeline.

End Agent.

(* ------------------------------------------------------------------ *)
(** ** Notions of the specification *)

Module Claims.
Import DateParser Regex ClimateAnalyzer.

(** The text the resolver works on: lower-cased and stripped. *)
Definition normalized (t : text) : text := strip (lower t).

(** No literal day word (hoy, ayer, mañana, anteayer, pasado mañana). *)
Definition no_day_word (t : text) : bool :=
  negb (matches P_hoy t || matches P_ayer t || matches P_manana t
        || matches P_anteayer t || matches P_pasado_manana t).

(** A relative named period: last or next week, last or next month. *)
Definition has_relative_period (t : text) : bool :=
  matches P_ultima_semana t || matches P_proxima_semana t
  || matches P_ultimo_mes t || matches P_proximo_mes t.

(** The range the relative-period step gives on its own. *)
Definition relative_period_range (today : date) (t : text)
  : option period :=
  match _parse_relative_periods today t with
  | Ok r => r
  | Raise _ => None
  end.

(** The stages that do the work of a request (all nodes but the error
    handler and the terminal). *)
Definition is_stage (n : Agent.node) : bool :=
  match n with
  | Agent.N_handle_error | Agent.END => false
  | _ => true
  end.

(** An error message is absent, or present and non-empty. *)
Definition error_ok {report : Type} (state : Agent.State report) : Prop :=
  Agent.error_message state = None
  \/ exists e, Agent.error_message state = Some e /\ truthy e = true.

(** Upper bound on the nodes still to run, the current one included. *)
Definition rank (n : Agent.node) : nat :=
  match n with
  | Agent.N_classify_query => 6
  | Agent.N_fetch_sensor_data => 5
  | Agent.N_analyze_climate_data => 4
  | Agent.N_get_crop_recommendations => 3
  | Agent.N_generate_final_response => 2
  | Agent.N_handle_error => 1
  | Agent.END => 0
  end.

Local Open Scope R_scope.

Definition squared_deviations (v : list R) : list R :=
  map (fun x => (x - mean_of v) * (x - mean_of v)) v.

(** Population standard deviation: the square root of the mean squared
    deviation (divisor n). *)
Definition population_std (v : list R) : R :=
  sqrt (total (squared_deviations v) / INR (length v)).

(** Sample standard deviation: divisor n - 1. *)
Definition sample_std (v : list R) : R :=
  sqrt (total (squared_deviations v) / (INR (length v) - 1)).

End Claims.

(* ------------------------------------------------------------------ *)
(** ** Concrete scenarios *)

Module Scenario.
Import DateParser ClimateAnalyzer Agent.

(** Wednesday 4 November 2026. *)
Definition today : date := ymd2ord 2026 11 4.

Definition engine0 : Subanalyses unit :=
  {| _analyze_trends := fun _ => Ok tt;
     _analyze_extremes := fun _ => Ok tt;
     _analyze_agricultural_conditions := fun _ => Ok (AgReport tt);
     _analyze_seasonal_patterns := fun _ => Ok tt;
     _assess_data_quality :=
       fun df => Ok {| quality := excellent;
                       total_records := Some (length df);
                       issues := [];
                       completeness := None |} |}.

(** A telemetry store with no rows. *)
Definition no_telemetry : Collaborators unit :=
  {| engine := engine0;
     now := today;
     get_current_readings := fun _ => Ok [];
     get_historical_data := fun _ _ _ => [];
     get_climate_recommendations := fun _ => [];
     get_general_agriculture_info := fun _ => utf8 "{}";
     _format_climate_analysis := fun _ => [];
     format_date_range := fun _ _ => Ok (utf8 "el 04 de November de 2026") |}.

(** A telemetry store whose recent rows have no location text: the
    location filter of the readings tool raises. *)
Definition null_location : Collaborators unit :=
  {| engine := engine0;
     now := today;
     get_current_readings :=
       fun _ => Raise (utf8 "'NoneType' object has no attribute 'lower'");
     get_historical_data := fun _ _ _ => [];
     get_climate_recommendations := fun _ => [];
     get_general_agriculture_info := fun _ => utf8 "{}";
     _format_climate_analysis := fun _ => [];
     format_date_range := fun _ _ => Ok (utf8 "el 04 de November de 2026") |}.

Definition reading (t h : R) : Reading :=
  {| ClimateAnalyzer.timestamp := {| ts_date := today; ts_hour := 10 |};
     temperature := Some t;
     humidity := Some h;
     sensor_id := utf8 "sensor-1";
     location := Some (utf8 "Aguazul") |}.

Definition two_readings : list Reading :=
  [reading 20 50; reading 22 60].

Definition q_sembrar : text := utf8 "¿qué debería sembrar esta temporada?".
Definition q_que_sembrar : text := utf8 "¿qué sembrar esta temporada?".
Definition q_arroz : text := utf8 "¿cuál es la temperatura actual del arroz?".
Definition q_fecha : text := utf8 "historia del 15/03/2024".
Definition q_semana_fecha : text := utf8 "última semana 15/03/2024".

(** The match of the DD/MM/YYYY pattern in [q_semana_fecha]. *)
Definition semana_fecha_match : Regex.match_ :=
  {| Regex.subject := q_semana_fecha;
     Regex.groups := [(3, (20, 24)); (2, (17, 19)); (1, (14, 16))]%nat |}.

End Scenario.

(* ------------------------------------------------------------------ *)
(** ** Notions for whole executions *)

Module Trail.
Import Agent.

(** The tag a node appends to [processing_steps] when its [try] block
    completes; the error handler appends none. *)
Definition stage_tag (n : node) : list text :=
  match n with
  | N_classify_query => [utf8 "query_classified"]
  | N_fetch_sensor_data => [utf8 "sensor_data_fetched"]
  | N_analyze_climate_data => [utf8 "climate_analyzed"]
  | N_get_crop_recommendations => [utf8 "crop_recommendations_generated"]
  | N_generate_final_response => [utf8 "final_response_generated"]
  | N_handle_error | END => []
  end.

(** The six sequences of nodes of the graph from entry to terminal. *)
Definition paths : list (list node) :=
  [ [N_classify_query];
    [N_classify_query; N_fetch_sensor_data];
    [N_classify_query; N_fetch_sensor_data; N_handle_error];
    [N_classify_query; N_fetch_sensor_data; N_analyze_climate_data;
     N_generate_final_response];
    [N_classify_query; N_fetch_sensor_data; N_analyze_climate_data;
     N_generate_final_response; N_handle_error];
    [N_classify_query; N_get_crop_recommendations;
     N_generate_final_response] ].

(** How a run ended: with an answer, without one, or with an error.
    [ran] lists the nodes that ran, [final] is the state at the terminal. *)
Inductive ending {report : Type} (ran : list node) (final : State report)
  : Prop :=
| ended_answered :
    error_message final = None ->
    In N_generate_final_response ran ->
    truthy (final_answer final) = true ->
    confidence final = 9 # 10 ->
    processing_steps final = flat_map stage_tag ran ->
    ending ran final
| ended_silent :
    error_message final = None ->
    ~ In N_generate_final_response ran ->
    final_answer final = [] ->
    confidence final = 0%Q ->
    processing_steps final = flat_map stage_tag ran ->
    ending ran final
| ended_failed : forall (e : text) (pre : list node) (n : node),
    error_message final = Some e ->
    ran = pre ++ [n; N_handle_error] ->
    final_answer final = error_answer e ->
    confidence final = 0%Q ->
    processing_steps final = flat_map stage_tag pre ->
    ending ran final.

End Trail.

(* ------------------------------------------------------------------ *)
(** ** What a node finds when it starts *)

Module Entry.
Import Agent.

Definition asks_for_data (k : query_kind) : bool :=
  match k with
  | Q_current_status | Q_climate_history => true
  | _ => false
  end.

Definition asks_for_advice (k : query_kind) : bool :=
  match k with
  | Q_crop_advice | Q_recommendations => true
  | _ => false
  end.

(** The condition under which each node is entered. *)
Definition entered_with {report : Type} (env : Collaborators report)
  (q : text) (n : node) (state : State report) : Prop :=
  match n with
  | N_classify_query => state = create_initial_state env q
  | N_fetch_sensor_data =>
    asks_for_data (query_type state) = true
  | N_analyze_climate_data =>
    asks_for_data (query_type state) = true
    /\ nonempty (sensor_data state) = true
  | N_get_crop_recommendations =>
    asks_for_advice (query_type state) = true
    /\ sensor_data state = []
    /\ climate_summary state = None
  | N_generate_final_response =>
    (asks_for_data (query_type state) = true
     /\ nonempty (sensor_data state) = true
     /\ is_some (climate_summary state) = true)
    \/ (asks_for_advice (query_type state) = true
        /\ sensor_data state = []
        /\ climate_summary state = None)
  | N_handle_error | END => True
  end.

End Entry.

(* ------------------------------------------------------------------ *)
(** ** Sample batches *)

Module Grouping.
Import ClimateAnalyzer.

(** Number of valid values of a metric among the rows with a given key. *)
Definition valid_with (key : Reading -> Z) (m : metric) (k : Z)
  (df : list Reading) : nat :=
  length (dropna (column m (filter (fun r => (key r =? k)%Z) df))).

(** The group of a key in a grouping, if the key occurs. *)
Fixpoint find_group (k : Z) (gs : list (Z * Series)) : option Series :=
  match gs with
  | [] => None
  | (k', vs) :: gs' => if (k =? k')%Z then Some vs else find_group k gs'
  end.

(** The values of the rows with a key, in their order; [None] when no row
    has the key. *)
Definition group_of (key : Reading -> Z) (m : metric) (k : Z)
  (df : list Reading) : option Series :=
  match filter (fun r => (key r =? k)%Z) df with
  | [] => None
  | rows => Some (column m rows)
  end.

End Grouping.

Module Samples.
Import DateParser ClimateAnalyzer.

Local Open Scope R_scope.

Definition reading_at (hour : Z) (t h : R) : Reading :=
  {| timestamp := {| ts_date := Scenario.today; ts_hour := hour |};
     temperature := Some t;
     humidity := Some h;
     sensor_id := utf8 "sensor-1";
     location := Some (utf8 "Aguazul") |}.

(** Three readings of one day, at 6, 12 and 18 hours. *)
Definition one_reading_per_hour : list Reading :=
  [reading_at 6 24 80; reading_at 12 31 62; reading_at 18 27 71].

End Samples.

(* ------------------------------------------------------------------ *)
(** ** Crop suitability and agricultural conditions *)

(** [CasanareCrops.get_suitable_crops_for_conditions]
    (knowledge/casanare_crops.py). *)
Module Suitability.
Import ClimateAnalyzer CasanareCrops.

Local Open Scope R_scope.

Definition range_min (r : Z * Z * Z) : R := IZR (fst (fst r)).
Definition range_max (r : Z * Z * Z) : R := IZR (snd (fst r)).
Definition range_ideal (r : Z * Z * Z) : R := IZR (snd r).

Definition le (x y : R) : bool := if Rle_dec x y then true else false.

(** [r["min"] <= x <= r["max"]]. *)
Definition in_range (x : R) (r : Z * Z * Z) : bool :=
  le (range_min r) x && le x (range_max r).

Inductive rating : Type := optimo | aceptable.

(** An entry of the result: the four computed keys and the crop's own
    data ([**crop_data]). *)
Record SuitableCrop : Type := {
  crop : text;
  suitability : rating;
  temp_match : R;
  humidity_match : R;
  crop_data : CropInfo
}.

(** The body of the loop for one crop: the entry appended, if any. *)
Definition rate (temperature humidity : R) (data : CropInfo)
  : option SuitableCrop :=
  let temp_range := optimal_temperature data in
  let humidity_range := optimal_humidity data in
  let temp_suitable := in_range temperature temp_range in
  let humidity_suitable := in_range humidity humidity_range in
  let entry (s : rating) :=
    {| crop := name data;
       suitability := s;
       temp_match := Rabs (temperature - range_ideal temp_range);
       humidity_match := Rabs (humidity - range_ideal humidity_range);
       crop_data := data |} in
  if temp_suitable && humidity_suitable then Some (entry optimo)
  else if temp_suitable || humidity_suitable then Some (entry aceptable)
  else None.

Fixpoint candidates (temperature humidity : R)
  (items : list (text * CropInfo)) : list SuitableCrop :=
  match items with
  | [] => []
  | (_, data) :: items' =>
    match rate temperature humidity data with
    | Some entry => entry :: candidates temperature humidity items'
    | None => candidates temperature humidity items'
    end
  end.

(** [key=lambda x: x["temp_match"] + x["humidity_match"]]. *)
Definition sort_key (x : SuitableCrop) : R := temp_match x + humidity_match x.

(** [list.sort(key=...)]: ascending and stable. *)
Fixpoint insert_by_key (x : SuitableCrop) (l : list SuitableCrop)
  : list SuitableCrop :=
  match l with
  | [] => [x]
  | y :: l' =>
    if le (sort_key x) (sort_key y) then x :: l
    else y :: insert_by_key x l'
  end.

Definition sort_by_key (l : list SuitableCrop) : list SuitableCrop :=
  fold_right insert_by_key [] l.

Definition get_suitable_crops_for_conditions (temperature humidity : R)
  : list SuitableCrop :=
  sort_by_key (candidates temperature humidity CROPS_DATA).

End Suitability.

(** [ClimateAnalyzer._analyze_agricultural_conditions] and
    [ClimateAnalyzer._assess_overall_conditions]
    (utils/climate_analyzer.py). *)
Module Conditions.
Import ClimateAnalyzer CasanareCrops.

Local Open Scope R_scope.

Inductive assessment : Type := desfavorable | excelente | aceptable.

Definition _assess_overall_conditions (avg_temp avg_humidity : R)
  : assessment :=
  if lt avg_temp 15 || gt avg_temp 40 then desfavorable
  else if lt avg_humidity 40 || gt avg_humidity 95 then desfavorable
  else if Suitability.le 20 avg_temp && Suitability.le avg_temp 35
          && Suitability.le 60 avg_humidity
          && Suitability.le avg_humidity 85
  then excelente
  else aceptable.

Record crop_condition : Type := {
  cc_suitability : Suitability.rating;
  temp_optimal_percentage : R;
  humidity_optimal_percentage : R;
  overall_optimal_percentage : R;
  recommendations : list text
}.

(** [((values >= r["min"]) & (values <= r["max"])).mean() * 100]. *)
Definition optimal_percentage (values : list R) (r : Z * Z * Z) : R :=
  mean_of (map (fun v => if Suitability.in_range v r then 1 else 0) values)
  * 100.

(** [d[k] = v] on a dict in insertion order. *)
Fixpoint dict_set {V : Type} (d : list (text * V)) (k : text) (v : V)
  : list (text * V) :=
  match d with
  | [] => [(k, v)]
  | (k', v') :: d' =>
    if Text.eqb k k' then (k', v) :: d' else (k', v') :: dict_set d' k v
  end.

Definition condition_of (temp_values humidity_values : list R)
  (crop_info : Suitability.SuitableCrop) : crop_condition :=
  let data := Suitability.crop_data crop_info in
  let temp_optimal :=
    optimal_percentage temp_values (optimal_temperature data) in
  let humidity_optimal :=
    optimal_percentage humidity_values (optimal_humidity data) in
  {| cc_suitability := Suitability.suitability crop_info;
     temp_optimal_percentage := temp_optimal;
     humidity_optimal_percentage := humidity_optimal;
     overall_optimal_percentage := (temp_optimal + humidity_optimal) / 2;
     recommendations := regenerative_practices data |}.

Record conditions_report : Type := {
  average_conditions : R * R;          (* temperature, humidity *)
  suitable_crops : list Suitability.SuitableCrop;
  crop_conditions : list (text * crop_condition);
  overall_assessment : assessment
}.

(** The result: [inl msg] is the dict [{"error": msg}]. *)
Definition _analyze_agricultural_conditions (df : list Reading)
  : text + conditions_report :=
  let temp_values := dropna (column Temperature df) in
  let humidity_values := dropna (column Humidity df) in
  if (length temp_values =? 0)%nat || (length humidity_values =? 0)%nat
  then inl (utf8 "Datos insuficientes")
  else
    let avg_temp := mean_of temp_values in
    let avg_humidity := mean_of humidity_values in
    let suitable :=
      Suitability.get_suitable_crops_for_conditions avg_temp avg_humidity in
    let top := firstn 5 suitable in
    inr {| average_conditions := (avg_temp, avg_humidity);
           suitable_crops := top;
           crop_conditions :=
             fold_left
               (fun d crop_info =>
                  dict_set d (Suitability.crop crop_info)
                    (condition_of temp_values humidity_values crop_info))
               top [];
           overall_assessment :=
             _assess_overall_conditions avg_temp avg_humidity |}.

End Conditions.

(* ------------------------------------------------------------------ *)
(** ** Data quality *)

(** [ClimateAnalyzer._assess_data_quality] (utils/climate_analyzer.py).
    The texts of the issues are f-strings over a float and a count; their
    formatting, and the completeness figure, which is computed over every
    column of the frame, are taken as given. *)
Module DataQuality.
Import ClimateAnalyzer.

Local Open Scope R_scope.

Section Assess.

(** [f"Muchos valores faltantes en {col}: {missing_pct:.1f}%"]. *)
Variable missing_issue : metric -> R -> text.
(** [f"Valores de temperatura fuera de rango: {n} registros"]. *)
Variable temperature_issue : nat -> text.
(** [f"Valores de humedad fuera de rango: {n} registros"]. *)
Variable humidity_issue : nat -> text.
(** [(total_rows - df.isna().sum().sum())
     / (total_rows * len(df.columns)) * 100]. *)
Variable completeness_of : list Reading -> R.

Definition is_missing (v : option R) : bool :=
  match v with Some _ => false | None => true end.

(** [df[col].isna().sum() / total_rows * 100]. *)
Definition missing_pct (m : metric) (df : list Reading) : R :=
  INR (length (filter is_missing (column m df))) / INR (length df) * 100.

(** [df[(df[col] < lo) | (df[col] > hi)]]: a comparison with a missing
    value is false. *)
Definition out_of_range (m : metric) (lo hi : R) (df : list Reading)
  : list Reading :=
  filter (fun r => match value_of m r with
                   | Some x => lt x lo || gt x hi
                   | None => false
                   end) df.

Definition missing_issues (m : metric) (df : list Reading) : list text :=
  if gt (missing_pct m df) 20 then [missing_issue m (missing_pct m df)]
  else [].

Definition found_issues (df : list Reading) : list text :=
  let issues := [] in
  let issues := issues ++ missing_issues Temperature df in
  let issues := issues ++ missing_issues Humidity df in
  let temp_outliers := out_of_range Temperature (-10) 50 df in
  let issues :=
    if (0 <? length temp_outliers)%nat
    then issues ++ [temperature_issue (length temp_outliers)]
    else issues in
  let humidity_outliers := out_of_range Humidity 0 100 df in
  let issues :=
    if (0 <? length humidity_outliers)%nat
    then issues ++ [humidity_issue (length humidity_outliers)]
    else issues in
  issues.

Definition quality_of (issues : list text) : quality_tier :=
  if (length issues =? 0)%nat then excellent
  else if (length issues <=? 2)%nat then good
  else if (length issues <=? 4)%nat then fair
  else poor.

Definition _assess_data_quality (df : list Reading) : data_quality_t :=
  let total_rows := length df in
  if (total_rows =? 0)%nat then
    {| quality := poor;
       total_records := None;
       issues := [utf8 "No hay datos"];
       completeness := None |}
  else
    let issues := found_issues df in
    {| quality := quality_of issues;
       total_records := Some total_rows;
       issues := issues;
       completeness := Some (completeness_of df) |}.

End Assess.

End DataQuality.

Module QualitySamples.
Import ClimateAnalyzer.

Local Open Scope R_scope.

Definition missing_issue (m : metric) (pct : R) : text :=
  utf8 "Muchos valores faltantes".
Definition temperature_issue (n : nat) : text :=
  utf8 "Valores de temperatura fuera de rango".
Definition humidity_issue (n : nat) : text :=
  utf8 "Valores de humedad fuera de rango".
Definition completeness_of (df : list Reading) : R := 100.

Definition assess : list Reading -> data_quality_t :=
  DataQuality._assess_data_quality missing_issue temperature_issue
    humidity_issue completeness_of.

(** An engine whose data-quality assessment is the one above. *)
Definition engine : Subanalyses unit :=
  {| _analyze_trends := fun _ => Ok tt;
     _analyze_extremes := fun _ => Ok tt;
     _analyze_agricultural_conditions := fun _ => Ok (AgReport tt);
     _analyze_seasonal_patterns := fun _ => Ok tt;
     _assess_data_quality := fun df => Ok (assess df) |}.

End QualitySamples.

(* ================================================================== *)
(** * Properties *)

Import DateParser Regex.

(** ** Date resolver *)

Ltac reduce_matches :=
  repeat match goal with
  | |- context [Regex.matches ?p ?t] =>
      let b := eval vm_compute in (Regex.matches p t) in
      replace (Regex.matches p t) with b by (vm_compute; reflexivity)
  | |- context [Regex.search ?p ?t] =>
      let b := eval vm_compute in (Regex.search p t) in
      replace (Regex.search p t) with b by (vm_compute; reflexivity)
  end.

(** The matcher on inputs checked against Python's [re]. *)
Example search_needs_word_boundaries :
  option_map (fun m => (group m 1, group m 2, group m 3))
             (search P_fecha_especifica (utf8 "1/2/2024x 3-4-2025"))
  = Some (Some (utf8 "3"), Some (utf8 "4"), Some (utf8 "2025")).
Proof. vm_compute. reflexivity. Qed.

Example hoy_is_a_whole_word :
  matches P_hoy (utf8 "¿hoy?") = true /\ matches P_hoy (utf8 "ñhoy") = false.
Proof. split; vm_compute; reflexivity. Qed.

Example ultimos_dias_groups :
  option_map (fun m => (group m 2, group m 3))
             (search P_ultimos_dias (utf8 "ultimos 12 dias"))
  = Some (None, Some (utf8 "12")).
Proof. vm_compute. reflexivity. Qed.

Example leap_day_round_trip :
  ord2ymd (ymd2ord 2024 2 29) = (2024, 2, 29)%Z
  /\ ord2ymd MAXORD = (9999, 12, 31)%Z
  /\ weekday (ymd2ord 2026 11 4) = 2%Z.
Proof. repeat split; vm_compute; reflexivity. Qed.

Example invalid_calendar_date_has_no_match :
  parse_time_expression Scenario.today (utf8 "31/04/2024") = None.
Proof. vm_compute. reflexivity. Qed.

Example ultimos_5_dias :
  parse_time_expression Scenario.today (utf8 "últimos 5 días")
  = Some {| start := ymd2ord 2026 10 31; end_ := ymd2ord 2026 11 4 |}.
Proof. vm_compute. reflexivity. Qed.

Lemma add_days_ok (d k : Z) :
  (MINORD <= d + k <= MAXORD)%Z -> add_days d k = Ok (d + k)%Z.
Proof.
  intros H. unfold add_days.
  destruct (Z.leb_spec MINORD (d + k)), (Z.leb_spec (d + k) MAXORD);
    simpl; try reflexivity; lia.
Qed.

Lemma weekday_range (d : date) : (0 <= weekday d <= 6)%Z.
Proof. unfold weekday. pose proof (Z.mod_pos_bound (d + 6) 7). lia. Qed.

Lemma previous_week_in_range (today : date) :
  (8 <= today <= MAXORD)%Z ->
  (MINORD <= today - weekday today - 7)%Z
  /\ (today - weekday today - 1 <= MAXORD)%Z.
Proof.
  intros H. unfold weekday, MINORD, MAXORD in *.
  Z.div_mod_to_equations. lia.
Qed.

(** [resolve("última semana")] for any clock whose previous week exists. *)
Lemma ultima_semana_value (today : date) :
  (8 <= today <= MAXORD)%Z ->
  parse_time_expression today (utf8 "última semana")
  = Some {| start := (today - weekday today - 7)%Z;
            end_ := (today - weekday today - 1)%Z |}.
Proof.
  intros Hr.
  destruct (previous_week_in_range Hr) as [Hlo Hhi].
  pose proof (weekday_range today) as Hw.
  unfold parse_time_expression.
  replace (strip (lower (utf8 "última semana")))
    with (utf8 "última semana") by (vm_compute; reflexivity).
  unfold parse_body, _parse_specific_expressions.
  reduce_matches. cbn [bind].
  unfold _parse_specific_dates. reduce_matches. cbn [bind].
  unfold _parse_relative_periods. reduce_matches.
  rewrite add_days_ok by (unfold MAXORD, MINORD in *; lia). cbn [bind].
  rewrite add_days_ok by (unfold MAXORD, MINORD in *; lia). cbn [bind].
  do 2 f_equal; lia.
Qed.

(** C8. For every clock value [today] (from the eighth day of the calendar
    on, so that a previous week exists), [resolve("última semana")] returns
    a range whose start is a Monday, whose end is the Sunday six days
    later, which ends the day before the Monday of the week containing
    [today], and so strictly before [today]. *)
Theorem C8_ultima_semana_previous_week (today : date) :
  (8 <= today <= MAXORD)%Z ->
  exists p : period,
    parse_time_expression today (utf8 "última semana") = Some p
    /\ weekday (start p) = 0%Z
    /\ weekday (end_ p) = 6%Z
    /\ end_ p = (start p + 6)%Z
    /\ (end_ p + 1)%Z = (today - weekday today)%Z
    /\ (end_ p < today)%Z.
Proof.
  intros Hr.
  eexists. split; [ apply (ultima_semana_value Hr) | ].
  cbn [start end_]. unfold weekday.
  Z.div_mod_to_equations. repeat split; lia.
Qed.

Lemma C8_witness :
  (8 <= Scenario.today <= MAXORD)%Z
  /\ exists p : period,
       parse_time_expression Scenario.today (utf8 "última semana") = Some p
       /\ weekday (start p) = 0%Z
       /\ weekday (end_ p) = 6%Z
       /\ end_ p = (start p + 6)%Z
       /\ (end_ p + 1)%Z = (Scenario.today - weekday Scenario.today)%Z
       /\ (end_ p < Scenario.today)%Z.
Proof.
  assert (H : (8 <= Scenario.today <= MAXORD)%Z) by (vm_compute; split; discriminate).
  split; [ exact H | exact (C8_ultima_semana_previous_week H) ].
Defined.

(** ** Resolution order *)

Lemma no_day_word_falls_through (today : date) (n : text) :
  Claims.no_day_word n = true ->
  _parse_specific_expressions today n = Ok None.
Proof.
  unfold Claims.no_day_word, _parse_specific_expressions. intros H.
  apply negb_true_iff in H.
  repeat (apply orb_false_iff in H; destruct H as [H ?]).
  repeat match goal with E : matches _ _ = false |- _ => rewrite E; clear E end.
  reflexivity.
Qed.

Lemma relative_period_decides (today : date) (n : text) :
  Claims.has_relative_period n = true ->
  (r <- _parse_relative_periods today n ;;
   match r with
   | Some p => Ok (Some p)
   | None => _parse_weekday today n
   end)
  = match Claims.relative_period_range today n with
    | Some p => Ok (Some p)
    | None => match _parse_relative_periods today n with
              | Ok _ => Ok None
              | Raise e => Raise e
              end
    end
  /\ _parse_relative_periods today n <> Ok None.
Proof.
  unfold Claims.has_relative_period, Claims.relative_period_range,
    _parse_relative_periods.
  intros H.
  destruct (matches P_ultima_semana n).
  { destruct (add_days today (- (weekday today + 1))) as [e1|]; cbn [bind];
      [ destruct (add_days e1 (-6)); cbn [bind] | ];
      split; (reflexivity || discriminate). }
  destruct (matches P_proxima_semana n).
  { destruct (add_days today (7 - weekday today)) as [e1|]; cbn [bind];
      [ destruct (add_days e1 6); cbn [bind] | ];
      split; (reflexivity || discriminate). }
  destruct (matches P_ultimo_mes n).
  { destruct (add_days (replace_day1 today) (-1)); cbn [bind];
      split; (reflexivity || discriminate). }
  destruct (matches P_proximo_mes n); [ | discriminate H ].
  destruct (add_month (replace_day1 today)) as [e1|]; cbn [bind];
    [ destruct (add_month e1) as [e2|]; cbn [bind];
      [ destruct (add_days e2 (-1)); cbn [bind] | ] | ];
    split; (reflexivity || discriminate).
Qed.

(** C5 (amended). For every text without a literal day word that contains
    a relative named period and an explicit numeric date DD/MM/YYYY, the
    resolver returns the single day of the numeric date when it is a
    calendar date, because explicit dates are tried before relative
    periods; only when the numeric date is not a calendar date does it
    return the relative-period range. *)
Theorem C5_explicit_date_tried_before_relative_period
  (today : date) (t : text) (m : match_) (d mo y : Z) :
  Claims.no_day_word (Claims.normalized t) = true ->
  Claims.has_relative_period (Claims.normalized t) = true ->
  search P_fecha_especifica (Claims.normalized t) = Some m ->
  py_int (group m 1) = Ok d ->
  py_int (group m 2) = Ok mo ->
  py_int (group m 3) = Ok y ->
  parse_time_expression today t
  = match datetime y mo d with
    | Ok dt => Some (single_day dt)
    | Raise _ => Claims.relative_period_range today (Claims.normalized t)
    end.
Proof.
  intros Hday Hrel Hsearch Hd Hmo Hy.
  unfold parse_time_expression. fold (Claims.normalized t).
  unfold parse_body.
  rewrite (no_day_word_falls_through today _ Hday). cbn [bind].
  unfold _parse_specific_dates. rewrite Hsearch, Hd, Hmo, Hy. cbn [bind].
  unfold try_single_day, datetime.
  destruct ((1 <=? y)%Z && (y <=? 9999)%Z && (1 <=? mo)%Z && (mo <=? 12)%Z
            && (1 <=? d)%Z && (d <=? days_in_month y mo)%Z).
  - reflexivity.
  - cbn [bind].
    destruct (relative_period_decides today _ Hrel) as [E _].
    rewrite E. unfold Claims.relative_period_range in *.
    destruct (_parse_relative_periods today (Claims.normalized t))
      as [[p|]|e]; reflexivity.
Qed.

Lemma C5_witness :
  Claims.no_day_word (Claims.normalized Scenario.q_semana_fecha) = true
  /\ Claims.has_relative_period (Claims.normalized Scenario.q_semana_fecha)
     = true
  /\ search P_fecha_especifica (Claims.normalized Scenario.q_semana_fecha)
     = Some Scenario.semana_fecha_match
  /\ parse_time_expression Scenario.today Scenario.q_semana_fecha
     = Some (single_day (ymd2ord 2024 3 15)).
Proof.
  assert (H1 : Claims.no_day_word (Claims.normalized Scenario.q_semana_fecha)
               = true) by (vm_compute; reflexivity).
  assert (H2 : Claims.has_relative_period
                 (Claims.normalized Scenario.q_semana_fecha) = true)
    by (vm_compute; reflexivity).
  assert (H3 : search P_fecha_especifica
                 (Claims.normalized Scenario.q_semana_fecha) = Some Scenario.semana_fecha_match)
    by (vm_compute; reflexivity).
  split; [ exact H1 | split; [ exact H2 | split; [ exact H3 | ] ] ].
  exact (C5_explicit_date_tried_before_relative_period
           Scenario.today Scenario.q_semana_fecha (d := 15) (mo := 3)
           (y := 2024) H1 H2 H3 eq_refl eq_refl eq_refl).
Defined.

(** C5 as stated fails: with "última semana" and "15/03/2024" in one text
    and no day word, the resolver returns 15 March 2024, not the previous
    week (26 October to 1 November 2026 on 4 November 2026). *)
Lemma C5_counterexample :
  Claims.no_day_word (Claims.normalized Scenario.q_semana_fecha) = true
  /\ Claims.has_relative_period (Claims.normalized Scenario.q_semana_fecha)
     = true
  /\ matches P_fecha_especifica (Claims.normalized Scenario.q_semana_fecha)
     = true
  /\ Claims.relative_period_range Scenario.today
       (Claims.normalized Scenario.q_semana_fecha)
     = Some {| start := ymd2ord 2026 10 26; end_ := ymd2ord 2026 11 1 |}
  /\ parse_time_expression Scenario.today Scenario.q_semana_fecha
     = Some (single_day (ymd2ord 2024 3 15))
  /\ parse_time_expression Scenario.today Scenario.q_semana_fecha
     <> Claims.relative_period_range Scenario.today
          (Claims.normalized Scenario.q_semana_fecha).
Proof.
  repeat split; try (vm_compute; reflexivity).
  vm_compute. discriminate.
Qed.

(** ** Intent classifier *)

Import Agent.

Section ClassifierFacts.

Variable report : Type.
Variable env : Collaborators report.

Lemma classify_query_type (state : State report) :
  query_type (classify_query env state)
  = classify_kind (lower (user_query state)).
Proof.
  unfold classify_query.
  destruct (first_in general_keywords (lower (user_query state)));
    reflexivity.
Qed.

Lemma classify_crop_mentioned (state : State report) :
  crop_mentioned (classify_query env state)
  = _extract_crop_mention (user_query state).
Proof.
  unfold classify_query.
  destruct (first_in general_keywords (lower (user_query state)));
    reflexivity.
Qed.

Lemma classify_time_period (state : State report) :
  time_period (classify_query env state)
  = parse_time_expression (now env) (user_query state).
Proof.
  unfold classify_query.
  destruct (first_in general_keywords (lower (user_query state)));
    reflexivity.
Qed.

Lemma classify_error_message (state : State report) :
  error_message (classify_query env state) = error_message state.
Proof.
  unfold classify_query.
  destruct (first_in general_keywords (lower (user_query state)));
    reflexivity.
Qed.

Lemma classify_preserved (state : State report) :
  user_query (classify_query env state) = user_query state
  /\ sensor_data (classify_query env state) = sensor_data state
  /\ final_answer (classify_query env state) = final_answer state
  /\ confidence (classify_query env state) = confidence state
  /\ location_mentioned (classify_query env state)
     = _extract_location_mention (user_query state).
Proof.
  unfold classify_query.
  destruct (first_in general_keywords (lower (user_query state)));
    repeat split; reflexivity.
Qed.

End ClassifierFacts.

(** C7. For every query whose lower-cased text contains a current-status
    cue word, the classifier returns current_status, whatever else the
    query contains (a crop name included): it never returns crop_advice
    for such a query. *)
Theorem C7_current_status_has_priority
  (report : Type) (env : Collaborators report) (query : text) :
  any_in status_cues (lower query) = true ->
  query_type (classify_query env (create_initial_state env query))
  = Q_current_status
  /\ query_type (classify_query env (create_initial_state env query))
     <> Q_crop_advice.
Proof.
  intros H. rewrite classify_query_type. cbn [user_query create_initial_state].
  unfold classify_kind. rewrite H. split; [ reflexivity | discriminate ].
Qed.

Lemma C7_witness :
  any_in status_cues (lower Scenario.q_arroz) = true
  /\ any_in crop_cues (lower Scenario.q_arroz) = true
  /\ query_type (classify_query Scenario.no_telemetry
                   (create_initial_state Scenario.no_telemetry
                      Scenario.q_arroz))
     = Q_current_status
  /\ query_type (classify_query Scenario.no_telemetry
                   (create_initial_state Scenario.no_telemetry
                      Scenario.q_arroz))
     <> Q_crop_advice.
Proof.
  assert (H : any_in status_cues (lower Scenario.q_arroz) = true)
    by (vm_compute; reflexivity).
  split; [ exact H | ].
  split; [ vm_compute; reflexivity | ].
  exact (C7_current_status_has_priority Scenario.no_telemetry
           Scenario.q_arroz H).
Defined.

(** C10. The crop cues of the classification hold only the accented
    spellings, the crop list of the entity extraction also holds "maiz",
    "platano" and "citricos"; so the query "maiz" is classified general
    while crop_mentioned is "maiz". *)
Theorem C10_unaccented_crop_general_yet_mentioned
  (report : Type) (env : Collaborators report) :
  crop_cues = map utf8 ["arroz"; "maíz"; "yuca"; "plátano"; "cacao";
                        "cítricos"]%string
  /\ (forall w, In w (map utf8 ["maiz"; "platano"; "citricos"]%string) ->
        In w crops /\ ~ In w crop_cues)
  /\ query_type (classify_query env (create_initial_state env (utf8 "maiz")))
     = Q_general
  /\ crop_mentioned
       (classify_query env (create_initial_state env (utf8 "maiz")))
     = Some (utf8 "maiz").
Proof.
  split; [ reflexivity | ].
  split.
  { intros w Hw. cbn [map In] in Hw.
    destruct Hw as [<- | [<- | [<- | []]]];
      (split; [ vm_compute; tauto | ]);
      vm_compute; intros H;
      repeat (destruct H as [H | H]; [ discriminate H | ]); exact H. }
  rewrite classify_query_type, classify_crop_mentioned.
  cbn [user_query create_initial_state].
  split; vm_compute; reflexivity.
Qed.

(** ** Range query of the fetch stage *)

Lemma historical_request_last_week
  (report : Type) (env : Collaborators report) (loc : option text) :
  (8 <= now env <= MAXORD)%Z ->
  historical_request env (utf8 "última semana") loc
  = Some ((now env - weekday (now env) - 7)%Z,
          (now env - weekday (now env) - 1)%Z, loc).
Proof.
  intros H. unfold historical_request.
  rewrite (ultima_semana_value H). reflexivity.
Qed.

(** C4 at the query "historia del 15/03/2024", on 4 November 2026: the
    classifier resolves the period 15 March 2024, and the fetch stage
    queries the store for 26 October to 1 November 2026, the previous
    week: no time keyword of the fetch stage occurs in the query, so it
    resolves its default expression "última semana" instead. *)
Theorem C4_range_query_not_from_time_period :
  let state :=
    classify_query Scenario.no_telemetry
      (create_initial_state Scenario.no_telemetry Scenario.q_fecha) in
  query_type state = Q_climate_history
  /\ time_period state = Some (single_day (ymd2ord 2024 3 15))
  /\ _extract_time_expression (user_query state) = utf8 "última semana"
  /\ fetch_range_request Scenario.no_telemetry state
     = Some (ymd2ord 2026 10 26, ymd2ord 2026 11 1, None)
  /\ (forall p, time_period state = Some p ->
        fetch_range_request Scenario.no_telemetry state
        <> Some (start p, end_ p, location_mentioned state)).
Proof.
  cbv zeta.
  split; [ vm_compute; reflexivity | ].
  split; [ vm_compute; reflexivity | ].
  split; [ vm_compute; reflexivity | ].
  split; [ vm_compute; reflexivity | ].
  intros p Hp.
  assert (E : p = single_day (ymd2ord 2024 3 15)).
  { assert (H : time_period
                  (classify_query Scenario.no_telemetry
                     (create_initial_state Scenario.no_telemetry
                        Scenario.q_fecha))
                = Some (single_day (ymd2ord 2024 3 15)))
      by (vm_compute; reflexivity).
    rewrite H in Hp. injection Hp as <-. reflexivity. }
  subst p. vm_compute. discriminate.
Qed.

(** ** Statistics engine *)

Import ClimateAnalyzer.

Section EngineFacts.

Variable report : Type.
Variable sub : Subanalyses report.
Variable now : date.

(** C6. Analysing an empty record sequence returns (it is a total
    function) the empty analysis: data quality "poor", the issue list
    holding the marker "No hay datos", and empty basic statistics. *)
Theorem C6_empty_batch_gives_poor_empty_analysis :
  analyze_climate_data sub now [] = _empty_analysis report now
  /\ quality (data_quality (analyze_climate_data sub now [])) = poor
  /\ In (utf8 "No hay datos")
        (issues (data_quality (analyze_climate_data sub now [])))
  /\ basic_stats (analyze_climate_data sub now []) = [].
Proof.
  repeat split; try reflexivity. left. reflexivity.
Qed.

Lemma single_record_variability_raises (m : metric) (r : Reading) :
  variability_of m [r] = Raise AllNA.
Proof.
  unfold variability_of, groupby. cbn [fold_left group_insert map snd fst].
  unfold Series_std, Series_std_ddof.
  destruct (value_of m r); reflexivity.
Qed.

End EngineFacts.

(** C9. For a batch of exactly one record with valid temperature and
    humidity: the standard deviation of the basic statistics is NaN for
    both metrics, the variability sub-analysis raises on the arg-max of an
    hourly deviation column that is all NaN, and the engine returns the
    same empty analysis as for an empty batch. *)
Theorem C9_single_record_gives_empty_analysis
  (report : Type) (sub : Subanalyses report) (now : date)
  (r : Reading) (t h : R) :
  temperature r = Some t ->
  humidity r = Some h ->
  option_map std_field (get_metric (_calculate_basic_stats [r]) Temperature)
  = Some (Some None)
  /\ option_map std_field (get_metric (_calculate_basic_stats [r]) Humidity)
     = Some (Some None)
  /\ _analyze_variability [r] = Raise AllNA
  /\ analyze_climate_data sub now [r] = _empty_analysis report now
  /\ analyze_climate_data sub now [r] = analyze_climate_data sub now [].
Proof.
  intros Ht Hh.
  assert (Hv : _analyze_variability [r] = Raise AllNA).
  { unfold _analyze_variability.
    rewrite single_record_variability_raises. reflexivity. }
  assert (He : analyze_climate_data sub now [r] = _empty_analysis report now).
  { unfold analyze_climate_data, analyze_body. rewrite Hv.
    destruct (_analyze_trends sub [r]); cbn [bind]; [ | reflexivity ].
    destruct (_analyze_extremes sub [r]); reflexivity. }
  repeat split.
  - unfold _calculate_basic_stats, stats_of, column, Series_std,
      Series_std_ddof.
    cbn [map value_of]. rewrite Ht. reflexivity.
  - unfold _calculate_basic_stats, stats_of, column, Series_std,
      Series_std_ddof.
    cbn [map value_of]. rewrite Hh. reflexivity.
  - exact Hv.
  - exact He.
  - exact He.
Qed.

Lemma C9_witness :
  temperature (Scenario.reading 25 60) = Some 25%R
  /\ humidity (Scenario.reading 25 60) = Some 60%R
  /\ _analyze_variability [Scenario.reading 25 60] = Raise AllNA
  /\ analyze_climate_data Scenario.engine0 Scenario.today
       [Scenario.reading 25 60]
     = _empty_analysis unit Scenario.today.
Proof.
  pose proof (C9_single_record_gives_empty_analysis Scenario.engine0
                Scenario.today (Scenario.reading 25 60)
                (t := 25%R) (h := 60%R) eq_refl eq_refl) as H.
  split; [ reflexivity | ].
  split; [ reflexivity | ].
  split; [ exact (proj1 (proj2 (proj2 H))) | ].
  exact (proj1 (proj2 (proj2 (proj2 H)))).
Defined.

(** *** Standard deviation of the basic statistics *)

Local Open Scope R_scope.

Lemma squared_deviations_nonneg (v : list R) (c : R) :
  0 <= total (map (fun x => (x - c) * (x - c)) v).
Proof.
  unfold total.
  induction v as [| x v IH]; cbn [map fold_right].
  - lra.
  - pose proof (Rle_0_sqr (x - c)) as Hx. unfold Rsqr in Hx. lra.
Qed.

Lemma sq_dev_spec (v : list R) :
  sq_dev v = total (Claims.squared_deviations v).
Proof. reflexivity. Qed.

(** The deviation pandas reports for at least two values is the sample
    standard deviation of the specification's wording. *)
Lemma series_std_sample (s : Series) :
  (2 <= length (dropna s))%nat ->
  Series_std s = Some (Claims.sample_std (dropna s)).
Proof.
  intros H. unfold Series_std, Series_std_ddof, Claims.sample_std.
  destruct (Nat.leb_spec (length (dropna s)) 1) as [Hle | _]; [ lia | ].
  rewrite sq_dev_spec, minus_INR by lia. reflexivity.
Qed.

Lemma series_std_single (s : Series) :
  length (dropna s) = 1%nat -> Series_std s = None.
Proof.
  intros H. unfold Series_std, Series_std_ddof. rewrite H. reflexivity.
Qed.

Lemma get_basic_stats (df : list Reading) (m : metric) :
  get_metric (_calculate_basic_stats df) m = Some (stats_of m df).
Proof. destruct m; reflexivity. Qed.

(** Sample and population deviation agree only on constant data. *)
Lemma sample_std_vs_population_std (v : list R) :
  (2 <= length v)%nat ->
  Claims.population_std v <= Claims.sample_std v
  /\ (Claims.sample_std v = Claims.population_std v
      <-> total (Claims.squared_deviations v) = 0).
Proof.
  intros Hn. unfold Claims.sample_std, Claims.population_std.
  set (a := total (Claims.squared_deviations v)).
  assert (Ha : 0 <= a) by apply squared_deviations_nonneg.
  assert (Hn2 : 2 <= INR (length v)).
  { change 2 with (INR 2). apply le_INR. exact Hn. }
  set (n := INR (length v)) in *.
  assert (H1 : 0 <= a / n).
  { apply Rmult_le_pos; [ lra | ].
    left. apply Rinv_0_lt_compat. lra. }
  assert (H2 : 0 <= a / (n - 1)).
  { apply Rmult_le_pos; [ lra | ].
    left. apply Rinv_0_lt_compat. lra. }
  assert (Hd : a / (n - 1) - a / n = a / (n * (n - 1))).
  { field. lra. }
  assert (Hp : 0 < / (n * (n - 1))).
  { apply Rinv_0_lt_compat. nra. }
  assert (H3 : a / n <= a / (n - 1)).
  { unfold Rdiv in Hd. nra. }
  split.
  - apply sqrt_le_1; assumption.
  - split.
    + intros E. apply sqrt_inj in E; try assumption.
      unfold Rdiv in Hd. nra.
    + intros E. rewrite E. unfold Rdiv. rewrite !Rmult_0_l. reflexivity.
Qed.

(** C3 (amended). For every batch and metric with at least one
    non-missing value, the basic statistics hold an entry for the metric
    whose standard deviation is the sample standard deviation (divisor
    n - 1) of the non-missing values when there are at least two of them,
    and NaN when there is exactly one. *)
Theorem C3_std_is_sample_standard_deviation
  (df : list Reading) (m : metric) :
  (1 <= length (dropna (column m df)))%nat ->
  exists s : metric_stats,
    get_metric (_calculate_basic_stats df) m = Some s
    /\ std_field s
       = Some (if (length (dropna (column m df)) =? 1)%nat then None
               else Some (Claims.sample_std (dropna (column m df)))).
Proof.
  intros H. exists (stats_of m df). split; [ apply get_basic_stats | ].
  unfold stats_of.
  destruct (Nat.ltb_spec 0 (length (dropna (column m df)))) as [_ | Hz];
    [ | lia ].
  cbn [std_field]. f_equal.
  destruct (Nat.eqb_spec (length (dropna (column m df))) 1) as [E | E].
  - apply series_std_single. exact E.
  - apply series_std_sample. lia.
Qed.

Lemma two_readings_temperatures :
  dropna (column Temperature Scenario.two_readings) = [20; 22].
Proof. reflexivity. Qed.

Lemma two_readings_sum_of_squares :
  total (Claims.squared_deviations [20; 22]) = 2.
Proof.
  unfold Claims.squared_deviations, mean_of.
  cbn [map total fold_right length INR]. field.
Qed.

Lemma two_readings_sample_std : Claims.sample_std [20; 22] = sqrt 2.
Proof.
  unfold Claims.sample_std. rewrite two_readings_sum_of_squares.
  cbn [length INR]. f_equal. field.
Qed.

Lemma two_readings_population_std : Claims.population_std [20; 22] = 1.
Proof.
  unfold Claims.population_std. rewrite two_readings_sum_of_squares.
  cbn [length INR]. replace (2 / (1 + 1)) with 1 by field.
  apply sqrt_1.
Qed.

Lemma sqrt2_neq_1 : sqrt 2 <> 1.
Proof.
  intros E. pose proof (sqrt_sqrt 2 ltac:(lra)) as H.
  rewrite E in H. lra.
Qed.

Lemma C3_witness :
  (1 <= length (dropna (column Temperature Scenario.two_readings)))%nat
  /\ exists s : metric_stats,
       get_metric (_calculate_basic_stats Scenario.two_readings) Temperature
       = Some s
       /\ std_field s = Some (Some (Claims.sample_std [20; 22])).
Proof.
  assert (H : (1 <= length (dropna (column Temperature
                                      Scenario.two_readings)))%nat).
  { cbn. apply le_S, le_n. }
  split; [ exact H | ].
  exact (C3_std_is_sample_standard_deviation Scenario.two_readings
           Temperature H).
Defined.

(** C3 as stated fails: for the two readings 20 and 22 the reported
    deviation is the square root of 2, the population deviation is 1. *)
Lemma C3_counterexample :
  Scenario.two_readings <> []
  /\ std_field (stats_of Temperature Scenario.two_readings)
     = Some (Some (sqrt 2))
  /\ Claims.population_std
       (dropna (column Temperature Scenario.two_readings)) = 1
  /\ std_field (stats_of Temperature Scenario.two_readings)
     <> Some (Some (Claims.population_std
                      (dropna (column Temperature Scenario.two_readings)))).
Proof.
  assert (Hs : std_field (stats_of Temperature Scenario.two_readings)
               = Some (Some (sqrt 2))).
  { unfold stats_of. rewrite two_readings_temperatures.
    cbn [length Nat.ltb Nat.leb std_field].
    rewrite series_std_sample
      by (rewrite two_readings_temperatures; cbn; lia).
    rewrite two_readings_temperatures, two_readings_sample_std.
    reflexivity. }
  split; [ discriminate | ].
  split; [ exact Hs | ].
  rewrite Hs, two_readings_temperatures, two_readings_population_std.
  split; [ reflexivity | ].
  intros E. injection E as E. exact (sqrt2_neq_1 E).
Qed.

Local Close Scope R_scope.

(** ** Pipeline *)

Lemma truthy_app_l (a b : text) : truthy a = true -> truthy (a ++ b) = true.
Proof. destruct a; [ discriminate | reflexivity ]. Qed.

Ltac header_truthy :=
  repeat apply truthy_app_l; vm_compute; reflexivity.

Import Claims.

Section PipelineFacts.

Variable report : Type.
Variable env : Collaborators report.

Implicit Type state : State report.

Lemma fetch_error_message state :
  error_message state = None -> error_ok (fetch_sensor_data env state).
Proof.
  intros H. unfold fetch_sensor_data, fetch_body.
  destruct (query_kind_eqb (query_type state) Q_current_status).
  { destruct (get_current_readings env (user_query state)); cbn [bind].
    - left. exact H.
    - right. eexists. split; [ reflexivity | header_truthy ]. }
  destruct (query_kind_eqb (query_type state) Q_climate_history
            && is_some (time_period state)).
  { left. exact H. }
  destruct (query_kind_eqb (query_type state) Q_recommendations
            || query_kind_eqb (query_type state) Q_crop_advice).
  { destruct (get_current_readings env (utf8 "condiciones actuales"));
      cbn [bind].
    - left. exact H.
    - right. eexists. split; [ reflexivity | header_truthy ]. }
  left. exact H.
Qed.

Lemma analyze_error_message state :
  error_message (analyze_node env state) = error_message state.
Proof.
  unfold analyze_node.
  destruct (nonempty (sensor_data state)); [ | reflexivity ].
  destruct (out_of_band _ 15 35), (out_of_band _ 40 90); reflexivity.
Qed.

Lemma analyze_query_type state :
  query_type (analyze_node env state) = query_type state.
Proof.
  unfold analyze_node.
  destruct (nonempty (sensor_data state)); [ | reflexivity ].
  destruct (out_of_band _ 15 35), (out_of_band _ 40 90); reflexivity.
Qed.

Lemma recommend_preserved state :
  error_message (get_crop_recommendations env state) = error_message state
  /\ query_type (get_crop_recommendations env state) = query_type state
  /\ general_info_requested (get_crop_recommendations env state)
     = general_info_requested state
  /\ suggest_general_info (get_crop_recommendations env state)
     = suggest_general_info state.
Proof.
  unfold get_crop_recommendations.
  destruct (query_kind_eqb (query_type state) Q_crop_advice
            && truthy_opt (crop_mentioned state)).
  { destruct (crop_mentioned state) as [crop |];
      [ destruct (CasanareCrops.get_crop_info crop) | ]; repeat split; reflexivity. }
  destruct (query_kind_eqb (query_type state) Q_recommendations);
    repeat split; reflexivity.
Qed.

Lemma status_response_truthy state :
  truthy (_generate_status_response env state) = true.
Proof.
  unfold _generate_status_response.
  destruct (nonempty (sensor_data state)), (climate_summary state),
    (nonempty (recommendations state)); header_truthy.
Qed.

Lemma recommendations_response_truthy state :
  truthy (_generate_recommendations_response state) = true.
Proof.
  unfold _generate_recommendations_response.
  destruct (season_info state), (nonempty (recommendations state));
    header_truthy.
Qed.

Lemma crop_advice_response_truthy state :
  truthy (_generate_crop_advice_response state) = true.
Proof.
  unfold _generate_crop_advice_response.
  destruct (crop_requirements state) as [req |].
  - destruct (truthy_opt (crop_mentioned state)),
      (CasanareCrops.optimal_temperature req) as [[tmin tmax] ti],
      (CasanareCrops.optimal_humidity req) as [[hmin hmax] hi],
      (nonempty (recommendations state)); header_truthy.
  - destruct (nonempty (recommendations state)); header_truthy.
Qed.

Lemma general_response_truthy state :
  truthy (_generate_general_response state) = true.
Proof. vm_compute. reflexivity. Qed.

Lemma history_response_truthy state (r : text) :
  _generate_history_response env state = Ok r -> truthy r = true.
Proof.
  unfold _generate_history_response.
  destruct (time_period state) as [p |].
  - destruct (format_date_range env (start p) (end_ p)); cbn [bind];
      [ | discriminate ].
    intros E. injection E as <-.
    destruct (climate_summary state); header_truthy.
  - cbn [bind]. intros E. injection E as <-.
    destruct (climate_summary state); header_truthy.
Qed.

(** Every answer the response stage produces is non-empty. *)
Lemma response_body_truthy state (r : text) :
  response_body env state = Ok r -> truthy r = true.
Proof.
  unfold response_body.
  assert (H : forall r0, truthy r0 = true ->
    truthy
      (let response :=
         if general_info_requested state then
           r0 ++ nl ++ nl
           ++ utf8 "ℹ️ **Información agrícola solicitada:**" ++ nl
           ++ get_general_agriculture_info env
                (or_default (general_info_category state) [])
         else r0 in
       if suggest_general_info state then
         response ++ nl ++ nl ++ utf8 "⚠️ **Sugerencia técnica:**" ++ nl
         ++ get_general_agriculture_info env
              (or_default (suggested_category state) (utf8 "umbrales"))
       else response) = true).
  { intros r0 H0. cbv zeta.
    destruct (general_info_requested state), (suggest_general_info state);
      repeat apply truthy_app_l; exact H0. }
  cbv zeta in H.
  destruct (query_type state) eqn:K; cbn [bind].
  - intros E. injection E as <-.
    exact (H (_generate_general_response state)
             (general_response_truthy state)).
  - intros E. injection E as <-.
    exact (H (_generate_status_response env state)
             (status_response_truthy state)).
  - destruct (_generate_history_response env state) as [r0 |] eqn:E0;
      cbn [bind]; [ | discriminate ].
    intros E. injection E as <-.
    exact (H r0 (history_response_truthy state E0)).
  - intros E. injection E as <-.
    exact (H (_generate_recommendations_response state)
             (recommendations_response_truthy state)).
  - intros E. injection E as <-.
    exact (H (_generate_crop_advice_response state)
             (crop_advice_response_truthy state)).
  - intros E. injection E as <-.
    exact (H (_generate_general_response state)
             (general_response_truthy state)).
Qed.

Lemma respond_error_message state :
  error_message state = None -> error_ok (generate_final_response env state).
Proof.
  intros H. unfold generate_final_response.
  destruct (response_body env state).
  - left. exact H.
  - right. eexists. split; [ reflexivity | header_truthy ].
Qed.

Lemma respond_ok state (r : text) :
  response_body env state = Ok r ->
  final_answer (generate_final_response env state) = r
  /\ confidence (generate_final_response env state) = 9 # 10
  /\ error_message (generate_final_response env state) = error_message state
  /\ query_type (generate_final_response env state) = query_type state.
Proof.
  intros H. unfold generate_final_response. rewrite H.
  repeat split; reflexivity.
Qed.

(** A stage started without an error message leaves none or a non-empty
    one. *)
Lemma stage_error_message (n : node) state :
  is_stage n = true ->
  error_message state = None ->
  error_ok (run_node env n state).
Proof.
  intros Hn H. destruct n; try discriminate Hn; cbn [run_node].
  - left. rewrite classify_error_message. exact H.
  - apply fetch_error_message. exact H.
  - left. rewrite analyze_error_message. exact H.
  - left. rewrite (proj1 (recommend_preserved state)). exact H.
  - apply respond_error_message. exact H.
Qed.

(** With a non-empty error message every stage routes to the error
    handler. *)
Lemma stage_routes_to_error (n : node) state (e : text) :
  is_stage n = true ->
  error_message state = Some e ->
  truthy e = true ->
  next_node n state = Some N_handle_error.
Proof.
  intros Hn He Ht. unfold next_node.
  destruct n; try discriminate Hn; cbn [router];
    unfold _route_after_classification, _route_after_fetch_data,
      _route_after_analysis, _route_after_crop_recommendations,
      _route_after_final_response;
    rewrite He; cbn [truthy_opt]; rewrite Ht; reflexivity.
Qed.

Lemma next_of_handle_error state (n' : node) :
  next_node N_handle_error state = Some n' -> n' = END.
Proof. unfold next_node. cbn. intros E. injection E as <-. reflexivity. Qed.

(** Invariant of the executions: a stage never starts with an error
    message set. *)
Lemma stage_starts_without_error (q : text) (n : node) state :
  reachable env q n state ->
  is_stage n = true ->
  error_message state = None.
Proof.
  induction 1 as [| n state n' Hreach IH Hnext]; intros Hn'.
  - reflexivity.
  - destruct (is_stage n) eqn:Hn.
    + destruct (stage_error_message n state Hn (IH eq_refl))
        as [Hnone | [e [He Ht]]].
      * exact Hnone.
      * rewrite (stage_routes_to_error n _ Hn He Ht) in Hnext.
        injection Hnext as <-. discriminate Hn'.
    + destruct n; try discriminate Hn.
      * apply next_of_handle_error in Hnext. subst n'. discriminate Hn'.
      * discriminate Hnext.
Qed.

End PipelineFacts.

Section Executions.

Variable report : Type.
Variable env : Collaborators report.

Implicit Type state : State report.

Lemma handle_error_effect state (e : text) :
  error_message state = Some e ->
  truthy e = true ->
  final_answer (handle_error state) = error_answer e
  /\ confidence (handle_error state) = 0%Q
  /\ error_message (handle_error state) = Some e
  /\ query_type (handle_error state) = query_type state.
Proof.
  intros He Ht. unfold handle_error. rewrite He, Ht.
  repeat split; try reflexivity. exact He.
Qed.

Lemma next_node_rank (n n' : node) state :
  next_node n state = Some n' -> (rank n' < rank n)%nat.
Proof.
  unfold next_node. remember (router n state) as r eqn:Hr. clear Hr.
  destruct n, r; cbn [edges]; intros E;
    try discriminate E; injection E as <-; cbn; lia.
Qed.

Lemma invoke_from_step (limit : nat) (n n' : node) state (ran : list node) :
  next_node n (run_node env n state) = Some n' ->
  invoke_from env (S limit) n state ran
  = invoke_from env limit n' (run_node env n state) (ran ++ [n]).
Proof.
  intros H. destruct n; cbn [invoke_from]; try (rewrite H; reflexivity).
  discriminate H.
Qed.

(** An execution that has reached a node is a prefix of the run of
    [graph.invoke], and at most six nodes run in all. *)
Lemma reachable_is_prefix (q : text) (n : node) state :
  reachable env q n state ->
  exists (k : nat) (ran : list node),
    (k + rank n <= 6)%nat
    /\ (forall limit,
          invoke_from env (k + limit) N_classify_query
            (create_initial_state env q) []
          = invoke_from env limit n state ran)
    /\ (is_stage n = true -> Forall (fun m => is_stage m = true) ran).
Proof.
  induction 1 as [| n state n' Hreach IH Hnext].
  - exists 0%nat, []. split; [ cbn; lia | ].
    split; [ reflexivity | constructor ].
  - destruct IH as [k [ran [Hk [Hinv Hst]]]].
    exists (S k), (ran ++ [n]). split.
    + pose proof (next_node_rank _ _ Hnext). lia.
    + split.
      * intros limit.
        replace (S k + limit)%nat with (k + S limit)%nat by lia.
        rewrite Hinv. apply invoke_from_step. exact Hnext.
      * intros Hn'.
        assert (Hn : is_stage n = true).
        { destruct n; try reflexivity.
          - apply next_of_handle_error in Hnext. subst n'.
            discriminate Hn'.
          - discriminate Hnext. }
        apply Forall_app. split; [ exact (Hst Hn) | ].
        constructor; [ exact Hn | constructor ].
Qed.

(** C2. In every execution, once a stage leaves [error_message] set, the
    next node is the error handler and the one after it the terminal: no
    further stage runs; the run of [graph.invoke] ends there, and the
    result of [process_query] carries the error answer built from that
    message, confidence 0, and the message itself unchanged. *)
Theorem C2_error_message_forces_error_path
  (q : text) (n : node) state (e : text) :
  reachable env q n state ->
  is_stage n = true ->
  error_message (run_node env n state) = Some e ->
  next_node n (run_node env n state) = Some N_handle_error
  /\ next_node N_handle_error (handle_error (run_node env n state))
     = Some END
  /\ (exists ran,
        invoke env (create_initial_state env q)
        = Ok (ran ++ [n; N_handle_error],
              handle_error (run_node env n state))
        /\ Forall (fun m => is_stage m = true) ran)
  /\ answer (process_query env q) = error_answer e
  /\ r_confidence (process_query env q) = 0%Q
  /\ r_error_message (process_query env q) = Some e.
Proof.
  intros Hreach Hn He.
  pose proof (stage_starts_without_error Hreach Hn) as Hnone.
  destruct (stage_error_message env n state Hn Hnone) as [H0 | [e' [He' Ht]]];
    [ rewrite H0 in He; discriminate He | ].
  rewrite He in He'. injection He' as <-.
  pose proof (stage_routes_to_error n _ Hn He Ht) as Hnext.
  destruct (handle_error_effect _ He Ht) as [Hfa [Hco [Hem _]]].
  assert (Hend : next_node N_handle_error
                   (handle_error (run_node env n state)) = Some END)
    by reflexivity.
  destruct (reachable_is_prefix Hreach) as [k [ran [Hk [Hinv Hst]]]].
  assert (Hrun : invoke env (create_initial_state env q)
                 = Ok (ran ++ [n; N_handle_error],
                       handle_error (run_node env n state))).
  { unfold invoke, recursion_limit.
    assert (Hk' : (k <= 5)%nat) by (destruct n; cbn in Hk, Hn; try discriminate Hn; lia).
    replace 25%nat with (k + S (S (23 - k)))%nat by lia.
    rewrite Hinv, (invoke_from_step _ _ _ _ Hnext).
    rewrite (invoke_from_step _ _ _ _ Hend).
    destruct (23 - k)%nat; cbn [invoke_from];
      rewrite <- app_assoc; reflexivity. }
  split; [ exact Hnext | ].
  split; [ exact Hend | ].
  split.
  { exists ran. split; [ exact Hrun | exact (Hst Hn) ]. }
  unfold process_query. rewrite Hrun.
  cbn [answer r_confidence r_error_message].
  repeat split; assumption.
Qed.

End Executions.

Lemma C2_witness :
  let env := Scenario.null_location in
  let state :=
    run_node env N_classify_query
      (create_initial_state env Scenario.q_arroz) in
  reachable env Scenario.q_arroz N_fetch_sensor_data state
  /\ is_stage N_fetch_sensor_data = true
  /\ error_message (run_node env N_fetch_sensor_data state)
     = Some (utf8 "Error obteniendo datos de sensores: 'NoneType' object has no attribute 'lower'")
  /\ next_node N_fetch_sensor_data (run_node env N_fetch_sensor_data state)
     = Some N_handle_error
  /\ r_confidence (process_query env Scenario.q_arroz) = 0%Q
  /\ r_error_message (process_query env Scenario.q_arroz)
     = Some (utf8 "Error obteniendo datos de sensores: 'NoneType' object has no attribute 'lower'").
Proof.
  intros env state.
  assert (Hreach : reachable env Scenario.q_arroz N_fetch_sensor_data state).
  { apply reach_step; [ apply reach_entry | vm_compute; reflexivity ]. }
  assert (Hstage : is_stage N_fetch_sensor_data = true) by reflexivity.
  assert (Herr : error_message (run_node env N_fetch_sensor_data state)
                 = Some (utf8 "Error obteniendo datos de sensores: 'NoneType' object has no attribute 'lower'"))
    by (vm_compute; reflexivity).
  pose proof (C2_error_message_forces_error_path Hreach Hstage Herr) as H.
  split; [ exact Hreach | ].
  split; [ exact Hstage | ].
  split; [ exact Herr | ].
  split; [ exact (proj1 H) | ].
  split; [ exact (proj1 (proj2 (proj2 (proj2 (proj2 H))))) | ].
  exact (proj2 (proj2 (proj2 (proj2 (proj2 H))))).
Defined.

Section Routes.

Variable report : Type.
Variable env : Collaborators report.

Lemma classified_route (q : text) :
  next_node N_classify_query
    (run_node env N_classify_query (create_initial_state env q))
  = match classify_kind (lower q) with
    | Q_current_status | Q_climate_history => Some N_fetch_sensor_data
    | Q_crop_advice | Q_recommendations => Some N_get_crop_recommendations
    | _ => Some END
    end.
Proof.
  unfold next_node. cbn [run_node router].
  unfold _route_after_classification.
  rewrite classify_error_message, classify_query_type.
  cbn [error_message create_initial_state truthy_opt user_query].
  destruct (classify_kind (lower q)); reflexivity.
Qed.

(** A query classified general ends right after the classifier. *)
Lemma general_run (q : text) :
  classify_kind (lower q) = Q_general ->
  invoke env (create_initial_state env q)
  = Ok ([N_classify_query],
        classify_query env (create_initial_state env q)).
Proof.
  intros K. unfold invoke, recursion_limit.
  change 25%nat with (S 24).
  rewrite (@invoke_from_step _ env 24 N_classify_query END);
    [ reflexivity | ].
  rewrite classified_route, K. reflexivity.
Qed.

Lemma recommendations_response_ok (state : State report) :
  query_type state = Q_recommendations ->
  exists r, response_body env state = Ok r.
Proof.
  intros K. unfold response_body. rewrite K. cbn [bind].
  eexists. reflexivity.
Qed.

(** A query classified recommendations runs classify, recommend and
    respond, and ends with a non-empty answer and confidence 0.9. *)
Lemma recommendations_run (q : text) :
  classify_kind (lower q) = Q_recommendations ->
  exists final : State report,
    invoke env (create_initial_state env q)
    = Ok ([N_classify_query; N_get_crop_recommendations;
           N_generate_final_response], final)
    /\ query_type final = Q_recommendations
    /\ truthy (final_answer final) = true
    /\ confidence final = 9 # 10
    /\ error_message final = None.
Proof.
  intros K.
  set (s0 := create_initial_state env q).
  set (s1 := run_node env N_classify_query s0).
  set (s2 := run_node env N_get_crop_recommendations s1).
  set (s3 := run_node env N_generate_final_response s2).
  assert (E1 : error_message s1 = None).
  { unfold s1. cbn [run_node]. rewrite classify_error_message. reflexivity. }
  assert (K1 : query_type s1 = Q_recommendations).
  { unfold s1. cbn [run_node]. rewrite classify_query_type. exact K. }
  destruct (recommend_preserved env s1) as [E2 [K2 _]].
  fold (run_node env N_get_crop_recommendations s1) in E2, K2.
  fold s2 in E2, K2. rewrite E1 in E2. rewrite K1 in K2.
  destruct (recommendations_response_ok s2 K2) as [r Hr].
  destruct (respond_ok env s2 Hr) as [F3 [C3 [E3 K3]]].
  fold (run_node env N_generate_final_response s2) in F3, C3, E3, K3.
  fold s3 in F3, C3, E3, K3. rewrite E2 in E3. rewrite K2 in K3.
  pose proof (response_body_truthy env s2 Hr) as T3. rewrite <- F3 in T3.
  assert (H1 : next_node N_classify_query s1
               = Some N_get_crop_recommendations).
  { unfold s1, s0. rewrite classified_route, K. reflexivity. }
  assert (H2 : next_node N_get_crop_recommendations s2
               = Some N_generate_final_response).
  { unfold next_node. cbn [router].
    unfold _route_after_crop_recommendations. rewrite E2. reflexivity. }
  assert (H3 : next_node N_generate_final_response s3 = Some END).
  { unfold next_node. cbn [router].
    unfold _route_after_final_response. rewrite E3, T3. reflexivity. }
  exists s3. split.
  - unfold invoke, recursion_limit. change 25%nat with (S (S (S 22))).
    fold s0.
    rewrite (@invoke_from_step _ env _ _ _ s0 [] H1). fold s1.
    rewrite (@invoke_from_step _ env _ _ _ s1 _ H2). fold s2.
    rewrite (@invoke_from_step _ env _ _ _ s2 _ H3). fold s3.
    reflexivity.
  - repeat split; assumption.
Qed.

End Routes.

(** C1 (amended). The query "¿qué debería sembrar esta temporada?" is
    classified general (no cue is a substring of it; the advisory cue is
    the phrase "qué sembrar") and runs neither fetch nor analyze.  Every
    query classified recommendations runs classify, recommend and respond
    (never fetch or analyze) and reaches the terminal with query_type
    recommendations, a non-empty final answer and confidence 0.9, whatever
    the telemetry store holds.  Every query classified general runs
    neither fetch nor analyze, and the router after classification never
    sends a general or unclassified state to fetch or analyze. *)
Theorem C1_routes_of_recommendations_and_general
  (report : Type) (env : Collaborators report) :
  (r_query_type (process_query env Scenario.q_sembrar) = Some Q_general
   /\ ~ In N_fetch_sensor_data (nodes_run env Scenario.q_sembrar)
   /\ ~ In N_analyze_climate_data (nodes_run env Scenario.q_sembrar))
  /\ (forall q : text,
        classify_kind (lower q) = Q_recommendations ->
        nodes_run env q
        = [N_classify_query; N_get_crop_recommendations;
           N_generate_final_response]
        /\ r_query_type (process_query env q) = Some Q_recommendations
        /\ answer (process_query env q) <> []
        /\ r_confidence (process_query env q) = 9 # 10
        /\ r_error_message (process_query env q) = None)
  /\ (forall q : text,
        classify_kind (lower q) = Q_general ->
        ~ In N_fetch_sensor_data (nodes_run env q)
        /\ ~ In N_analyze_climate_data (nodes_run env q))
  /\ (forall state : State report,
        query_type state = Q_general \/ query_type state = Q_unset ->
        next_node N_classify_query state <> Some N_fetch_sensor_data
        /\ next_node N_classify_query state
           <> Some N_analyze_climate_data).
Proof.
  assert (G : forall q : text,
            classify_kind (lower q) = Q_general ->
            r_query_type (process_query env q) = Some Q_general
            /\ ~ In N_fetch_sensor_data (nodes_run env q)
            /\ ~ In N_analyze_climate_data (nodes_run env q)).
  { intros q K. unfold process_query, nodes_run.
    rewrite (general_run env q K). cbn [r_query_type].
    rewrite classify_query_type.
    cbn [user_query create_initial_state]. rewrite K.
    split; [ reflexivity | ].
    split; intros [H | []]; discriminate H. }
  split; [ apply G; vm_compute; reflexivity | ].
  split; [ | split; [ intros q K; exact (proj2 (G q K)) | ] ].
  2: { intros state K. unfold next_node. cbn [router].
       unfold _route_after_classification.
       destruct (truthy_opt (error_message state));
         [ split; discriminate | ].
       destruct K as [K | K]; rewrite K; split; discriminate. }
  intros q K.
  destruct (recommendations_run env q K) as [final [Hrun [Hk [Ht [Hc He]]]]].
  unfold process_query, nodes_run. rewrite Hrun.
  cbn [answer r_query_type r_confidence r_error_message].
  split; [ reflexivity | ].
  split; [ rewrite Hk; reflexivity | ].
  split; [ intros E; rewrite E in Ht; discriminate Ht | ].
  split; assumption.
Qed.

Lemma C1_witness :
  classify_kind (lower Scenario.q_que_sembrar) = Q_recommendations
  /\ nodes_run Scenario.no_telemetry Scenario.q_que_sembrar
     = [N_classify_query; N_get_crop_recommendations;
        N_generate_final_response]
  /\ r_query_type (process_query Scenario.no_telemetry
                     Scenario.q_que_sembrar) = Some Q_recommendations
  /\ answer (process_query Scenario.no_telemetry Scenario.q_que_sembrar)
     <> []
  /\ r_confidence (process_query Scenario.no_telemetry
                     Scenario.q_que_sembrar) = 9 # 10.
Proof.
  assert (K : classify_kind (lower Scenario.q_que_sembrar)
              = Q_recommendations) by (vm_compute; reflexivity).
  pose proof (proj1 (proj2 (C1_routes_of_recommendations_and_general
                              Scenario.no_telemetry))
                Scenario.q_que_sembrar K) as H.
  split; [ exact K | ].
  split; [ exact (proj1 H) | ].
  split; [ exact (proj1 (proj2 H)) | ].
  split; [ exact (proj1 (proj2 (proj2 H))) | ].
  exact (proj1 (proj2 (proj2 (proj2 H)))).
Defined.

(** C1 as stated fails: with no telemetry, the query "¿qué debería sembrar
    esta temporada?" is classified general, only the classifier runs, the
    final answer is empty and the confidence is 0. *)
Lemma C1_counterexample :
  r_query_type (process_query Scenario.no_telemetry Scenario.q_sembrar)
  = Some Q_general
  /\ r_query_type (process_query Scenario.no_telemetry Scenario.q_sembrar)
     <> Some Q_recommendations
  /\ nodes_run Scenario.no_telemetry Scenario.q_sembrar = [N_classify_query]
  /\ ~ In N_generate_final_response
         (nodes_run Scenario.no_telemetry Scenario.q_sembrar)
  /\ answer (process_query Scenario.no_telemetry Scenario.q_sembrar) = []
  /\ r_confidence (process_query Scenario.no_telemetry Scenario.q_sembrar)
     = 0%Q
  /\ r_confidence (process_query Scenario.no_telemetry Scenario.q_sembrar)
     <> 9 # 10.
Proof.
  split; [ vm_compute; reflexivity | ].
  split; [ vm_compute; discriminate | ].
  split; [ vm_compute; reflexivity | ].
  split; [ vm_compute; intros [H | []]; discriminate H | ].
  split; [ vm_compute; reflexivity | ].
  split; [ vm_compute; reflexivity | ].
  vm_compute; discriminate.
Qed.

(** ** Whole executions *)

Section RunCases.

Variable report : Type.
Variable env : Collaborators report.

Implicit Type state : State report.

Lemma classify_fresh (q : text) :
  let s1 := classify_query env (create_initial_state env q) in
  error_message s1 = None
  /\ query_type s1 = classify_kind (lower q)
  /\ sensor_data s1 = []
  /\ final_answer s1 = []
  /\ confidence s1 = 0%Q
  /\ processing_steps s1 = [utf8 "query_classified"]
  /\ climate_summary s1 = None
  /\ recommendations s1 = []
  /\ crop_requirements s1 = None.
Proof.
  cbv zeta. unfold classify_query.
  destruct (first_in general_keywords
              (lower (user_query (create_initial_state env q))));
    repeat split; reflexivity.
Qed.

Lemma fetch_body_ok state (s' : State report) :
  fetch_body env state = Ok s' ->
  query_type s' = query_type state
  /\ error_message s' = error_message state
  /\ final_answer s' = final_answer state
  /\ confidence s' = confidence state
  /\ processing_steps s' = processing_steps state.
Proof.
  unfold fetch_body.
  destruct (query_kind_eqb (query_type state) Q_current_status).
  { destruct (get_current_readings env (user_query state)); cbn [bind];
      [ | discriminate ].
    intros E. injection E as <-. repeat split; reflexivity. }
  destruct (query_kind_eqb (query_type state) Q_climate_history
            && is_some (time_period state)).
  { intros E. injection E as <-. repeat split; reflexivity. }
  destruct (query_kind_eqb (query_type state) Q_recommendations
            || query_kind_eqb (query_type state) Q_crop_advice).
  { destruct (get_current_readings env (utf8 "condiciones actuales"));
      cbn [bind]; [ | discriminate ].
    intros E. injection E as <-. repeat split; reflexivity. }
  intros E. injection E as <-. repeat split; reflexivity.
Qed.

Lemma fetch_ok state (s' : State report) :
  fetch_body env state = Ok s' ->
  fetch_sensor_data env state = append_step (utf8 "sensor_data_fetched") s'.
Proof. intros H. unfold fetch_sensor_data. rewrite H. reflexivity. Qed.

Lemma fetch_raise state (e : text) :
  fetch_body env state = Raise e ->
  fetch_sensor_data env state
  = set_error_message
      (Some (utf8 "Error obteniendo datos de sensores: " ++ e)) state.
Proof. intros H. unfold fetch_sensor_data. rewrite H. reflexivity. Qed.

Lemma analyze_preserved state :
  error_message (analyze_node env state) = error_message state
  /\ query_type (analyze_node env state) = query_type state
  /\ final_answer (analyze_node env state) = final_answer state
  /\ confidence (analyze_node env state) = confidence state
  /\ sensor_data (analyze_node env state) = sensor_data state
  /\ processing_steps (analyze_node env state)
     = processing_steps state ++ [utf8 "climate_analyzed"].
Proof.
  unfold analyze_node.
  destruct (nonempty (sensor_data state)); [ | repeat split; reflexivity ].
  destruct (out_of_band _ 15 35), (out_of_band _ 40 90);
    repeat split; reflexivity.
Qed.

Lemma analyze_summary state :
  nonempty (sensor_data state) = true ->
  climate_summary (analyze_node env state)
  = Some (ClimateAnalyzer.analyze_climate_data (engine env) (now env)
            (sensor_data state)).
Proof.
  intros H. unfold analyze_node. rewrite H.
  destruct (out_of_band _ 15 35), (out_of_band _ 40 90); reflexivity.
Qed.

Lemma recommend_more state :
  final_answer (get_crop_recommendations env state) = final_answer state
  /\ confidence (get_crop_recommendations env state) = confidence state
  /\ sensor_data (get_crop_recommendations env state) = sensor_data state
  /\ processing_steps (get_crop_recommendations env state)
     = processing_steps state ++ [utf8 "crop_recommendations_generated"]
  /\ crop_mentioned (get_crop_recommendations env state)
     = crop_mentioned state.
Proof.
  unfold get_crop_recommendations.
  destruct (query_kind_eqb (query_type state) Q_crop_advice
            && truthy_opt (crop_mentioned state)).
  { destruct (crop_mentioned state) as [crop |] eqn:Hc;
      [ destruct (CasanareCrops.get_crop_info crop) | ];
      repeat split; try reflexivity; exact Hc. }
  destruct (query_kind_eqb (query_type state) Q_recommendations);
    repeat split; reflexivity.
Qed.

Lemma respond_raise state (e : text) :
  response_body env state = Raise e ->
  error_message (generate_final_response env state)
  = Some (utf8 "Error generando respuesta final: " ++ e)
  /\ query_type (generate_final_response env state) = query_type state
  /\ processing_steps (generate_final_response env state)
     = processing_steps state.
Proof.
  intros H. unfold generate_final_response. rewrite H.
  repeat split; reflexivity.
Qed.

Lemma respond_steps state (r : text) :
  response_body env state = Ok r ->
  processing_steps (generate_final_response env state)
  = processing_steps state ++ [utf8 "final_response_generated"].
Proof.
  intros H. unfold generate_final_response. rewrite H. reflexivity.
Qed.

(** Only the history template can raise (through the date formatter). *)
Lemma response_body_total state :
  query_type state <> Q_climate_history ->
  exists r, response_body env state = Ok r.
Proof.
  intros K. unfold response_body.
  destruct (query_type state); cbn [bind];
    try (eexists; reflexivity).
  contradiction K; reflexivity.
Qed.

Lemma error_prefix_truthy (prefix : string) (e : text) :
  truthy (utf8 prefix) = true -> truthy (utf8 prefix ++ e) = true.
Proof. apply truthy_app_l. Qed.

(** The run of [graph.invoke], by cases on the classification, on the
    outcome of the fetch and on the outcome of the response. *)
Lemma run_cases (q : text) :
  let s1 := classify_query env (create_initial_state env q) in
  match classify_kind (lower q) with
  | Q_general | Q_unset =>
    invoke env (create_initial_state env q) = Ok ([N_classify_query], s1)
  | Q_recommendations | Q_crop_advice =>
    let s2 := get_crop_recommendations env s1 in
    invoke env (create_initial_state env q)
    = Ok ([N_classify_query; N_get_crop_recommendations;
           N_generate_final_response],
          generate_final_response env s2)
    /\ exists r, response_body env s2 = Ok r
  | Q_current_status | Q_climate_history =>
    let s2 := fetch_sensor_data env s1 in
    match fetch_body env s1 with
    | Raise e =>
      invoke env (create_initial_state env q)
      = Ok ([N_classify_query; N_fetch_sensor_data; N_handle_error],
            handle_error s2)
    | Ok s2' =>
      if nonempty (sensor_data s2') then
        let s3 := analyze_node env s2 in
        match response_body env s3 with
        | Ok r =>
          invoke env (create_initial_state env q)
          = Ok ([N_classify_query; N_fetch_sensor_data;
                 N_analyze_climate_data; N_generate_final_response],
                generate_final_response env s3)
        | Raise e =>
          invoke env (create_initial_state env q)
          = Ok ([N_classify_query; N_fetch_sensor_data;
                 N_analyze_climate_data; N_generate_final_response;
                 N_handle_error],
                handle_error (generate_final_response env s3))
        end
      else
        invoke env (create_initial_state env q)
        = Ok ([N_classify_query; N_fetch_sensor_data], s2)
    end
  end.
Proof.
  cbv zeta.
  set (s0 := create_initial_state env q).
  set (s1 := classify_query env s0).
  destruct (classify_fresh q) as [E1 [K1 _]]. fold s0 s1 in E1, K1.
  pose proof (classified_route env q) as H1.
  cbn [run_node] in H1. fold s0 s1 in H1.
  assert (Fetch :
    classify_kind (lower q) = Q_current_status
    \/ classify_kind (lower q) = Q_climate_history ->
    let s2 := fetch_sensor_data env s1 in
    match fetch_body env s1 with
    | Raise e =>
      invoke env s0
      = Ok ([N_classify_query; N_fetch_sensor_data; N_handle_error],
            handle_error s2)
    | Ok s2' =>
      if nonempty (sensor_data s2') then
        let s3 := analyze_node env s2 in
        match response_body env s3 with
        | Ok r =>
          invoke env s0
          = Ok ([N_classify_query; N_fetch_sensor_data;
                 N_analyze_climate_data; N_generate_final_response],
                generate_final_response env s3)
        | Raise e =>
          invoke env s0
          = Ok ([N_classify_query; N_fetch_sensor_data;
                 N_analyze_climate_data; N_generate_final_response;
                 N_handle_error],
                handle_error (generate_final_response env s3))
        end
      else
        invoke env s0 = Ok ([N_classify_query; N_fetch_sensor_data], s2)
    end).
  { intros K. cbv zeta.
    assert (H1' : next_node N_classify_query
                    (run_node env N_classify_query s0)
                  = Some N_fetch_sensor_data).
    { cbn [run_node]. fold s1. rewrite H1.
      destruct K as [K | K]; rewrite K; reflexivity. }
    assert (K1' : query_type s1 = Q_current_status
                  \/ query_type s1 = Q_climate_history)
      by (rewrite K1; exact K).
    unfold invoke, recursion_limit.
    change 25%nat with (S (S (S (S (S 20))))).
    rewrite (invoke_from_step env _ _ _ _ H1').
    cbn [run_node app]. fold s1.
    destruct (fetch_body env s1) as [s2' | e] eqn:Hf.
    - destruct (fetch_body_ok _ Hf) as [K2 [E2 _]].
      rewrite (fetch_ok _ Hf).
      set (s2 := append_step (utf8 "sensor_data_fetched") s2').
      assert (E2' : error_message s2 = None) by (rewrite <- E1; exact E2).
      assert (K2' : query_type s2 = query_type s1) by exact K2.
      destruct (nonempty (sensor_data s2')) eqn:Hd.
      + assert (H2 : next_node N_fetch_sensor_data
                       (run_node env N_fetch_sensor_data s1)
                     = Some N_analyze_climate_data).
        { cbn [run_node]. rewrite (fetch_ok _ Hf). fold s2.
          unfold next_node. cbn [router]. unfold _route_after_fetch_data.
          rewrite E2'. cbn [truthy_opt].
          change (sensor_data s2) with (sensor_data s2').
          rewrite Hd. reflexivity. }
        rewrite (invoke_from_step env _ _ _ _ H2).
        cbn [run_node app]. rewrite (fetch_ok _ Hf). fold s2.
        destruct (analyze_preserved s2) as [E3 [K3 _]].
        set (s3 := analyze_node env s2) in *.
        assert (H3 : next_node N_analyze_climate_data
                       (run_node env N_analyze_climate_data s2)
                     = Some N_generate_final_response).
        { cbn [run_node]. fold s3. unfold next_node. cbn [router].
          unfold _route_after_analysis. rewrite E3, E2', K3, K2'.
          cbn [truthy_opt].
          destruct K1' as [K' | K']; rewrite K'; reflexivity. }
        rewrite (invoke_from_step env _ _ _ _ H3).
        cbn [run_node app]. fold s3.
        destruct (response_body env s3) as [r | e] eqn:Hr.
        * destruct (respond_ok env s3 Hr) as [F4 [_ [E4 _]]].
          pose proof (response_body_truthy env s3 Hr) as T4.
          assert (H4 : next_node N_generate_final_response
                         (run_node env N_generate_final_response s3)
                       = Some END).
          { cbn [run_node]. unfold next_node. cbn [router].
            unfold _route_after_final_response.
            rewrite E4, E3, E2', F4, T4. reflexivity. }
          rewrite (invoke_from_step env _ _ _ _ H4). reflexivity.
        * destruct (respond_raise s3 Hr) as [E4 _].
          assert (H4 : next_node N_generate_final_response
                         (run_node env N_generate_final_response s3)
                       = Some N_handle_error).
          { cbn [run_node].
            apply (stage_routes_to_error N_generate_final_response _
                     eq_refl E4).
            header_truthy. }
          rewrite (invoke_from_step env _ _ _ _ H4).
          cbn [run_node app].
          rewrite (@invoke_from_step _ env _ N_handle_error END);
            reflexivity.
      + assert (H2 : next_node N_fetch_sensor_data
                       (run_node env N_fetch_sensor_data s1) = Some END).
        { cbn [run_node]. rewrite (fetch_ok _ Hf). fold s2.
          unfold next_node. cbn [router]. unfold _route_after_fetch_data.
          rewrite E2'. cbn [truthy_opt].
          change (sensor_data s2) with (sensor_data s2').
          rewrite Hd, K2'.
          destruct K1' as [K' | K']; rewrite K'; reflexivity. }
        rewrite (invoke_from_step env _ _ _ _ H2).
        cbn [run_node]. rewrite (fetch_ok _ Hf). reflexivity.
    - assert (E2 : error_message (fetch_sensor_data env s1)
                   = Some (utf8 "Error obteniendo datos de sensores: "
                           ++ e))
        by (rewrite (fetch_raise _ Hf); reflexivity).
      assert (H2 : next_node N_fetch_sensor_data
                     (run_node env N_fetch_sensor_data s1)
                   = Some N_handle_error).
      { cbn [run_node].
        apply (stage_routes_to_error N_fetch_sensor_data _ eq_refl E2).
        header_truthy. }
      rewrite (invoke_from_step env _ _ _ _ H2).
      cbn [run_node app].
      rewrite (@invoke_from_step _ env _ N_handle_error END);
        reflexivity. }
  assert (Advice :
    classify_kind (lower q) = Q_recommendations
    \/ classify_kind (lower q) = Q_crop_advice ->
    let s2 := get_crop_recommendations env s1 in
    invoke env s0
    = Ok ([N_classify_query; N_get_crop_recommendations;
           N_generate_final_response],
          generate_final_response env s2)
    /\ exists r, response_body env s2 = Ok r).
  { intros K. cbv zeta.
    assert (H1' : next_node N_classify_query
                    (run_node env N_classify_query s0)
                  = Some N_get_crop_recommendations).
    { cbn [run_node]. fold s1. rewrite H1.
      destruct K as [K | K]; rewrite K; reflexivity. }
    destruct (recommend_preserved env s1) as [E2 [K2 _]].
    set (s2 := get_crop_recommendations env s1) in *.
    rewrite E1 in E2. rewrite K1 in K2.
    assert (Hne : query_type s2 <> Q_climate_history).
    { rewrite K2. destruct K as [K | K]; rewrite K; discriminate. }
    destruct (response_body_total s2 Hne) as [r Hr].
    split; [ | exists r; exact Hr ].
    destruct (respond_ok env s2 Hr) as [F3 [_ [E3 _]]].
    pose proof (response_body_truthy env s2 Hr) as T3.
    assert (H2 : next_node N_get_crop_recommendations
                   (run_node env N_get_crop_recommendations s1)
                 = Some N_generate_final_response).
    { cbn [run_node]. fold s2. unfold next_node. cbn [router].
      unfold _route_after_crop_recommendations. rewrite E2. reflexivity. }
    assert (H3 : next_node N_generate_final_response
                   (run_node env N_generate_final_response s2)
                 = Some END).
    { cbn [run_node]. unfold next_node. cbn [router].
      unfold _route_after_final_response.
      rewrite E3, E2, F3, T3. reflexivity. }
    unfold invoke, recursion_limit. change 25%nat with (S (S (S 22))).
    rewrite (invoke_from_step env _ _ _ _ H1').
    cbn [run_node app]. fold s1.
    rewrite (invoke_from_step env _ _ _ _ H2).
    cbn [run_node app]. fold s2.
    rewrite (invoke_from_step env _ _ _ _ H3). reflexivity. }
  assert (General :
    classify_kind (lower q) = Q_general
    \/ classify_kind (lower q) = Q_unset ->
    invoke env s0 = Ok ([N_classify_query], s1)).
  { intros K.
    assert (H1' : next_node N_classify_query
                    (run_node env N_classify_query s0) = Some END).
    { cbn [run_node]. fold s1. rewrite H1.
      destruct K as [K | K]; rewrite K; reflexivity. }
    unfold invoke, recursion_limit. change 25%nat with (S 24).
    rewrite (invoke_from_step env _ _ _ _ H1'). reflexivity. }
  destruct (classify_kind (lower q)) eqn:K.
  - apply General. right. reflexivity.
  - apply Fetch. left. reflexivity.
  - apply Fetch. right. reflexivity.
  - apply Advice. left. reflexivity.
  - apply Advice. right. reflexivity.
  - apply General. left. reflexivity.
Qed.

End RunCases.

Section RunSummary.

Variable report : Type.
Variable env : Collaborators report.

Implicit Type state : State report.

Lemma handle_error_keeps state :
  query_type (handle_error state) = query_type state
  /\ processing_steps (handle_error state) = processing_steps state
  /\ error_message (handle_error state) = error_message state.
Proof.
  unfold handle_error.
  destruct (error_message state) as [msg |] eqn:E;
    [ destruct (truthy msg) | ]; repeat split; try reflexivity;
    exact E.
Qed.

Lemma run_summary (q : text) :
  exists (ran : list node) (final : State report),
    invoke env (create_initial_state env q) = Ok (ran, final)
    /\ In ran Trail.paths
    /\ query_type final = classify_kind (lower q)
    /\ Trail.ending ran final.
Proof.
  pose proof (run_cases env q) as H. cbv zeta in H.
  destruct (classify_fresh env q)
    as [E1 [K1 [D1 [F1 [C1 [P1 _]]]]]].
  set (s1 := classify_query env (create_initial_state env q)) in *.
  assert (Advice :
    forall s2 r,
      s2 = get_crop_recommendations env s1 ->
      response_body env s2 = Ok r ->
      query_type (generate_final_response env s2) = classify_kind (lower q)
      /\ Trail.ending [N_classify_query; N_get_crop_recommendations;
                 N_generate_final_response]
                (generate_final_response env s2)).
  { intros s2 r -> Hr.
    destruct (recommend_preserved env s1) as [E2 [K2 _]].
    destruct (recommend_more env s1) as [_ [_ [_ [P2 _]]]].
    destruct (respond_ok env _ Hr) as [F3 [C3 [E3 K3]]].
    split; [ rewrite K3, K2; exact K1 | ].
    apply Trail.ended_answered.
    - rewrite E3, E2. exact E1.
    - right. right. left. reflexivity.
    - rewrite F3. exact (response_body_truthy env _ Hr).
    - exact C3.
    - rewrite (respond_steps env _ Hr), P2, P1. reflexivity. }
  assert (Fetch :
    forall s2' : State report,
      fetch_body env s1 = Ok s2' ->
      let s2 := fetch_sensor_data env s1 in
      error_message s2 = None
      /\ query_type s2 = classify_kind (lower q)
      /\ final_answer s2 = []
      /\ confidence s2 = 0%Q
      /\ processing_steps s2
         = [utf8 "query_classified"; utf8 "sensor_data_fetched"]).
  { intros s2' Hf. cbv zeta. rewrite (fetch_ok env _ Hf).
    destruct (fetch_body_ok env _ Hf) as [K2 [E2 [F2 [C2 P2]]]].
    repeat split.
    - change (error_message s2' = None). rewrite E2. exact E1.
    - change (query_type s2' = classify_kind (lower q)).
      rewrite K2. exact K1.
    - change (final_answer s2' = []). rewrite F2. exact F1.
    - change (confidence s2' = 0%Q). rewrite C2. exact C1.
    - change (processing_steps s2' ++ [utf8 "sensor_data_fetched"]
              = [utf8 "query_classified"; utf8 "sensor_data_fetched"]).
      rewrite P2, P1. reflexivity. }
  destruct (classify_kind (lower q)) eqn:K.
  - exists [N_classify_query], s1.
    split; [ exact H | ]. split; [ left; reflexivity | ].
    split; [ exact K1 | ].
    apply Trail.ended_silent; try assumption.
    intros [X | []]; discriminate X.
  - destruct (fetch_body env s1) as [s2' | e] eqn:Hf.
    + destruct (Fetch s2' eq_refl) as [E2 [K2 [F2 [C2 P2]]]].
      destruct (nonempty (sensor_data s2')).
      * destruct (analyze_preserved env (fetch_sensor_data env s1))
          as [E3 [K3 [F3 [C3 [_ P3]]]]].
        destruct (response_body env
                    (analyze_node env (fetch_sensor_data env s1)))
          as [r | e] eqn:Hr.
        -- eexists _, _. split; [ exact H | ].
           split; [ right; right; right; left; reflexivity | ].
           destruct (respond_ok env _ Hr) as [F4 [C4 [E4 K4]]].
           split; [ rewrite K4, K3; exact K2 | ].
           apply Trail.ended_answered.
           ++ rewrite E4, E3. exact E2.
           ++ right. right. right. left. reflexivity.
           ++ rewrite F4. exact (response_body_truthy env _ Hr).
           ++ exact C4.
           ++ rewrite (respond_steps env _ Hr), P3, P2. reflexivity.
        -- eexists _, _. split; [ exact H | ].
           split; [ right; right; right; right; left; reflexivity | ].
           destruct (respond_raise env _ Hr) as [E4 [K4 P4]].
           destruct (handle_error_keeps
                       (generate_final_response env
                          (analyze_node env (fetch_sensor_data env s1))))
             as [K5 [P5 _]].
           split; [ rewrite K5, K4, K3; exact K2 | ].
           assert (T : truthy (utf8 "Error generando respuesta final: "
                               ++ e) = true) by header_truthy.
           destruct (handle_error_effect _ E4 T) as [F5 [C5 [E5 _]]].
           apply (@Trail.ended_failed _ _ _ _
                    [N_classify_query; N_fetch_sensor_data;
                     N_analyze_climate_data]
                    N_generate_final_response E5 eq_refl F5 C5).
           rewrite P5, P4, P3, P2. reflexivity.
      * eexists _, _. split; [ exact H | ].
        split; [ right; left; reflexivity | ].
        split; [ exact K2 | ].
        apply Trail.ended_silent; try assumption.
        intros [X | [X | []]]; discriminate X.
    + eexists _, _. split; [ exact H | ].
      split; [ right; right; left; reflexivity | ].
      destruct (handle_error_keeps (fetch_sensor_data env s1))
        as [K5 [P5 _]].
      assert (E2 : error_message (fetch_sensor_data env s1)
                   = Some (utf8 "Error obteniendo datos de sensores: "
                           ++ e))
        by (rewrite (fetch_raise env _ Hf); reflexivity).
      assert (T : truthy (utf8 "Error obteniendo datos de sensores: "
                          ++ e) = true) by header_truthy.
      destruct (handle_error_effect _ E2 T) as [F5 [C5 [E5 _]]].
      split; [ rewrite K5, (fetch_raise env _ Hf); exact K1 | ].
      apply (@Trail.ended_failed _ _ _ _ [N_classify_query]
               N_fetch_sensor_data
               E5 eq_refl F5 C5).
      rewrite P5, (fetch_raise env _ Hf). exact P1.
  - destruct (fetch_body env s1) as [s2' | e] eqn:Hf.
    + destruct (Fetch s2' eq_refl) as [E2 [K2 [F2 [C2 P2]]]].
      destruct (nonempty (sensor_data s2')).
      * destruct (analyze_preserved env (fetch_sensor_data env s1))
          as [E3 [K3 [F3 [C3 [_ P3]]]]].
        destruct (response_body env
                    (analyze_node env (fetch_sensor_data env s1)))
          as [r | e] eqn:Hr.
        -- eexists _, _. split; [ exact H | ].
           split; [ right; right; right; left; reflexivity | ].
           destruct (respond_ok env _ Hr) as [F4 [C4 [E4 K4]]].
           split; [ rewrite K4, K3; exact K2 | ].
           apply Trail.ended_answered.
           ++ rewrite E4, E3. exact E2.
           ++ right. right. right. left. reflexivity.
           ++ rewrite F4. exact (response_body_truthy env _ Hr).
           ++ exact C4.
           ++ rewrite (respond_steps env _ Hr), P3, P2. reflexivity.
        -- eexists _, _. split; [ exact H | ].
           split; [ right; right; right; right; left; reflexivity | ].
           destruct (respond_raise env _ Hr) as [E4 [K4 P4]].
           destruct (handle_error_keeps
                       (generate_final_response env
                          (analyze_node env (fetch_sensor_data env s1))))
             as [K5 [P5 _]].
           split; [ rewrite K5, K4, K3; exact K2 | ].
           assert (T : truthy (utf8 "Error generando respuesta final: "
                               ++ e) = true) by header_truthy.
           destruct (handle_error_effect _ E4 T) as [F5 [C5 [E5 _]]].
           apply (@Trail.ended_failed _ _ _ _
                    [N_classify_query; N_fetch_sensor_data;
                     N_analyze_climate_data]
                    N_generate_final_response E5 eq_refl F5 C5).
           rewrite P5, P4, P3, P2. reflexivity.
      * eexists _, _. split; [ exact H | ].
        split; [ right; left; reflexivity | ].
        split; [ exact K2 | ].
        apply Trail.ended_silent; try assumption.
        intros [X | [X | []]]; discriminate X.
    + eexists _, _. split; [ exact H | ].
      split; [ right; right; left; reflexivity | ].
      destruct (handle_error_keeps (fetch_sensor_data env s1))
        as [K5 [P5 _]].
      assert (E2 : error_message (fetch_sensor_data env s1)
                   = Some (utf8 "Error obteniendo datos de sensores: "
                           ++ e))
        by (rewrite (fetch_raise env _ Hf); reflexivity).
      assert (T : truthy (utf8 "Error obteniendo datos de sensores: "
                          ++ e) = true) by header_truthy.
      destruct (handle_error_effect _ E2 T) as [F5 [C5 [E5 _]]].
      split; [ rewrite K5, (fetch_raise env _ Hf); exact K1 | ].
      apply (@Trail.ended_failed _ _ _ _ [N_classify_query]
               N_fetch_sensor_data
               E5 eq_refl F5 C5).
      rewrite P5, (fetch_raise env _ Hf). exact P1.
  - destruct H as [H [r Hr]].
    destruct (Advice _ r eq_refl Hr) as [K3 En].
    eexists _, _. split; [ exact H | ].
    split; [ do 5 right; left; reflexivity | ].
    split; assumption.
  - destruct H as [H [r Hr]].
    destruct (Advice _ r eq_refl Hr) as [K3 En].
    eexists _, _. split; [ exact H | ].
    split; [ do 5 right; left; reflexivity | ].
    split; assumption.
  - exists [N_classify_query], s1.
    split; [ exact H | ]. split; [ left; reflexivity | ].
    split; [ exact K1 | ].
    apply Trail.ended_silent; try assumption.
    intros [X | []]; discriminate X.
Qed.

End RunSummary.

(** X1. [graph.invoke] never raises and never exceeds the recursion
    limit: for every query and every behaviour of the collaborators the
    nodes that run form one of six sequences, and [process_query] reports
    the query type the classifier chose (never the type "error" of its
    exception handler). *)
Theorem every_run_follows_one_of_six_paths
  (report : Type) (env : Collaborators report) (q : text) :
  (exists final : State report,
     invoke env (create_initial_state env q) = Ok (nodes_run env q, final))
  /\ In (nodes_run env q) Trail.paths
  /\ r_query_type (process_query env q) = Some (classify_kind (lower q)).
Proof.
  destruct (run_summary env q) as [ran [final [Hrun [Hp [Hk _]]]]].
  unfold nodes_run, process_query. rewrite Hrun. cbn [r_query_type].
  split; [ exists final; reflexivity | ].
  split; [ exact Hp | rewrite Hk; reflexivity ].
Qed.

(** X2. Every request ends in one of three ways: the response
    stage ran and left a non-empty answer with confidence 0.9 and no error
    message; or the run stopped before the response stage with an empty
    answer, confidence 0 and no error message; or an error message is set,
    the error handler ran last, the answer is the error answer built from
    that message and the confidence is 0. *)
Theorem every_request_is_answered_silent_or_failed
  (report : Type) (env : Collaborators report) (q : text) :
  let r := process_query env q in
  (r_error_message r = None
   /\ In N_generate_final_response (nodes_run env q)
   /\ answer r <> [] /\ r_confidence r = 9 # 10)
  \/ (r_error_message r = None
      /\ ~ In N_generate_final_response (nodes_run env q)
      /\ answer r = [] /\ r_confidence r = 0%Q)
  \/ (exists e pre n,
        r_error_message r = Some e
        /\ nodes_run env q = pre ++ [n; N_handle_error]
        /\ answer r = error_answer e /\ r_confidence r = 0%Q).
Proof.
  cbv zeta.
  destruct (run_summary env q) as [ran [final [Hrun [_ [_ He]]]]].
  unfold nodes_run, process_query. rewrite Hrun.
  cbn [r_error_message answer r_confidence].
  destruct He as [E I T C _ | E I F C _ | e pre n E R F C _].
  - left. repeat split; try assumption.
    intros Z. rewrite Z in T. discriminate T.
  - right. left. repeat split; assumption.
  - right. right. exists e, pre, n. repeat split; assumption.
Qed.

(** X3. The audit trail: when a request ends without error message,
    [processing_steps] holds the tags of the nodes that ran, in order, one
    per node; when it ends with one, it holds the tags of the nodes that
    ran before the failing node, which left no tag, as the error handler
    leaves none. *)
Theorem processing_steps_list_completed_stages
  (report : Type) (env : Collaborators report) (q : text) :
  match r_error_message (process_query env q) with
  | None =>
    r_processing_steps (process_query env q)
    = flat_map Trail.stage_tag (nodes_run env q)
  | Some _ =>
    exists pre n,
      nodes_run env q = pre ++ [n; N_handle_error]
      /\ r_processing_steps (process_query env q)
         = flat_map Trail.stage_tag pre
  end.
Proof.
  destruct (run_summary env q) as [ran [final [Hrun [_ [_ He]]]]].
  unfold nodes_run, process_query. rewrite Hrun.
  cbn [r_error_message r_processing_steps].
  destruct He as [E _ _ _ P | E _ _ _ P | e pre n E R _ _ P]; rewrite E.
  - exact P.
  - exact P.
  - exists pre, n. split; assumption.
Qed.

Section EmptyFetch.

Variable report : Type.
Variable env : Collaborators report.

Lemma fetch_body_status (state : State report) :
  query_type state = Q_current_status ->
  fetch_body env state
  = (data <- get_current_readings env (user_query state) ;;
     Ok (set_sensor_data data state)).
Proof. intros K. unfold fetch_body. rewrite K. reflexivity. Qed.

Lemma fetch_body_history (state : State report) :
  query_type state = Q_climate_history ->
  fetch_body env state
  = Ok (match time_period state with
        | Some _ =>
          set_sensor_data
            (get_structured env (_extract_time_expression (user_query state))
               (location_mentioned state)) state
        | None => state
        end).
Proof.
  intros K. unfold fetch_body. rewrite K. cbn.
  destruct (time_period state); reflexivity.
Qed.

End EmptyFetch.

(** X4. When the fetch retrieves no row, a current_status or
    climate_history request ends right after the fetch: neither the
    analysis nor the response stage runs, the answer is empty, the
    confidence 0 and no error message is set.  For climate_history this
    covers a query without temporal expression, for which the store is
    not queried at all. *)
Theorem no_rows_end_the_run_without_answer
  (report : Type) (env : Collaborators report) (q : text) :
  (classify_kind (lower q) = Q_current_status
   /\ get_current_readings env q = Ok [])
  \/ (classify_kind (lower q) = Q_climate_history
      /\ (parse_time_expression (now env) q = None
          \/ get_structured env (_extract_time_expression q)
               (_extract_location_mention q) = [])) ->
  nodes_run env q = [N_classify_query; N_fetch_sensor_data]
  /\ answer (process_query env q) = []
  /\ r_confidence (process_query env q) = 0%Q
  /\ r_error_message (process_query env q) = None.
Proof.
  intros Hyp.
  pose proof (run_cases env q) as H. cbv zeta in H.
  destruct (classify_fresh env q) as [E1 [K1 [D1 [F1 [C1 _]]]]].
  destruct (classify_preserved env (create_initial_state env q))
    as [U1 [_ [_ [_ L1]]]].
  pose proof (classify_time_period env (create_initial_state env q)) as T1.
  cbn [user_query create_initial_state] in U1, L1, T1.
  set (s1 := classify_query env (create_initial_state env q)) in *.
  assert (Hf : exists s2', fetch_body env s1 = Ok s2'
                           /\ sensor_data s2' = []).
  { destruct Hyp as [[K Hs] | [K Hh]]; rewrite K in K1.
    - rewrite (fetch_body_status env _ K1), U1, Hs. cbn [bind].
      eexists. split; reflexivity.
    - rewrite (fetch_body_history env _ K1), U1, L1, T1.
      eexists. split; [ reflexivity | ].
      destruct (parse_time_expression (now env) q) as [p |].
      + destruct Hh as [Hh | Hh]; [ discriminate Hh | exact Hh ].
      + exact D1. }
  destruct Hf as [s2' [Hf Hd]].
  assert (Hrun : invoke env (create_initial_state env q)
                 = Ok ([N_classify_query; N_fetch_sensor_data],
                       fetch_sensor_data env s1)).
  { destruct Hyp as [[K _] | [K _]]; rewrite K in H;
      rewrite Hf, Hd in H; exact H. }
  destruct (fetch_body_ok env _ Hf) as [_ [E2 [F2 [C2 _]]]].
  unfold nodes_run, process_query. rewrite Hrun.
  cbn [answer r_confidence r_error_message].
  rewrite (fetch_ok env _ Hf).
  split; [ reflexivity | ].
  split; [ change (final_answer s2' = []); rewrite F2; exact F1 | ].
  split; [ change (confidence s2' = 0%Q); rewrite C2; exact C1 | ].
  change (error_message s2' = None). rewrite E2. exact E1.
Qed.

Lemma no_rows_end_the_run_without_answer_witness :
  ((classify_kind (lower Scenario.q_arroz) = Q_current_status
    /\ get_current_readings Scenario.no_telemetry Scenario.q_arroz = Ok [])
   \/ (classify_kind (lower Scenario.q_arroz) = Q_climate_history
       /\ (parse_time_expression (now Scenario.no_telemetry)
             Scenario.q_arroz = None
           \/ get_structured Scenario.no_telemetry
                (_extract_time_expression Scenario.q_arroz)
                (_extract_location_mention Scenario.q_arroz) = [])))
  /\ nodes_run Scenario.no_telemetry Scenario.q_arroz
     = [N_classify_query; N_fetch_sensor_data]
  /\ answer (process_query Scenario.no_telemetry Scenario.q_arroz) = [].
Proof.
  assert (H : (classify_kind (lower Scenario.q_arroz) = Q_current_status
               /\ get_current_readings Scenario.no_telemetry
                    Scenario.q_arroz = Ok [])
              \/ (classify_kind (lower Scenario.q_arroz)
                  = Q_climate_history
                  /\ (parse_time_expression (now Scenario.no_telemetry)
                        Scenario.q_arroz = None
                      \/ get_structured Scenario.no_telemetry
                           (_extract_time_expression Scenario.q_arroz)
                           (_extract_location_mention Scenario.q_arroz)
                         = []))).
  { left. split; [ vm_compute; reflexivity | reflexivity ]. }
  pose proof (no_rows_end_the_run_without_answer
                Scenario.no_telemetry Scenario.q_arroz H) as R.
  split; [ exact H | ].
  split; [ exact (proj1 R) | exact (proj1 (proj2 R)) ].
Defined.

(** ** Conditions under which the nodes run *)

Section EntryConditions.

Variable report : Type.
Variable env : Collaborators report.

Implicit Type state : State report.

Lemma fetch_query_type state :
  query_type (fetch_sensor_data env state) = query_type state.
Proof.
  unfold fetch_sensor_data.
  destruct (fetch_body env state) as [s' | e] eqn:Hf; [ | reflexivity ].
  exact (proj1 (fetch_body_ok env _ Hf)).
Qed.

Lemma recommend_keeps_summary state :
  climate_summary (get_crop_recommendations env state)
  = climate_summary state.
Proof.
  unfold get_crop_recommendations.
  destruct (query_kind_eqb (query_type state) Q_crop_advice
            && truthy_opt (crop_mentioned state)).
  { destruct (crop_mentioned state) as [crop |];
      [ destruct (CasanareCrops.get_crop_info crop) | ]; reflexivity. }
  destruct (query_kind_eqb (query_type state) Q_recommendations);
    reflexivity.
Qed.

(** X5. Invariant of the executions: the fetch and analysis stages run
    only for current_status and climate_history requests, the analysis
    only on a non-empty batch; the recommendation stage runs only for
    crop_advice and recommendations requests and always without telemetry;
    the response stage runs either for a data request with a non-empty
    batch and a climate summary, or for an advice request without
    telemetry.  So it never runs for a general or unclassified request,
    and the fetch of "current conditions" for advice requests never
    happens. *)
Theorem nodes_run_only_under_their_entry_condition
  (q : text) (n : node) state :
  reachable env q n state -> Entry.entered_with env q n state.
Proof.
  induction 1 as [| n state n' Hreach IH Hnext]; [ reflexivity | ].
  unfold next_node in Hnext.
  destruct n; cbn [run_node router Entry.entered_with] in *.
  - subst state.
    destruct (classify_fresh env q) as [E1 [K1 [D1 [_ [_ [_ [S1 _]]]]]]].
    unfold _route_after_classification in Hnext. rewrite E1 in Hnext.
    cbn [truthy_opt] in Hnext.
    destruct (query_type (classify_query env (create_initial_state env q)))
      eqn:K; cbn [edges] in Hnext; injection Hnext as <-;
      cbn [Entry.entered_with]; rewrite ?K; auto.
  - unfold _route_after_fetch_data in Hnext.
    pose proof (fetch_query_type state) as K2.
    destruct (truthy_opt (error_message (fetch_sensor_data env state)));
      [ injection Hnext as <-; exact I | ].
    destruct (nonempty (sensor_data (fetch_sensor_data env state))) eqn:Hd.
    + injection Hnext as <-. cbn [Entry.entered_with].
      rewrite K2. split; [ exact IH | exact Hd ].
    + rewrite K2 in Hnext.
      destruct (query_type state); try discriminate IH;
        injection Hnext as <-; exact I.
  - unfold _route_after_analysis in Hnext.
    destruct IH as [IHk IHd].
    destruct (analyze_preserved env state) as [_ [K3 [_ [_ [D3 _]]]]].
    pose proof (analyze_summary env state IHd) as S3.
    destruct (truthy_opt (error_message (analyze_node env state)));
      [ injection Hnext as <-; exact I | ].
    rewrite K3 in Hnext.
    destruct (query_type state) eqn:K; try discriminate IHk;
      injection Hnext as <-; cbn [Entry.entered_with];
      left; rewrite K3, D3, S3; repeat split; auto.
  - unfold _route_after_crop_recommendations in Hnext.
    destruct IH as [IHk [IHd IHs]].
    destruct (recommend_preserved env state) as [_ [K3 _]].
    destruct (recommend_more env state) as [_ [_ [D3 _]]].
    pose proof (recommend_keeps_summary state) as S3.
    destruct (truthy_opt
                (error_message (get_crop_recommendations env state)));
      injection Hnext as <-; cbn [Entry.entered_with]; [ exact I | ].
    right. rewrite K3, D3, S3. repeat split; auto.
  - unfold _route_after_final_response in Hnext.
    destruct (truthy_opt
                (error_message (generate_final_response env state)));
      [ injection Hnext as <-; exact I | ].
    destruct (truthy (final_answer (generate_final_response env state)));
      injection Hnext as <-; exact I.
  - injection Hnext as <-. exact I.
  - discriminate Hnext.
Qed.

End EntryConditions.

(** ** Crop advice *)

Lemma crop_cues_are_crops : incl crop_cues crops.
Proof.
  intros w Hw. cbn [crop_cues map In] in Hw.
  repeat (destruct Hw as [<- | Hw]; [ vm_compute; tauto | ]).
  destruct Hw.
Qed.

Lemma crops_are_nonempty (c : text) : In c crops -> truthy c = true.
Proof.
  intros H. cbn [crops map In] in H.
  repeat (destruct H as [<- | H]; [ reflexivity | ]).
  destruct H.
Qed.

Lemma crop_cue_gives_mention (t : text) :
  any_in crop_cues t = true ->
  exists c, first_in crops t = Some c
            /\ In c crops /\ contains c t = true.
Proof.
  unfold any_in, first_in. intros H.
  apply existsb_exists in H. destruct H as [cue [Hin Hc]].
  destruct (find (fun w => contains w t) crops) as [c |] eqn:F.
  - exists c. destruct (find_some _ _ F) as [Hi Hco]. auto.
  - pose proof (find_none _ _ F cue (crop_cues_are_crops Hin)) as Hn.
    cbv beta in Hn. rewrite Hc in Hn. discriminate Hn.
Qed.

Lemma crop_advice_has_cue (t : text) :
  classify_kind t = Q_crop_advice -> any_in crop_cues t = true.
Proof.
  unfold classify_kind.
  destruct (any_in status_cues t); [ discriminate | ].
  destruct (any_in history_cues t); [ discriminate | ].
  destruct (any_in advice_cues t); [ discriminate | ].
  destruct (any_in crop_cues t); [ reflexivity | discriminate ].
Qed.

Section CropAdvice.

Variable report : Type.
Variable env : Collaborators report.

Lemma recommend_for_crop (state : State report) (c : text) :
  query_type state = Q_crop_advice ->
  crop_mentioned state = Some c ->
  truthy c = true ->
  crop_requirements (get_crop_recommendations env state)
  = match CasanareCrops.get_crop_info c with
    | Some info => Some info
    | None => crop_requirements state
    end
  /\ recommendations (get_crop_recommendations env state)
     = recommendations state
       ++ match CasanareCrops.get_crop_info c with
          | Some info => CasanareCrops.regenerative_practices info
          | None => []
          end.
Proof.
  intros K Hc Ht. unfold get_crop_recommendations.
  rewrite K, Hc. cbn [query_kind_eqb truthy_opt andb]. rewrite Ht.
  destruct (CasanareCrops.get_crop_info c); split; try reflexivity.
  cbn. rewrite app_nil_r. reflexivity.
Qed.

Lemma respond_keeps (state : State report) (r : text) :
  response_body env state = Ok r ->
  crop_mentioned (generate_final_response env state) = crop_mentioned state
  /\ crop_requirements (generate_final_response env state)
     = crop_requirements state
  /\ recommendations (generate_final_response env state)
     = recommendations state.
Proof.
  intros H. unfold generate_final_response. rewrite H.
  repeat split; reflexivity.
Qed.

End CropAdvice.

(** X6. A request classified crop_advice runs classify, recommend and
    respond; the crop it mentions is the first name of the crop list that
    occurs in the lower-cased query; the crop requirements of the final
    state are the entry the knowledge base has for that name (none when it
    has no entry), and the recommendations are exactly that entry's
    regenerative practices (none without an entry). *)
Theorem crop_advice_answers_from_the_knowledge_base
  (report : Type) (env : Collaborators report) (q : text) :
  classify_kind (lower q) = Q_crop_advice ->
  exists (c : text) (final : State report),
    invoke env (create_initial_state env q)
    = Ok ([N_classify_query; N_get_crop_recommendations;
           N_generate_final_response], final)
    /\ first_in crops (lower q) = Some c
    /\ crop_mentioned final = Some c
    /\ crop_requirements final = CasanareCrops.get_crop_info c
    /\ recommendations final
       = match CasanareCrops.get_crop_info c with
         | Some info => CasanareCrops.regenerative_practices info
         | None => []
         end
    /\ final_answer final <> []
    /\ confidence final = 9 # 10.
Proof.
  intros K.
  destruct (@crop_cue_gives_mention _ (@crop_advice_has_cue _ K))
    as [c [Hf [Hin Hco]]].
  pose proof (run_cases env q) as H. cbv zeta in H. rewrite K in H.
  destruct H as [Hrun [r Hr]].
  destruct (classify_fresh env q)
    as [_ [K1 [_ [_ [_ [_ [_ [R1 Q1]]]]]]]].
  pose proof (classify_crop_mentioned env (create_initial_state env q))
    as M1.
  cbn [user_query create_initial_state] in M1.
  unfold _extract_crop_mention in M1. rewrite Hf in M1.
  rewrite K in K1.
  set (s1 := classify_query env (create_initial_state env q)) in *.
  destruct (recommend_for_crop env s1 K1 M1 (@crops_are_nonempty c Hin))
    as [Q2 R2].
  destruct (recommend_more env s1) as [_ [_ [_ [_ M2]]]].
  destruct (respond_keeps env _ Hr) as [M3 [Q3 R3]].
  destruct (respond_ok env _ Hr) as [F3 [C3 _]].
  exists c. eexists. split; [ exact Hrun | ].
  split; [ exact Hf | ].
  split; [ rewrite M3, M2; exact M1 | ].
  split.
  { rewrite Q3, Q2, Q1. destruct (CasanareCrops.get_crop_info c);
      reflexivity. }
  split; [ rewrite R3, R2, R1; reflexivity | ].
  split; [ | exact C3 ].
  rewrite F3. intros Z.
  pose proof (response_body_truthy env _ Hr) as T. rewrite Z in T.
  discriminate T.
Qed.

Lemma crop_advice_answers_from_the_knowledge_base_witness :
  classify_kind (lower (utf8 "Maíz")) = Q_crop_advice
  /\ exists (c : text) (final : State unit),
       invoke Scenario.no_telemetry
         (create_initial_state Scenario.no_telemetry (utf8 "Maíz"))
       = Ok ([N_classify_query; N_get_crop_recommendations;
              N_generate_final_response], final)
       /\ first_in crops (lower (utf8 "Maíz")) = Some c
       /\ crop_mentioned final = Some c
       /\ crop_requirements final = CasanareCrops.get_crop_info c
       /\ recommendations final
          = match CasanareCrops.get_crop_info c with
            | Some info => CasanareCrops.regenerative_practices info
            | None => []
            end
       /\ final_answer final <> []
       /\ confidence final = 9 # 10.
Proof.
  assert (K : classify_kind (lower (utf8 "Maíz")) = Q_crop_advice)
    by (vm_compute; reflexivity).
  split; [ exact K | ].
  exact (crop_advice_answers_from_the_knowledge_base
           Scenario.no_telemetry (utf8 "Maíz") K).
Defined.

(** X7. The knowledge base is keyed by accent-free names, and
    [get_crop_info] folds only the letters í and ñ: of the nine names the
    classifier can put in [crop_mentioned], every one finds its entry
    except "plátano", for which the lookup finds nothing. *)
Theorem crop_lookup_misses_only_platano (c : text) :
  In c crops ->
  (CasanareCrops.get_crop_info c = None <-> c = utf8 "plátano").
Proof.
  intros H. cbn [crops map In] in H.
  repeat (destruct H as [<- | H];
          [ split; intros E; first [ reflexivity | vm_compute in E; discriminate E ] | ]).
  destruct H.
Qed.

Lemma crop_lookup_misses_only_platano_witness :
  In (utf8 "plátano") crops
  /\ CasanareCrops.get_crop_info (utf8 "plátano") = None
  /\ CasanareCrops.get_crop_info (utf8 "platano") <> None.
Proof.
  assert (H : In (utf8 "plátano") crops) by (vm_compute; tauto).
  split; [ exact H | ].
  split; [ exact (proj2 (crop_lookup_misses_only_platano H) eq_refl) | ].
  intros E.
  assert (H' : In (utf8 "platano") crops) by (vm_compute; tauto).
  pose proof (proj1 (crop_lookup_misses_only_platano H') E) as Z.
  vm_compute in Z. discriminate Z.
Defined.

(** ** More of the date resolver *)

(** X8. A literal day word decides the result whatever else the text
    holds (dates, periods, weekdays): "hoy" gives today; without "hoy",
    "ayer" gives yesterday; without both, "mañana" gives tomorrow.  The
    clock must not be on the first or last day of the calendar. *)
Theorem literal_day_words_are_resolved_first (today : date) (t : text) :
  (MINORD < today < MAXORD)%Z ->
  (matches P_hoy (Claims.normalized t) = true ->
   parse_time_expression today t = Some (single_day today))
  /\ (matches P_hoy (Claims.normalized t) = false ->
      matches P_ayer (Claims.normalized t) = true ->
      parse_time_expression today t = Some (single_day (today - 1)%Z))
  /\ (matches P_hoy (Claims.normalized t) = false ->
      matches P_ayer (Claims.normalized t) = false ->
      matches P_manana (Claims.normalized t) = true ->
      parse_time_expression today t = Some (single_day (today + 1)%Z)).
Proof.
  intros Hr. unfold parse_time_expression. fold (Claims.normalized t).
  unfold parse_body, _parse_specific_expressions.
  repeat split.
  - intros H. rewrite H. reflexivity.
  - intros H1 H2. rewrite H1, H2.
    rewrite add_days_ok by (unfold MINORD, MAXORD in *; lia).
    reflexivity.
  - intros H1 H2 H3. rewrite H1, H2, H3.
    rewrite add_days_ok by (unfold MINORD, MAXORD in *; lia).
    reflexivity.
Qed.

Lemma literal_day_words_are_resolved_first_witness :
  (MINORD < Scenario.today < MAXORD)%Z
  /\ matches P_hoy (Claims.normalized (utf8 "Ayer, 15/03/2024")) = false
  /\ matches P_ayer (Claims.normalized (utf8 "Ayer, 15/03/2024")) = true
  /\ parse_time_expression Scenario.today (utf8 "Ayer, 15/03/2024")
     = Some (single_day (Scenario.today - 1)%Z).
Proof.
  assert (Hr : (MINORD < Scenario.today < MAXORD)%Z)
    by (vm_compute; split; reflexivity).
  assert (H1 : matches P_hoy (Claims.normalized (utf8 "Ayer, 15/03/2024"))
               = false) by (vm_compute; reflexivity).
  assert (H2 : matches P_ayer (Claims.normalized (utf8 "Ayer, 15/03/2024"))
               = true) by (vm_compute; reflexivity).
  split; [ exact Hr | ]. split; [ exact H1 | ]. split; [ exact H2 | ].
  exact (proj1 (proj2 (literal_day_words_are_resolved_first
                         (utf8 "Ayer, 15/03/2024") Hr)) H1 H2).
Defined.

Lemma no_relative_period_falls_to_days (today : date) (n : text) :
  Claims.has_relative_period n = false ->
  _parse_relative_periods today n
  = match search P_ultimos_dias n with
    | Some m =>
      days <- py_int (group_or (group m 2) (group m 3)) ;;
      start_date <- add_days today (- (days - 1)) ;;
      Ok (Some {| start := start_date; end_ := today |})
    | None =>
      match search P_proximos_dias n with
      | Some m =>
        days <- py_int (group_or (group m 2) (group m 3)) ;;
        end_date <- add_days today (days - 1) ;;
        Ok (Some {| start := today; end_ := end_date |})
      | None => Ok None
      end
    end.
Proof.
  unfold Claims.has_relative_period, _parse_relative_periods. intros H.
  repeat (apply orb_false_iff in H; destruct H as [H ?]).
  repeat match goal with E : matches _ _ = false |- _ => rewrite E; clear E end.
  reflexivity.
Qed.

(** X9. "Last N days": for a text without day word, date and named
    period in which the last-N-days pattern finds the number N, the
    resolver returns the window that ends today and starts N - 1 days
    earlier, so it spans N days; for N = 0 the start is the day after the
    end.  The start must be a date of the calendar. *)
Theorem ultimos_n_dias_window
  (today : date) (t : text) (m : match_) (days : Z) :
  Claims.no_day_word (Claims.normalized t) = true ->
  search P_fecha_especifica (Claims.normalized t) = None ->
  search P_fecha_texto (Claims.normalized t) = None ->
  Claims.has_relative_period (Claims.normalized t) = false ->
  search P_ultimos_dias (Claims.normalized t) = Some m ->
  py_int (group_or (group m 2) (group m 3)) = Ok days ->
  (MINORD <= today - (days - 1) <= MAXORD)%Z ->
  exists p,
    parse_time_expression today t = Some p
    /\ end_ p = today
    /\ (end_ p - start p + 1 = days)%Z
    /\ ((start p <= end_ p)%Z <-> (1 <= days)%Z).
Proof.
  intros Hday Hd1 Hd2 Hrel Hs Hi Hr.
  exists {| start := (today - (days - 1))%Z; end_ := today |}.
  split.
  - unfold parse_time_expression. fold (Claims.normalized t).
    unfold parse_body.
    rewrite (no_day_word_falls_through today _ Hday). cbn [bind].
    unfold _parse_specific_dates. rewrite Hd1, Hd2. cbn [bind].
    rewrite (no_relative_period_falls_to_days today _ Hrel), Hs, Hi.
    cbn [bind].
    rewrite add_days_ok by lia. cbn [bind].
    reflexivity.
  - cbn [start end_]. repeat split; lia.
Qed.

Lemma ultimos_n_dias_window_witness :
  let t := utf8 "Últimos 5 días" in
  Claims.no_day_word (Claims.normalized t) = true
  /\ Claims.has_relative_period (Claims.normalized t) = false
  /\ exists p,
       parse_time_expression Scenario.today t = Some p
       /\ end_ p = Scenario.today
       /\ (end_ p - start p + 1 = 5)%Z
       /\ ((start p <= end_ p)%Z <-> (1 <= 5)%Z).
Proof.
  intros t.
  pose (m := {| subject := Claims.normalized t;
                groups := [(1, (0, 14)); (2, (8, 9))]%nat |}).
  assert (H1 : Claims.no_day_word (Claims.normalized t) = true)
    by (vm_compute; reflexivity).
  assert (H2 : search P_fecha_especifica (Claims.normalized t) = None)
    by (vm_compute; reflexivity).
  assert (H3 : search P_fecha_texto (Claims.normalized t) = None)
    by (vm_compute; reflexivity).
  assert (H4 : Claims.has_relative_period (Claims.normalized t) = false)
    by (vm_compute; reflexivity).
  assert (H5 : search P_ultimos_dias (Claims.normalized t) = Some m)
    by (vm_compute; reflexivity).
  assert (H6 : py_int (group_or (group m 2) (group m 3)) = Ok 5%Z)
    by (vm_compute; reflexivity).
  assert (H7 : (MINORD <= Scenario.today - (5 - 1) <= MAXORD)%Z)
    by (vm_compute; split; discriminate).
  split; [ exact H1 | ]. split; [ exact H4 | ].
  exact (ultimos_n_dias_window Scenario.today t H1 H2 H3 H4 H5 H6 H7).
Defined.

Lemma weekday_loop_next_occurrence
  (today : date) (t : text) (items : list (text * Z)) (p : period) :
  (forall name num, In (name, num) items -> (0 <= num <= 6)%Z) ->
  weekday_loop today items t = Ok (Some p) ->
  exists name num,
    In (name, num) items
    /\ contains name t = true
    /\ start p = end_ p
    /\ weekday (start p) = num
    /\ (today < start p <= today + 7)%Z.
Proof.
  induction items as [| [name num] items IH]; intros Hnum H;
    cbn [weekday_loop] in H; [ discriminate H | ].
  destruct (contains name t) eqn:Hc.
  - assert (Hn : (0 <= num <= 6)%Z) by (apply (Hnum name); left; reflexivity).
    pose proof (weekday_range today) as Hw.
    set (ahead := (if (num - weekday today <=? 0)%Z
                   then (num - weekday today + 7)%Z
                   else (num - weekday today)%Z)) in *.
    assert (Ha : (1 <= ahead <= 7)%Z
                 /\ ((today + ahead + 6) mod 7 = num)%Z).
    { unfold ahead, weekday in *.
      destruct (Z.leb_spec (num - (today + 6) mod 7) 0);
        Z.div_mod_to_equations; lia. }
    unfold add_days in H.
    destruct ((MINORD <=? today + ahead)%Z && (today + ahead <=? MAXORD)%Z);
      cbn [bind] in H; [ | discriminate H ].
    injection H as <-. exists name, num. cbn [start end_ single_day].
    split; [ left; reflexivity | ].
    split; [ exact Hc | ].
    split; [ reflexivity | ].
    split; [ unfold weekday; exact (proj2 Ha) | lia ].
  - destruct (IH (fun a b Hin => Hnum a b (or_intror Hin)) H)
      as [name' [num' [Hin Hrest]]].
    exists name', num'. split; [ right; exact Hin | exact Hrest ].
Qed.

(** X10. A named weekday: whenever the weekday step gives a result, it is
    a single day, strictly after today and at most seven days later (today
    itself is never returned: the same weekday rolls to next week), and
    its day of the week is the one of a weekday name that occurs in the
    text. *)
Theorem weekday_is_next_occurrence_after_today
  (today : date) (t : text) (p : period) :
  _parse_weekday today t = Ok (Some p) ->
  exists name num,
    In (name, num) DIAS_SEMANA
    /\ contains name t = true
    /\ start p = end_ p
    /\ weekday (start p) = num
    /\ (today < start p <= today + 7)%Z.
Proof.
  apply weekday_loop_next_occurrence.
  intros name num H. cbn [DIAS_SEMANA In] in H.
  repeat (destruct H as [H | H]; [ injection H as _ <-; lia | ]).
  destruct H.
Qed.

Lemma weekday_is_next_occurrence_after_today_witness :
  _parse_weekday Scenario.today (utf8 "el miércoles")
  = Ok (Some (single_day (Scenario.today + 7)%Z))
  /\ exists name num,
       In (name, num) DIAS_SEMANA
       /\ contains name (utf8 "el miércoles") = true
       /\ weekday (Scenario.today + 7)%Z = num
       /\ (Scenario.today < Scenario.today + 7 <= Scenario.today + 7)%Z.
Proof.
  assert (H : _parse_weekday Scenario.today (utf8 "el miércoles")
              = Ok (Some (single_day (Scenario.today + 7)%Z)))
    by (vm_compute; reflexivity).
  split; [ exact H | ].
  destruct (weekday_is_next_occurrence_after_today _ _ H)
    as [name [num [H1 [H2 [_ [H4 H5]]]]]].
  exists name, num. repeat split; assumption || apply H5.
Defined.

(** X11. "Next week": for a text without day word and explicit date
    that names next week and not last week (which is tested first), the
    resolver returns the Monday-to-Sunday week after the one that contains
    today: the start is a Monday strictly after today, seven days after
    the Monday of the current week, and the end is the Sunday six days
    later.  That week must lie within the calendar. *)
Theorem proxima_semana_is_the_following_week (today : date) (t : text) :
  (MINORD <= today <= MAXORD - 13)%Z ->
  Claims.no_day_word (Claims.normalized t) = true ->
  search P_fecha_especifica (Claims.normalized t) = None ->
  search P_fecha_texto (Claims.normalized t) = None ->
  matches P_ultima_semana (Claims.normalized t) = false ->
  matches P_proxima_semana (Claims.normalized t) = true ->
  exists p : period,
    parse_time_expression today t = Some p
    /\ weekday (start p) = 0%Z
    /\ weekday (end_ p) = 6%Z
    /\ end_ p = (start p + 6)%Z
    /\ start p = (today - weekday today + 7)%Z
    /\ (today < start p)%Z.
Proof.
  intros Hr Hday Hd1 Hd2 Hu Hp. pose proof (weekday_range today) as Hw.
  exists {| start := (today + (7 - weekday today))%Z;
            end_ := (today + (7 - weekday today) + 6)%Z |}.
  split.
  - unfold parse_time_expression. fold (Claims.normalized t).
    unfold parse_body.
    rewrite (no_day_word_falls_through today _ Hday). cbn [bind].
    unfold _parse_specific_dates. rewrite Hd1, Hd2. cbn [bind].
    unfold _parse_relative_periods. rewrite Hu, Hp.
    rewrite add_days_ok by (unfold MAXORD, MINORD in *; lia). cbn [bind].
    rewrite add_days_ok by (unfold MAXORD, MINORD in *; lia). cbn [bind].
    reflexivity.
  - cbn [start end_]. unfold weekday in *.
    Z.div_mod_to_equations. repeat split; lia.
Qed.

Lemma proxima_semana_is_the_following_week_witness :
  let t := utf8 "Clima de la próxima semana" in
  (MINORD <= Scenario.today <= MAXORD - 13)%Z
  /\ matches P_proxima_semana (Claims.normalized t) = true
  /\ parse_time_expression Scenario.today t
     = Some {| start := ymd2ord 2026 11 9; end_ := ymd2ord 2026 11 15 |}.
Proof.
  intros t.
  assert (H : (MINORD <= Scenario.today <= MAXORD - 13)%Z)
    by (vm_compute; split; discriminate).
  assert (H1 : Claims.no_day_word (Claims.normalized t) = true)
    by (vm_compute; reflexivity).
  assert (H2 : search P_fecha_especifica (Claims.normalized t) = None)
    by (vm_compute; reflexivity).
  assert (H3 : search P_fecha_texto (Claims.normalized t) = None)
    by (vm_compute; reflexivity).
  assert (H4 : matches P_ultima_semana (Claims.normalized t) = false)
    by (vm_compute; reflexivity).
  assert (H5 : matches P_proxima_semana (Claims.normalized t) = true)
    by (vm_compute; reflexivity).
  split; [ exact H | ]. split; [ exact H5 | ].
  destruct (@proxima_semana_is_the_following_week Scenario.today t
              H H1 H2 H3 H4 H5) as [p [Hp _]].
  rewrite Hp. vm_compute in Hp. injection Hp as <-. reflexivity.
Defined.

(** ** More of the fetch stage *)

Ltac reduce_contains :=
  repeat match goal with
  | |- context [contains ?a ?b] =>
      let v := eval vm_compute in (contains a b) in
      replace (contains a b) with v by (vm_compute; reflexivity)
  end.

Lemma numberless_days_keyword_has_no_range (today : date) (kw : text) :
  In kw (map utf8 ["últimos días"; "ultimos dias"; "próximos días";
                   "proximos dias"]%string) ->
  parse_time_expression today kw = None.
Proof.
  intros H. cbn [map In] in H.
  repeat (destruct H as [<- | H];
    [ unfold parse_time_expression;
      match goal with
      | |- context [strip (lower ?k)] =>
          replace (strip (lower k)) with k by (vm_compute; reflexivity)
      end;
      unfold parse_body, _parse_specific_expressions;
      reduce_matches; cbn [bind];
      unfold _parse_specific_dates; reduce_matches; cbn [bind];
      unfold _parse_relative_periods; reduce_matches; cbn [bind];
      unfold _parse_weekday, DIAS_SEMANA; cbn [weekday_loop];
      reduce_contains; reflexivity
    | ]).
  destruct H.
Qed.

(** X12. Four of the thirteen time keywords the fetch stage can extract
    from a query ("últimos días", "ultimos dias", "próximos días",
    "proximos dias") hold no number, so the resolver gives no range for
    them on any day: the historical tool returns the empty list without
    querying the telemetry store. *)
Theorem numberless_days_keywords_never_query_the_store
  (report : Type) (env : Collaborators report) (kw : text)
  (loc : option text) :
  In kw (map utf8 ["últimos días"; "ultimos dias"; "próximos días";
                   "proximos dias"]%string) ->
  In kw time_keywords
  /\ historical_request env kw loc = None
  /\ get_structured env kw loc = [].
Proof.
  intros H.
  assert (Hp : parse_time_expression (now env) kw = None)
    by (apply numberless_days_keyword_has_no_range; exact H).
  split.
  - cbn [map In] in H.
    repeat (destruct H as [<- | H]; [ vm_compute; tauto | ]).
    destruct H.
  - unfold get_structured, historical_request. rewrite Hp.
    split; reflexivity.
Qed.

Lemma numberless_days_keywords_never_query_the_store_witness :
  In (utf8 "últimos días")
     (map utf8 ["últimos días"; "ultimos dias"; "próximos días";
                "proximos dias"]%string)
  /\ _extract_time_expression (utf8 "Historia de los últimos días")
     = utf8 "últimos días"
  /\ historical_request Scenario.no_telemetry (utf8 "últimos días") None
     = None.
Proof.
  assert (H : In (utf8 "últimos días")
                 (map utf8 ["últimos días"; "ultimos dias";
                            "próximos días"; "proximos dias"]%string))
    by (left; reflexivity).
  split; [ exact H | ].
  split; [ vm_compute; reflexivity | ].
  exact (proj1 (proj2 (@numberless_days_keywords_never_query_the_store
                         _ Scenario.no_telemetry (utf8 "últimos días")
                         None H))).
Defined.

(** X13. For a climate_history request with a resolved period whose
    lower-cased query holds none of the time keywords of the fetch stage,
    the store is queried for the Monday-to-Sunday week before the current
    one, whatever the resolved period is, with the location the classifier
    extracted; the rows of that week become the sensor data. *)
Theorem fetch_without_keyword_queries_previous_week
  (report : Type) (env : Collaborators report) (state : State report)
  (p : period) :
  query_type state = Q_climate_history ->
  time_period state = Some p ->
  first_in time_keywords (lower (user_query state)) = None ->
  (8 <= now env <= MAXORD)%Z ->
  fetch_range_request env state
  = Some ((now env - weekday (now env) - 7)%Z,
          (now env - weekday (now env) - 1)%Z, location_mentioned state)
  /\ sensor_data (fetch_sensor_data env state)
     = get_historical_data env (now env - weekday (now env) - 7)%Z
         (now env - weekday (now env) - 1)%Z (location_mentioned state)
  /\ error_message (fetch_sensor_data env state) = error_message state.
Proof.
  intros K Hp Hk Hr.
  assert (He : _extract_time_expression (user_query state)
               = utf8 "última semana").
  { unfold _extract_time_expression. rewrite Hk. reflexivity. }
  pose proof (historical_request_last_week env (location_mentioned state)
                Hr) as Hh.
  split.
  - unfold fetch_range_request. rewrite K, Hp, He. exact Hh.
  - unfold fetch_sensor_data.
    rewrite (fetch_body_history env state K), Hp, He.
    unfold get_structured. rewrite Hh. split; reflexivity.
Qed.

Lemma fetch_without_keyword_queries_previous_week_witness :
  let env := Scenario.no_telemetry in
  let state := classify_query env (create_initial_state env Scenario.q_fecha) in
  query_type state = Q_climate_history
  /\ time_period state = Some (single_day (ymd2ord 2024 3 15))
  /\ first_in time_keywords (lower (user_query state)) = None
  /\ fetch_range_request env state
     = Some ((now env - weekday (now env) - 7)%Z,
             (now env - weekday (now env) - 1)%Z, location_mentioned state).
Proof.
  intros env state.
  assert (H1 : query_type state = Q_climate_history)
    by (vm_compute; reflexivity).
  assert (H2 : time_period state = Some (single_day (ymd2ord 2024 3 15)))
    by (vm_compute; reflexivity).
  assert (H3 : first_in time_keywords (lower (user_query state)) = None)
    by (vm_compute; reflexivity).
  assert (H4 : (8 <= now env <= MAXORD)%Z)
    by (vm_compute; split; discriminate).
  split; [ exact H1 | ]. split; [ exact H2 | ]. split; [ exact H3 | ].
  exact (proj1 (@fetch_without_keyword_queries_previous_week
                  _ env state _ H1 H2 H3 H4)).
Defined.

Lemma nodes_run_only_under_their_entry_condition_witness :
  let env := Scenario.no_telemetry in
  let q := Scenario.q_que_sembrar in
  let state := classify_query env (create_initial_state env q) in
  reachable env q N_get_crop_recommendations state
  /\ Entry.entered_with env q N_get_crop_recommendations state.
Proof.
  intros env q state.
  assert (H : reachable env q N_get_crop_recommendations state).
  { apply (@reach_step _ env q N_classify_query
             (create_initial_state env q) N_get_crop_recommendations).
    - apply reach_entry.
    - vm_compute. reflexivity. }
  split; [ exact H | ].
  exact (@nodes_run_only_under_their_entry_condition _ env q _ _ H).
Defined.

(** ** More of the statistics *)

Local Open Scope R_scope.
















Local Close Scope R_scope.

(** ** More of the variability analysis *)

Section Groups.

Variable key : Reading -> Z.
Variable m : metric.

Local Abbreviation valid_with := (Grouping.valid_with key m).

Lemma dropna_app (a b : Series) : dropna (a ++ b) = dropna a ++ dropna b.
Proof.
  induction a as [| [x |] a IH]; cbn [app dropna]; [ reflexivity | | exact IH ].
  rewrite IH. reflexivity.
Qed.

Lemma valid_with_app (k : Z) (a b : list Reading) :
  valid_with k (a ++ b) = (valid_with k a + valid_with k b)%nat.
Proof.
  unfold Grouping.valid_with, column.
  rewrite filter_app, map_app, dropna_app, length_app. reflexivity.
Qed.

Lemma group_insert_In (k0 : Z) (v : option R) (gs : list (Z * Series))
  (k : Z) (vs : Series) :
  In (k, vs) (group_insert k0 v gs) ->
  In (k, vs) gs
  \/ (k = k0
      /\ (vs = [v] \/ exists vs0, In (k0, vs0) gs /\ vs = vs0 ++ [v])).
Proof.
  induction gs as [| [k' vs'] gs IH]; cbn [group_insert].
  - intros [E | []]. injection E as <- <-. right. split; [ reflexivity | ].
    left. reflexivity.
  - destruct (Z.ltb_spec k0 k') as [_ | _].
    + intros [E | H].
      * injection E as <- <-. right. split; [ reflexivity | ].
        left. reflexivity.
      * left. exact H.
    + destruct (Z.eqb_spec k0 k') as [<- | _].
      * intros [E | H].
        -- injection E as <- <-. right. split; [ reflexivity | ].
           right. exists vs'. split; [ left; reflexivity | reflexivity ].
        -- left. right. exact H.
      * intros [E | H].
        -- left. left. exact E.
        -- destruct (IH H) as [H' | [-> [-> | [vs0 [H0 ->]]]]].
           ++ left. right. exact H'.
           ++ right. split; [ reflexivity | ]. left. reflexivity.
           ++ right. split; [ reflexivity | ].
              right. exists vs0. split; [ right; exact H0 | reflexivity ].
Qed.

Lemma groups_hold_rows_of_their_key (rest done : list Reading)
  (gs : list (Z * Series)) :
  (forall k vs, In (k, vs) gs ->
     (length (dropna vs) <= valid_with k done)%nat) ->
  forall k vs,
    In (k, vs)
       (fold_left (fun gs r => group_insert (key r) (value_of m r) gs)
                  rest gs) ->
    (length (dropna vs) <= valid_with k (done ++ rest))%nat.
Proof.
  revert done gs. induction rest as [| r rest IH]; intros done gs Hgs k vs.
  - cbn [fold_left]. rewrite app_nil_r. apply Hgs.
  - cbn [fold_left].
    replace (done ++ r :: rest) with ((done ++ [r]) ++ rest)
      by (rewrite <- app_assoc; reflexivity).
    apply IH. clear k vs. intros k vs Hin.
    rewrite valid_with_app.
    apply group_insert_In in Hin.
    destruct Hin as [H | [-> [-> | [vs0 [H0 ->]]]]].
    + specialize (Hgs _ _ H). lia.
    + unfold Grouping.valid_with at 2. cbn [filter]. rewrite Z.eqb_refl.
      cbn [column map]. lia.
    + specialize (Hgs _ _ H0). rewrite dropna_app, length_app.
      unfold Grouping.valid_with at 2. cbn [filter]. rewrite Z.eqb_refl.
      cbn [column map]. lia.
Qed.

Lemma groupby_groups_bounded (df : list Reading) (k : Z) (vs : Series) :
  In (k, vs) (groupby key m df) ->
  (length (dropna vs) <= valid_with k df)%nat.
Proof.
  unfold groupby. intros H.
  apply (@groups_hold_rows_of_their_key df [] []); [ | exact H ].
  intros ? ? [].
Qed.

End Groups.

Lemma arg_best_all_missing (better : R -> R -> bool) (s : Series) (i : nat) :
  (forall x, In x s -> x = None) -> arg_best better s i None = None.
Proof.
  revert i. induction s as [| x s IH]; intros i H; [ reflexivity | ].
  rewrite (H x (or_introl eq_refl)). cbn [arg_best].
  apply IH. intros y Hy. apply H. right. exact Hy.
Qed.

Lemma variability_raises_on_missing_only (m : metric) (df : list Reading)
  (e : failure) :
  variability_of m df = Raise e -> e = AllNA.
Proof.
  unfold variability_of, idxmax, idxmin.
  repeat match goal with
  | |- context [arg_best ?b ?s ?i ?o] =>
      destruct (arg_best b s i o) as [[? ?] |]; cbn [bind]
  end; intros E; congruence.
Qed.

Lemma sparse_hours_variability_raises (m : metric) (df : list Reading) :
  (forall h : Z,
     (Grouping.valid_with (fun r => ts_hour (timestamp r)) m h df
      <= 1)%nat) ->
  variability_of m df = Raise AllNA.
Proof.
  intros H. unfold variability_of.
  assert (E : arg_best gt
                (map (fun g => Series_std (snd g))
                     (groupby (fun r => ts_hour (timestamp r)) m df))
                0%nat None = None).
  { apply arg_best_all_missing. intros x Hx.
    apply in_map_iff in Hx. destruct Hx as [[k vs] [<- Hin]].
    cbn [snd]. apply groupby_groups_bounded in Hin.
    specialize (H k).
    unfold Series_std, Series_std_ddof.
    destruct (Nat.leb_spec (length (dropna vs)) 1) as [_ | Hlt];
      [ reflexivity | lia ]. }
  unfold idxmax at 1. rewrite E. reflexivity.
Qed.

(** X15. If, for the temperature or for the humidity, no hour of the day
    has two valid readings in the batch (a single day of hourly readings,
    say), every hourly deviation is NaN, the variability analysis raises,
    and the engine returns the empty analysis whatever the other
    sub-analyses return. *)
Theorem sparse_hours_give_the_empty_analysis
  (report : Type) (sub : Subanalyses report) (now : date)
  (m : metric) (df : list Reading) :
  (forall h : Z,
     (Grouping.valid_with (fun r => ts_hour (timestamp r)) m h df
      <= 1)%nat) ->
  _analyze_variability df = Raise AllNA
  /\ analyze_climate_data sub now df = _empty_analysis report now.
Proof.
  intros H.
  assert (Hv : _analyze_variability df = Raise AllNA).
  { unfold _analyze_variability. destruct m.
    - rewrite (sparse_hours_variability_raises Temperature df H).
      reflexivity.
    - rewrite (sparse_hours_variability_raises Humidity df H).
      destruct (variability_of Temperature df) as [t | []] eqn:Et;
        cbn [bind]; [ reflexivity | reflexivity | ].
      discriminate (variability_raises_on_missing_only _ _ Et). }
  split; [ exact Hv | ].
  unfold analyze_climate_data. destruct df as [| r df]; [ reflexivity | ].
  unfold analyze_body. rewrite Hv.
  destruct (_analyze_trends sub (r :: df)); cbn [bind]; [ | reflexivity ].
  destruct (_analyze_extremes sub (r :: df)); reflexivity.
Qed.

Lemma sparse_hours_give_the_empty_analysis_witness :
  (forall h : Z,
     (Grouping.valid_with (fun r => ts_hour (timestamp r)) Temperature h
        Samples.one_reading_per_hour <= 1)%nat)
  /\ analyze_climate_data Scenario.engine0 Scenario.today
       Samples.one_reading_per_hour
     = _empty_analysis unit Scenario.today.
Proof.
  assert (H : forall h : Z,
     (Grouping.valid_with (fun r => ts_hour (timestamp r)) Temperature h
        Samples.one_reading_per_hour <= 1)%nat).
  { intros h. unfold Grouping.valid_with, Samples.one_reading_per_hour, Samples.reading_at.
    cbn [filter timestamp ts_hour].
    destruct (Z.eqb_spec 6 h) as [<- | _]; [ cbn; lia | ].
    destruct (Z.eqb_spec 12 h) as [<- | _]; [ cbn; lia | ].
    destruct (Z.eqb_spec 18 h) as [<- | _]; cbn; lia. }
  split; [ exact H | ].
  exact (proj2 (@sparse_hours_give_the_empty_analysis unit Scenario.engine0
                  Scenario.today Temperature Samples.one_reading_per_hour
                  H)).
Defined.

(** ** Shadowed day words *)

Lemma lit_some (A : Type) (s : text) (p : option N) (r : text) (n : nat)
  (k : cursor -> option A) (v : A) :
  lit s p r n k = Some v ->
  exists r' n',
    r = s ++ r'
    /\ k {| prev := fold_left (fun _ c => Some c) s p; rest := r';
            pos := n' |} = Some v.
Proof.
  revert p r n. induction s as [| c s IH]; intros p r n; cbn [lit fold_left].
  - intros H. exists r, n. split; [ reflexivity | exact H ].
  - destruct r as [| x r]; [ discriminate | ].
    destruct (N.eqb_spec c x) as [<- | _]; [ | discriminate ].
    intros H. destruct (IH _ _ _ H) as (r' & n' & -> & Hk).
    exists r', n'. split; [ reflexivity | exact Hk ].
Qed.

Lemma lit_app (A : Type) (s : text) (p : option N) (r : text) (n : nat)
  (k : cursor -> option A) :
  exists n',
    lit s p (s ++ r) n k
    = k {| prev := fold_left (fun _ c => Some c) s p; rest := r;
           pos := n' |}.
Proof.
  revert p n. induction s as [| c s IH]; intros p n; cbn [lit fold_left app].
  - exists n. reflexivity.
  - rewrite N.eqb_refl. apply IH.
Qed.

Section WordPattern.

(** The patterns [\b(a|b)\b]. *)
Variables a b : text.

Local Abbreviation word2 :=
  (Seq (Seq WordB (Grp 1 (Alt (Lit a) (Lit b)))) WordB).

Lemma word2_inv (A : Type) (cur : cursor)
  (k : cursor -> caps -> option A) (v : A) :
  run word2 cur [] k = Some v ->
  at_boundary cur = true
  /\ exists w r' n',
       (w = a \/ w = b)
       /\ rest cur = w ++ r'
       /\ at_boundary {| prev := fold_left (fun _ c => Some c) w (prev cur);
                         rest := r'; pos := n' |} = true.
Proof.
  cbn [run].
  destruct (at_boundary cur); [ | discriminate ].
  intros H. split; [ reflexivity | ].
  destruct (lit a (prev cur) (rest cur) (pos cur) _) as [v' |] eqn:Ea.
  - apply lit_some in Ea. destruct Ea as (r' & n' & Hr & Hk).
    exists a, r', n'. split; [ left; reflexivity | ].
    split; [ exact Hr | ].
    destruct (at_boundary _); [ reflexivity | discriminate ].
  - apply lit_some in H. destruct H as (r' & n' & Hr & Hk).
    exists b, r', n'. split; [ right; reflexivity | ].
    split; [ exact Hr | ].
    destruct (at_boundary _); [ reflexivity | discriminate ].
Qed.

Lemma word2_here (whole : text) (cur : cursor) (w r' : text) :
  at_boundary cur = true ->
  w = a \/ w = b ->
  rest cur = w ++ r' ->
  at_boundary {| prev := fold_left (fun _ c => Some c) w (prev cur);
                 rest := r'; pos := 0 |} = true ->
  run word2 cur []
      (fun _ cs => Some {| subject := whole; groups := cs |}) <> None.
Proof.
  intros Hb Hw Hr He. cbn [run]. rewrite Hb, Hr.
  destruct Hw as [-> | ->].
  - match goal with
    | |- context [lit a ?p (a ++ r') ?n ?k] =>
        destruct (lit_app a p r' n k) as [n' E]; rewrite E
    end.
    change (at_boundary
              {| prev := fold_left (fun _ c => Some c) a (prev cur);
                 rest := r'; pos := n' |})
      with (at_boundary
              {| prev := fold_left (fun _ c => Some c) a (prev cur);
                 rest := r'; pos := 0 |}).
    rewrite He. discriminate.
  - match goal with
    | |- context [match ?x with Some v => Some v | None => _ end] =>
        destruct x; [ discriminate | ]
    end.
    match goal with
    | |- context [lit b ?p (b ++ r') ?n ?k] =>
        destruct (lit_app b p r' n k) as [n' E]; rewrite E
    end.
    change (at_boundary
              {| prev := fold_left (fun _ c => Some c) b (prev cur);
                 rest := r'; pos := n' |})
      with (at_boundary
              {| prev := fold_left (fun _ c => Some c) b (prev cur);
                 rest := r'; pos := 0 |}).
    rewrite He. discriminate.
Qed.

End WordPattern.

Lemma search_here (e : re) (whole : text) (p : option N) (r : text)
  (n : nat) :
  run e {| prev := p; rest := r; pos := n |} []
      (fun _ cs => Some {| subject := whole; groups := cs |}) <> None ->
  search_from e whole p r n <> None.
Proof.
  intros H. destruct r; cbn [search_from];
    destruct (run e _ [] _); congruence.
Qed.

Lemma search_skip (e : re) (whole : text) (pre : text) (p : option N)
  (r : text) (n : nat) :
  search_from e whole (fold_left (fun _ c => Some c) pre p) r
              (n + length pre) <> None ->
  search_from e whole p (pre ++ r) n <> None.
Proof.
  revert p n. induction pre as [| x pre IH]; intros p n;
    cbn [fold_left length app].
  - rewrite Nat.add_0_r. auto.
  - rewrite Nat.add_succ_r. intros H. apply (IH (Some x) (S n)) in H.
    cbn [search_from]. destruct (run e _ [] _); [ discriminate | exact H ].
Qed.

Lemma search_inv (e : re) (whole : text) (p : option N) (r : text)
  (n : nat) :
  search_from e whole p r n <> None ->
  run e {| prev := p; rest := r; pos := n |} []
      (fun _ cs => Some {| subject := whole; groups := cs |}) <> None
  \/ exists x r',
       r = x :: r' /\ search_from e whole (Some x) r' (S n) <> None.
Proof.
  destruct r as [| x r]; cbn [search_from];
    destruct (run e _ [] _); intros H.
  - left. discriminate.
  - congruence.
  - left. discriminate.
  - right. exists x, r. split; [ reflexivity | exact H ].
Qed.

Lemma pasado_manana_here (whole r : text) (p : option N) (n : nat) :
  run P_pasado_manana {| prev := p; rest := r; pos := n |} []
      (fun _ cs => Some {| subject := whole; groups := cs |}) <> None ->
  search_from P_manana whole p r n <> None.
Proof.
  destruct (run P_pasado_manana _ [] _) eqn:E; [ | congruence ].
  intros _. apply word2_inv in E.
  destruct E as (_ & w & r' & n' & Hw & Hr & He).
  cbn [rest prev] in Hr, He. subst r.
  assert (Hs : exists w2,
             (w2 = utf8 "mañana" \/ w2 = utf8 "manana")
             /\ w = utf8 "pasado " ++ w2
             /\ fold_left (fun _ c => Some c) w p
                = fold_left (fun _ c => Some c) w2
                    (fold_left (fun _ c => Some c) (utf8 "pasado ") p)).
  { destruct Hw as [-> | ->].
    - exists (utf8 "mañana"). split; [ left; reflexivity | ].
      split; vm_compute; reflexivity.
    - exists (utf8 "manana"). split; [ right; reflexivity | ].
      split; vm_compute; reflexivity. }
  destruct Hs as (w2 & Hw2 & -> & Hl). rewrite <- app_assoc.
  apply search_skip. apply search_here.
  apply (@word2_here (utf8 "mañana") (utf8 "manana") whole _ w2 r').
  - destruct Hw2 as [-> | ->]; vm_compute; reflexivity.
  - exact Hw2.
  - reflexivity.
  - cbn [prev]. rewrite <- Hl. exact He.
Qed.

Lemma pasado_manana_holds_manana (whole r : text) (p : option N) (n : nat) :
  search_from P_pasado_manana whole p r n <> None ->
  search_from P_manana whole p r n <> None.
Proof.
  revert p n. induction r as [| x r IH]; intros p n H;
    apply search_inv in H; destruct H as [H | (x' & r' & E & H)].
  - apply pasado_manana_here. exact H.
  - discriminate E.
  - apply pasado_manana_here. exact H.
  - injection E as <- <-. apply IH in H.
    apply (@search_skip P_manana whole [x] p r n).
    cbn [fold_left length]. rewrite Nat.add_1_r. exact H.
Qed.

(** X16. The day word "pasado mañana" (the day after tomorrow) is shadowed
    by "mañana", which is tested first: a text that holds it also holds
    the whole word "mañana", so it is resolved to a single day between
    yesterday and tomorrow, never to the day after tomorrow; without the
    words "hoy" and "ayer" it is resolved to tomorrow. *)
Theorem pasado_manana_is_read_as_manana (today : date) (t : text) :
  (MINORD < today < MAXORD)%Z ->
  matches P_pasado_manana (Claims.normalized t) = true ->
  matches P_manana (Claims.normalized t) = true
  /\ (exists d : date,
        parse_time_expression today t = Some (single_day d)
        /\ (today - 1 <= d <= today + 1)%Z)
  /\ (matches P_hoy (Claims.normalized t) = false ->
      matches P_ayer (Claims.normalized t) = false ->
      parse_time_expression today t = Some (single_day (today + 1)%Z)).
Proof.
  intros Hr Hp.
  assert (Hm : matches P_manana (Claims.normalized t) = true).
  { revert Hp. unfold matches, search.
    pose proof (@pasado_manana_holds_manana (Claims.normalized t)
                  (Claims.normalized t) None 0%nat) as H.
    destruct (search_from P_pasado_manana _ _ _ _); [ | discriminate ].
    intros _.
    destruct (search_from P_manana _ _ _ _); [ reflexivity | ].
    exfalso. apply H; [ discriminate | reflexivity ]. }
  split; [ exact Hm | ].
  unfold parse_time_expression. fold (Claims.normalized t).
  unfold parse_body, _parse_specific_expressions. rewrite Hm.
  split.
  - destruct (matches P_hoy (Claims.normalized t)).
    + exists today. split; [ reflexivity | lia ].
    + destruct (matches P_ayer (Claims.normalized t)).
      * exists (today - 1)%Z.
        rewrite add_days_ok by (unfold MINORD, MAXORD in *; lia).
        split; [ reflexivity | lia ].
      * exists (today + 1)%Z.
        rewrite add_days_ok by (unfold MINORD, MAXORD in *; lia).
        split; [ reflexivity | lia ].
  - intros H1 H2. rewrite H1, H2.
    rewrite add_days_ok by (unfold MINORD, MAXORD in *; lia).
    reflexivity.
Qed.

Lemma pasado_manana_is_read_as_manana_witness :
  (MINORD < Scenario.today < MAXORD)%Z
  /\ matches P_pasado_manana (Claims.normalized (utf8 "Pasado mañana"))
     = true
  /\ parse_time_expression Scenario.today (utf8 "Pasado mañana")
     = Some (single_day (Scenario.today + 1)%Z).
Proof.
  assert (Hr : (MINORD < Scenario.today < MAXORD)%Z)
    by (vm_compute; split; reflexivity).
  assert (Hp : matches P_pasado_manana
                 (Claims.normalized (utf8 "Pasado mañana")) = true)
    by (vm_compute; reflexivity).
  split; [ exact Hr | ]. split; [ exact Hp | ].
  apply (proj2 (proj2 (@pasado_manana_is_read_as_manana Scenario.today
                         (utf8 "Pasado mañana") Hr Hp)));
    vm_compute; reflexivity.
Defined.

(** ** Crop suitability *)

Section SuitabilityFacts.

Import CasanareCrops.
Local Open Scope R_scope.

Local Abbreviation by_key :=
  (fun a b : Suitability.SuitableCrop =>
     Suitability.sort_key a <= Suitability.sort_key b).

Lemma le_true (x y : R) : Suitability.le x y = true <-> x <= y.
Proof.
  unfold Suitability.le. destruct (Rle_dec x y); split; auto; discriminate.
Qed.

Lemma le_false (x y : R) : Suitability.le x y = false <-> y < x.
Proof.
  unfold Suitability.le. destruct (Rle_dec x y); split; intros H;
    try discriminate; try reflexivity; lra.
Qed.

Lemma in_range_true (x : R) (r : Z * Z * Z) :
  Suitability.in_range x r = true
  <-> Suitability.range_min r <= x <= Suitability.range_max r.
Proof.
  unfold Suitability.in_range.
  rewrite andb_true_iff, !le_true. reflexivity.
Qed.

Lemma insert_by_key_perm (x : Suitability.SuitableCrop)
  (l : list Suitability.SuitableCrop) :
  Permutation (Suitability.insert_by_key x l) (x :: l).
Proof.
  induction l as [| y l IH]; cbn [Suitability.insert_by_key].
  - apply Permutation_refl.
  - destruct (Suitability.le _ _); [ apply Permutation_refl | ].
    apply Permutation_trans with (y :: x :: l).
    + apply perm_skip. exact IH.
    + apply perm_swap.
Qed.

Lemma sort_by_key_perm (l : list Suitability.SuitableCrop) :
  Permutation (Suitability.sort_by_key l) l.
Proof.
  unfold Suitability.sort_by_key.
  induction l as [| x l IH]; cbn [fold_right]; [ apply perm_nil | ].
  apply Permutation_trans with (x :: fold_right Suitability.insert_by_key [] l).
  - apply insert_by_key_perm.
  - apply perm_skip. exact IH.
Qed.

Lemma insert_by_key_sorted (x : Suitability.SuitableCrop)
  (l : list Suitability.SuitableCrop) :
  StronglySorted by_key l ->
  StronglySorted by_key (Suitability.insert_by_key x l).
Proof.
  induction 1 as [| y l Hs IH Hy]; cbn [Suitability.insert_by_key].
  - constructor; constructor.
  - destruct (Suitability.le _ _) eqn:E.
    + apply le_true in E. constructor.
      * constructor; assumption.
      * constructor; [ exact E | ].
        eapply Forall_impl; [ | exact Hy ].
        cbv beta. intros z Hz. lra.
    + apply le_false in E. constructor; [ exact IH | ].
      apply (Permutation_Forall
               (Permutation_sym (insert_by_key_perm x l))).
      constructor; [ lra | exact Hy ].
Qed.

Lemma sort_by_key_sorted (l : list Suitability.SuitableCrop) :
  StronglySorted by_key (Suitability.sort_by_key l).
Proof.
  unfold Suitability.sort_by_key.
  induction l as [| x l IH]; cbn [fold_right]; [ constructor | ].
  apply insert_by_key_sorted. exact IH.
Qed.

Variables temperature humidity : R.

Local Abbreviation one_suits data :=
  (Suitability.in_range temperature (optimal_temperature data)
   || Suitability.in_range humidity (optimal_humidity data)).

Local Abbreviation both_suit data :=
  (Suitability.in_range temperature (optimal_temperature data)
   && Suitability.in_range humidity (optimal_humidity data)).

Lemma rate_spec (data : CropInfo) (c : Suitability.SuitableCrop) :
  Suitability.rate temperature humidity data = Some c ->
  Suitability.crop_data c = data
  /\ Suitability.crop c = name data
  /\ Suitability.temp_match c
     = Rabs (temperature
             - Suitability.range_ideal (optimal_temperature data))
  /\ Suitability.humidity_match c
     = Rabs (humidity - Suitability.range_ideal (optimal_humidity data))
  /\ Suitability.suitability c
     = (if both_suit data then Suitability.optimo
        else Suitability.aceptable)
  /\ one_suits data = true.
Proof.
  unfold Suitability.rate. cbv zeta.
  destruct (Suitability.in_range temperature _),
    (Suitability.in_range humidity _); cbn [andb orb];
    intros E; try discriminate; injection E as <-; cbn;
    repeat split; reflexivity.
Qed.

Lemma rate_some (data : CropInfo) :
  one_suits data = true ->
  exists c, Suitability.rate temperature humidity data = Some c.
Proof.
  unfold Suitability.rate. cbv zeta.
  destruct (Suitability.in_range temperature _),
    (Suitability.in_range humidity _); cbn [andb orb];
    intros E; try discriminate; eexists; reflexivity.
Qed.

Lemma rate_none (data : CropInfo) :
  one_suits data = false ->
  Suitability.rate temperature humidity data = None.
Proof.
  unfold Suitability.rate. cbv zeta.
  destruct (Suitability.in_range temperature _),
    (Suitability.in_range humidity _); cbn [andb orb];
    intros E; try discriminate; reflexivity.
Qed.

Lemma candidates_In (items : list (text * CropInfo))
  (c : Suitability.SuitableCrop) :
  In c (Suitability.candidates temperature humidity items)
  <-> exists key data,
        In (key, data) items
        /\ Suitability.rate temperature humidity data = Some c.
Proof.
  induction items as [| [k d] items IH]; cbn [Suitability.candidates].
  - split; [ intros [] | intros (? & ? & [] & _) ].
  - destruct (Suitability.rate temperature humidity d) as [e |] eqn:E.
    + cbn [In]. rewrite IH. split.
      * intros [<- | (key & data & Hin & Hr)].
        -- exists k, d. split; [ left; reflexivity | exact E ].
        -- exists key, data. split; [ right; exact Hin | exact Hr ].
      * intros (key & data & [Hin | Hin] & Hr).
        -- injection Hin as <- <-. left. congruence.
        -- right. exists key, data. split; assumption.
    + rewrite IH. split.
      * intros (key & data & Hin & Hr).
        exists key, data. split; [ right; exact Hin | exact Hr ].
      * intros (key & data & [Hin | Hin] & Hr).
        -- injection Hin as <- <-. congruence.
        -- exists key, data. split; assumption.
Qed.

Lemma candidates_length (items : list (text * CropInfo)) :
  length (Suitability.candidates temperature humidity items)
  = length (filter (fun kd => one_suits (snd kd)) items).
Proof.
  induction items as [| [k d] items IH];
    cbn [Suitability.candidates filter snd]; [ reflexivity | ].
  destruct (one_suits d) eqn:E.
  - destruct (rate_some d E) as [c Hc]. rewrite Hc.
    cbn [length]. rewrite IH. reflexivity.
  - rewrite (rate_none d E). exact IH.
Qed.

Lemma suitable_crops_In (c : Suitability.SuitableCrop) :
  In c (Suitability.get_suitable_crops_for_conditions temperature humidity)
  <-> exists key data,
        In (key, data) CROPS_DATA
        /\ Suitability.rate temperature humidity data = Some c.
Proof.
  unfold Suitability.get_suitable_crops_for_conditions.
  rewrite <- candidates_In. split.
  - apply Permutation_in. apply sort_by_key_perm.
  - apply Permutation_in. apply Permutation_sym. apply sort_by_key_perm.
Qed.

(** X17. The list of suitable crops, for any temperature and humidity:
    it is ordered by the sum of the distances to the ideal temperature and
    humidity; every entry is a crop of the knowledge base with at least
    one of its two optimal ranges holding the given value, rated "óptimo"
    exactly when both do; every such crop has an entry, and exactly
    one. *)
Theorem suitable_crops_are_rated_and_ordered :
  let crops :=
    Suitability.get_suitable_crops_for_conditions temperature humidity in
  StronglySorted by_key crops
  /\ (forall c, In c crops ->
        (exists key, In (key, Suitability.crop_data c) CROPS_DATA)
        /\ Suitability.crop c = name (Suitability.crop_data c)
        /\ Suitability.temp_match c
           = Rabs (temperature
                   - Suitability.range_ideal
                       (optimal_temperature (Suitability.crop_data c)))
        /\ Suitability.humidity_match c
           = Rabs (humidity
                   - Suitability.range_ideal
                       (optimal_humidity (Suitability.crop_data c)))
        /\ one_suits (Suitability.crop_data c) = true
        /\ (Suitability.suitability c = Suitability.optimo
            <-> both_suit (Suitability.crop_data c) = true))
  /\ (forall key data,
        In (key, data) CROPS_DATA -> one_suits data = true ->
        exists c, In c crops /\ Suitability.crop_data c = data)
  /\ length crops
     = length (filter (fun kd => one_suits (snd kd)) CROPS_DATA).
Proof.
  cbv zeta. split; [ apply sort_by_key_sorted | ].
  split; [ | split ].
  - intros c Hc. apply suitable_crops_In in Hc.
    destruct Hc as (key & data & Hin & Hr).
    apply rate_spec in Hr.
    destruct Hr as (Hd & Hn & Ht & Hh & Hs & Ho). rewrite Hd.
    split; [ exists key; exact Hin | ].
    split; [ exact Hn | ]. split; [ exact Ht | ]. split; [ exact Hh | ].
    split; [ exact Ho | ].
    rewrite Hs. destruct (both_suit data); split; congruence.
  - intros key data Hin Ho. destruct (rate_some data Ho) as [c Hc].
    exists c. split.
    + apply suitable_crops_In. exists key, data. split; assumption.
    + apply rate_spec in Hc. tauto.
  - unfold Suitability.get_suitable_crops_for_conditions.
    rewrite (Permutation_length (sort_by_key_perm _)).
    apply candidates_length.
Qed.

(** X18. The overall assessment agrees with the ratings: when a crop is
    rated "óptimo" the conditions are not assessed "desfavorable", and
    when the conditions are assessed "excelente" some crop is rated
    "óptimo". *)
Theorem overall_assessment_agrees_with_ratings :
  let crops :=
    Suitability.get_suitable_crops_for_conditions temperature humidity in
  (forall c, In c crops ->
     Suitability.suitability c = Suitability.optimo ->
     Conditions._assess_overall_conditions temperature humidity
     <> Conditions.desfavorable)
  /\ (Conditions._assess_overall_conditions temperature humidity
      = Conditions.excelente ->
      exists c, In c crops
                /\ Suitability.suitability c = Suitability.optimo).
Proof.
  cbv zeta. split.
  - intros c Hc Hs. apply suitable_crops_In in Hc.
    destruct Hc as (key & data & Hin & Hr).
    apply rate_spec in Hr. destruct Hr as (_ & _ & _ & _ & Hs' & _).
    rewrite Hs in Hs'.
    destruct (both_suit data) eqn:Hb; [ | discriminate ].
    apply andb_true_iff in Hb. destruct Hb as [Ht Hh].
    apply in_range_true in Ht. apply in_range_true in Hh.
    assert (Hbox : 15 <= temperature <= 35 /\ 50 <= humidity <= 90).
    { unfold CROPS_DATA in Hin. cbn [In] in Hin.
      repeat (destruct Hin as [Hin | Hin];
              [ injection Hin as _ <-;
                unfold Suitability.range_min, Suitability.range_max in *;
                cbn in Ht, Hh; lra | ]).
      destruct Hin. }
    unfold Conditions._assess_overall_conditions, lt, gt.
    destruct (Rlt_dec temperature 15); [ lra | ].
    destruct (Rlt_dec 40 temperature); [ lra | ].
    destruct (Rlt_dec humidity 40); [ lra | ].
    destruct (Rlt_dec 95 humidity); [ lra | ].
    cbn [orb]. destruct (_ && _); discriminate.
  - unfold Conditions._assess_overall_conditions.
    destruct (lt temperature 15 || gt temperature 40); [ discriminate | ].
    destruct (lt humidity 40 || gt humidity 95); [ discriminate | ].
    destruct (Suitability.le 20 temperature) eqn:E1; [ | discriminate ].
    destruct (Suitability.le temperature 35) eqn:E2; [ | discriminate ].
    destruct (Suitability.le 60 humidity) eqn:E3; [ | discriminate ].
    destruct (Suitability.le humidity 85) eqn:E4; [ | discriminate ].
    intros _.
    apply le_true in E1. apply le_true in E2.
    apply le_true in E3. apply le_true in E4.
    assert (Hex : exists key data,
               In (key, data) CROPS_DATA /\ both_suit data = true).
    { destruct (Rle_dec humidity 80) as [H80 | H80].
      - eexists. eexists. split; [ right; left; reflexivity | ].
        apply andb_true_iff. split; apply in_range_true;
          unfold Suitability.range_min, Suitability.range_max; cbn; lra.
      - eexists. eexists. split; [ left; reflexivity | ].
        apply andb_true_iff. split; apply in_range_true;
          unfold Suitability.range_min, Suitability.range_max; cbn; lra. }
    destruct Hex as (key & data & Hin & Hb).
    assert (Ho : one_suits data = true).
    { apply andb_true_iff in Hb. destruct Hb as [-> _]. reflexivity. }
    destruct (rate_some data Ho) as [c Hc].
    exists c. split.
    + apply suitable_crops_In. exists key, data. split; assumption.
    + apply rate_spec in Hc. destruct Hc as (_ & _ & _ & _ & Hs & _).
      rewrite Hs, Hb. reflexivity.
Qed.

End SuitabilityFacts.

(** ** Agricultural conditions *)

Section ConditionsFacts.

Local Open Scope R_scope.







End ConditionsFacts.

(** ** Seasons *)

Lemma month_range (d : date) : (1 <= month d <= 12)%Z.
Proof.
  unfold month, ord2ymd. cbv zeta.
  destruct (_ || _); [ cbn [fst snd]; lia | ].
  match goal with
  | |- context [Z.shiftr (?x mod 365 + 50) 5] =>
      set (n := (x mod 365)%Z);
      assert (Hn : (0 <= n < 365)%Z)
        by (unfold n; apply Z.mod_pos_bound; lia)
  end.
  clearbody n. rewrite Z.shiftr_div_pow2 by lia.
  change (2 ^ 5)%Z with 32%Z.
  set (k := ((n + 50) / 32)%Z).
  assert (Hk : (1 <= k <= 12)%Z).
  { unfold k. split.
    - apply Z.div_le_lower_bound; lia.
    - apply Z.lt_succ_r. apply Z.div_lt_upper_bound; lia. }
  clearbody k.
  assert (Hc : (k = 1 \/ k = 2 \/ k = 3 \/ k = 4 \/ k = 5 \/ k = 6
                \/ k = 7 \/ k = 8 \/ k = 9 \/ k = 10 \/ k = 11
                \/ k = 12)%Z) by lia.
  destruct Hc as [-> | [-> | [-> | [-> | [-> | [-> | [-> | [-> | [-> |
                 [-> | [-> | ->]]]]]]]]]]];
    match goal with
    | |- context [if ?c then _ else _] =>
        lazymatch c with
        | (n <? _)%Z => destruct c eqn:E
        end
    end; cbn [fst snd]; try lia.
  apply Z.ltb_lt in E. change (Z.to_nat 1) with 1%nat in E.
  cbn in E. lia.
Qed.

Lemma season_lists_the_month (today : date) :
  exists name,
    In (name, month today) MESES
    /\ In name (CasanareCrops.months
                  (CasanareCrops.AGRICULTURAL_CALENDAR
                     (get_current_season today))).
Proof.
  unfold get_current_season. cbv zeta.
  pose proof (month_range today) as Hm.
  assert (Hc : (month today = 1 \/ month today = 2 \/ month today = 3
                \/ month today = 4 \/ month today = 5 \/ month today = 6
                \/ month today = 7 \/ month today = 8 \/ month today = 9
                \/ month today = 10 \/ month today = 11
                \/ month today = 12)%Z) by lia.
  destruct Hc as [-> | [-> | [-> | [-> | [-> | [-> | [-> | [-> | [-> |
                 [-> | [-> | ->]]]]]]]]]]];
    cbn [existsb Z.eqb Pos.eqb orb CasanareCrops.AGRICULTURAL_CALENDAR
         CasanareCrops.months];
    eexists; (split; [ unfold MESES; cbn [In]; eauto 15
                     | cbn [In]; eauto 15 ]).
Qed.

(** X20. The seasonal advice is that of the season of the current month:
    for a recommendations request the recommendation stage stores the
    entry of the agricultural calendar chosen by the date resolver, and
    that entry lists the name of the current month among its months, on
    every day of the calendar (each month belongs to the season the
    resolver picks for it). *)
Theorem season_info_is_the_season_of_the_current_month
  (report : Type) (env : Collaborators report) (state : State report) :
  query_type state = Q_recommendations ->
  exists info name,
    season_info (get_crop_recommendations env state) = Some info
    /\ info = CasanareCrops.AGRICULTURAL_CALENDAR
                (get_current_season (now env))
    /\ In (name, month (now env)) MESES
    /\ In name (CasanareCrops.months info).
Proof.
  intros K.
  destruct (season_lists_the_month (now env)) as (name & H1 & H2).
  exists (CasanareCrops.AGRICULTURAL_CALENDAR (get_current_season (now env))),
    name.
  split; [ | split; [ reflexivity | split; assumption ] ].
  unfold get_crop_recommendations. rewrite K. reflexivity.
Qed.

Lemma season_info_is_the_season_of_the_current_month_witness :
  let env := Scenario.no_telemetry in
  let state :=
    classify_query env (create_initial_state env Scenario.q_que_sembrar) in
  query_type state = Q_recommendations
  /\ exists info name,
       season_info (get_crop_recommendations env state) = Some info
       /\ info = CasanareCrops.AGRICULTURAL_CALENDAR
                   (get_current_season (now env))
       /\ In (name, month (now env)) MESES
       /\ In name (CasanareCrops.months info).
Proof.
  intros env state.
  assert (K : query_type state = Q_recommendations)
    by (vm_compute; reflexivity).
  split; [ exact K | ].
  exact (@season_info_is_the_season_of_the_current_month _ env state K).
Defined.

(** ** Data quality *)

Section DataQualityFacts.

Local Open Scope R_scope.

Variable missing_issue : metric -> R -> text.
Variables temperature_issue humidity_issue : nat -> text.
Variable completeness_of : list Reading -> R.

Local Abbreviation assess :=
  (DataQuality._assess_data_quality missing_issue temperature_issue
     humidity_issue completeness_of).

Local Abbreviation found :=
  (DataQuality.found_issues missing_issue temperature_issue humidity_issue).

Lemma missing_issues_length (m : metric) (df : list Reading) :
  length (DataQuality.missing_issues missing_issue m df)
  = if gt (DataQuality.missing_pct m df) 20 then 1%nat else 0%nat.
Proof.
  unfold DataQuality.missing_issues.
  destruct (gt (DataQuality.missing_pct m df) 20); reflexivity.
Qed.

Lemma found_issues_length (df : list Reading) :
  length (found df)
  = ((if gt (DataQuality.missing_pct Temperature df) 20 then 1 else 0)
     + (if gt (DataQuality.missing_pct Humidity df) 20 then 1 else 0)
     + (if (0 <? length (DataQuality.out_of_range Temperature (-10) 50 df))
        then 1 else 0)
     + (if (0 <? length (DataQuality.out_of_range Humidity 0 100 df))
        then 1 else 0))%nat.
Proof.
  unfold DataQuality.found_issues. cbv zeta. cbn [app].
  destruct (0 <? length (DataQuality.out_of_range Temperature (-10) 50 df))%nat,
    (0 <? length (DataQuality.out_of_range Humidity 0 100 df))%nat;
    rewrite ?length_app, !missing_issues_length; cbn [length]; lia.
Qed.

Lemma out_of_range_nil (m : metric) (lo hi : R) (df : list Reading) :
  DataQuality.out_of_range m lo hi df = []
  <-> forall r x, In r df -> value_of m r = Some x -> lo <= x <= hi.
Proof.
  unfold DataQuality.out_of_range.
  induction df as [| r df IH]; cbn [filter].
  - split; [ intros _ r x [] | reflexivity ].
  - destruct (value_of m r) as [x |] eqn:E.
    + unfold lt, gt.
      destruct (Rlt_dec x lo) as [H1 | H1];
        destruct (Rlt_dec hi x) as [H2 | H2]; cbn [orb].
      * split; [ discriminate | ].
        intros H. specialize (H r x (or_introl eq_refl) E). lra.
      * split; [ discriminate | ].
        intros H. specialize (H r x (or_introl eq_refl) E). lra.
      * split; [ discriminate | ].
        intros H. specialize (H r x (or_introl eq_refl) E). lra.
      * rewrite IH. split.
        -- intros H r' x' [<- | Hin] E'.
           ++ rewrite E in E'. injection E' as <-. lra.
           ++ exact (H r' x' Hin E').
        -- intros H r' x' Hin. apply H. right. exact Hin.
    + rewrite IH. split.
      * intros H r' x' [<- | Hin] E'; [ congruence | ].
        exact (H r' x' Hin E').
      * intros H r' x' Hin. apply H. right. exact Hin.
Qed.

Lemma found_issues_at_most_four (df : list Reading) :
  (length (found df) <= 4)%nat.
Proof.
  rewrite found_issues_length.
  destruct (gt (DataQuality.missing_pct Temperature df) 20),
    (gt (DataQuality.missing_pct Humidity df) 20),
    (0 <? length (DataQuality.out_of_range Temperature (-10) 50 df))%nat,
    (0 <? length (DataQuality.out_of_range Humidity 0 100 df))%nat;
    lia.
Qed.

Lemma assessed_tier (df : list Reading) :
  df <> [] -> quality (assess df) <> poor.
Proof.
  intros Hne. unfold DataQuality._assess_data_quality. cbv zeta.
  destruct (Nat.eqb_spec (length df) 0) as [E | _].
  { destruct df; [ congruence | discriminate E ]. }
  cbn [quality]. pose proof (found_issues_at_most_four df) as H4.
  unfold DataQuality.quality_of.
  destruct (length (found df) =? 0)%nat; [ discriminate | ].
  destruct (length (found df) <=? 2)%nat; [ discriminate | ].
  destruct (Nat.leb_spec (length (found df)) 4); [ discriminate | lia ].
Qed.

(** X21. The data quality of a non-empty batch is never "poor": at most
    four issues can be found (two on missing values, two on values out of
    range), so the tier is excellent, good or fair.  It is excellent
    exactly when no more than 20 % of the temperatures and of the
    humidities are missing, every valid temperature lies in [-10, 50] and
    every valid humidity in [0, 100]. *)
Theorem nonempty_batch_quality_is_never_poor (df : list Reading) :
  df <> [] ->
  quality (assess df) <> poor
  /\ total_records (assess df) = Some (length df)
  /\ (length (issues (assess df)) <= 4)%nat
  /\ (quality (assess df) = excellent
      <-> DataQuality.missing_pct Temperature df <= 20
          /\ DataQuality.missing_pct Humidity df <= 20
          /\ (forall r x, In r df -> temperature r = Some x ->
                -10 <= x <= 50)
          /\ (forall r x, In r df -> humidity r = Some x ->
                0 <= x <= 100)).
Proof.
  intros Hne. split; [ apply assessed_tier; exact Hne | ].
  unfold DataQuality._assess_data_quality. cbv zeta.
  destruct (Nat.eqb_spec (length df) 0) as [E | _].
  { destruct df; [ congruence | discriminate E ]. }
  cbn [quality total_records issues].
  pose proof (found_issues_length df) as Hl.
  split; [ reflexivity | split; [ apply found_issues_at_most_four | ] ].
  assert (Hq : DataQuality.quality_of (found df) = excellent
               <-> length (found df) = 0%nat).
  { unfold DataQuality.quality_of.
    destruct (Nat.eqb_spec (length (found df)) 0) as [E | E].
    - split; auto.
    - destruct (length (found df) <=? 2)%nat;
        [ split; [ discriminate | intros; contradiction ] | ].
      destruct (length (found df) <=? 4)%nat;
        split; try discriminate; intros; contradiction. }
  rewrite Hq, Hl.
  change (forall r x, In r df -> temperature r = Some x -> -10 <= x <= 50)
    with (forall r x, In r df -> value_of Temperature r = Some x ->
            -10 <= x <= 50).
  change (forall r x, In r df -> humidity r = Some x -> 0 <= x <= 100)
    with (forall r x, In r df -> value_of Humidity r = Some x ->
            0 <= x <= 100).
  rewrite <- !out_of_range_nil.
  unfold gt.
  destruct (Rlt_dec 20 (DataQuality.missing_pct Temperature df));
    destruct (Rlt_dec 20 (DataQuality.missing_pct Humidity df));
    destruct (DataQuality.out_of_range Temperature (-10) 50 df);
    destruct (DataQuality.out_of_range Humidity 0 100 df);
    cbn [length Nat.ltb Nat.leb]; split;
    try (intros H; lia);
    try (intros (? & ? & ? & ?); try lra; discriminate);
    intros _; repeat split; lra.
Qed.

Lemma assessed_quality (report : Type) (sub : Subanalyses report)
  (now : date) (df : list Reading) (a : Analysis report) :
  analyze_body sub now df = Ok a ->
  _assess_data_quality sub df = Ok (data_quality a).
Proof.
  unfold analyze_body.
  destruct (_analyze_trends sub df); cbn [bind]; [ | discriminate ].
  destruct (_analyze_extremes sub df); cbn [bind]; [ | discriminate ].
  destruct (_analyze_variability df); cbn [bind]; [ | discriminate ].
  destruct (_analyze_agricultural_conditions sub df); cbn [bind];
    [ | discriminate ].
  destruct (_analyze_seasonal_patterns sub df); cbn [bind];
    [ | discriminate ].
  destruct (_assess_data_quality sub df); cbn [bind]; [ | discriminate ].
  intros E. injection E as <-. reflexivity.
Qed.

(** X22. When the engine assesses the data quality as above, the quality
    "poor" marks the empty analysis and nothing else: the analysis of a
    batch reports "poor" exactly when it is the empty analysis (the batch
    is empty or a sub-analysis raised). *)
Theorem poor_quality_marks_the_empty_analysis
  (report : Type) (sub : Subanalyses report) (now : date)
  (df : list Reading) :
  (forall d, _assess_data_quality sub d = Ok (assess d)) ->
  quality (data_quality (analyze_climate_data sub now df)) = poor
  <-> analyze_climate_data sub now df = _empty_analysis report now.
Proof.
  intros Hq. unfold analyze_climate_data.
  destruct df as [| r df]; [ split; reflexivity | ].
  destruct (analyze_body sub now (r :: df)) as [a |] eqn:E;
    [ | split; reflexivity ].
  apply assessed_quality in E. rewrite Hq in E. injection E as E.
  assert (Hn : quality (data_quality a) <> poor).
  { rewrite <- E. apply assessed_tier. discriminate. }
  split; [ intros H; contradiction | ].
  intros ->. exfalso. apply Hn. reflexivity.
Qed.

End DataQualityFacts.

Lemma nonempty_batch_quality_is_never_poor_witness :
  Scenario.two_readings <> []
  /\ quality (QualitySamples.assess Scenario.two_readings) <> poor.
Proof.
  assert (H : Scenario.two_readings <> []) by discriminate.
  split; [ exact H | ].
  exact (proj1 (@nonempty_batch_quality_is_never_poor
                  QualitySamples.missing_issue
                  QualitySamples.temperature_issue
                  QualitySamples.humidity_issue
                  QualitySamples.completeness_of
                  Scenario.two_readings H)).
Defined.

Lemma poor_quality_marks_the_empty_analysis_witness :
  (forall d, _assess_data_quality QualitySamples.engine d
             = Ok (QualitySamples.assess d))
  /\ (quality (data_quality
                 (analyze_climate_data QualitySamples.engine Scenario.today
                    Samples.one_reading_per_hour)) = poor
      <-> analyze_climate_data QualitySamples.engine Scenario.today
            Samples.one_reading_per_hour
          = _empty_analysis unit Scenario.today).
Proof.
  assert (H : forall d, _assess_data_quality QualitySamples.engine d
                        = Ok (QualitySamples.assess d))
    by (intros d; reflexivity).
  split; [ exact H | ].
  exact (@poor_quality_marks_the_empty_analysis
           QualitySamples.missing_issue QualitySamples.temperature_issue
           QualitySamples.humidity_issue QualitySamples.completeness_of
           unit QualitySamples.engine Scenario.today
           Samples.one_reading_per_hour H).
Defined.

(** ** The groups of [groupby] *)

Section GroupContents.

Variable key : Reading -> Z.
Variable m : metric.

Local Abbreviation keys_ascend gs := (StronglySorted Z.lt (map fst gs)).

Lemma find_group_above (k : Z) (gs : list (Z * Series)) :
  Forall (Z.lt k) (map fst gs) -> Grouping.find_group k gs = None.
Proof.
  induction gs as [| [k' vs] gs IH]; cbn [map fst Grouping.find_group];
    [ reflexivity | ].
  intros H. inversion H as [| ? ? Hk Hrest]; subst.
  destruct (Z.eqb_spec k k'); [ lia | ]. apply IH. exact Hrest.
Qed.

Lemma find_group_In (k : Z) (gs : list (Z * Series)) (vs : Series) :
  Grouping.find_group k gs = Some vs -> In (k, vs) gs.
Proof.
  induction gs as [| [k' vs'] gs IH]; cbn [Grouping.find_group];
    [ discriminate | ].
  destruct (Z.eqb_spec k k') as [<- | _].
  - intros E. injection E as <-. left. reflexivity.
  - intros E. right. apply IH. exact E.
Qed.

Lemma group_insert_keys (k0 : Z) (v : option R) (gs : list (Z * Series))
  (lo : Z) :
  (lo < k0)%Z -> Forall (Z.lt lo) (map fst gs) ->
  Forall (Z.lt lo) (map fst (group_insert k0 v gs)).
Proof.
  intros Hlo. induction gs as [| [k' vs] gs IH];
    cbn [group_insert map fst]; intros H.
  - constructor; [ exact Hlo | constructor ].
  - inversion H as [| ? ? Hk Hrest]; subst.
    destruct (k0 <? k')%Z; cbn [map fst].
    + constructor; [ exact Hlo | exact H ].
    + destruct (k0 =? k')%Z; cbn [map fst].
      * constructor; assumption.
      * constructor; [ exact Hk | apply IH; exact Hrest ].
Qed.

Lemma group_insert_ascend (k0 : Z) (v : option R)
  (gs : list (Z * Series)) :
  keys_ascend gs -> keys_ascend (group_insert k0 v gs).
Proof.
  induction gs as [| [k' vs] gs IH]; cbn [group_insert map fst]; intros H.
  - constructor; constructor.
  - inversion H as [| ? ? Hs Hf]; subst.
    destruct (Z.ltb_spec k0 k') as [Hlt | Hge]; cbn [map fst].
    + constructor; [ exact H | ].
      constructor; [ exact Hlt | ].
      eapply Forall_impl; [ | exact Hf ]. cbv beta. intros; lia.
    + destruct (Z.eqb_spec k0 k') as [<- | Hne]; cbn [map fst].
      * constructor; assumption.
      * constructor; [ apply IH; exact Hs | ].
        apply group_insert_keys; [ lia | exact Hf ].
Qed.

Lemma find_group_insert (k0 : Z) (v : option R) (gs : list (Z * Series))
  (k : Z) :
  keys_ascend gs ->
  Grouping.find_group k (group_insert k0 v gs)
  = if (k =? k0)%Z
    then Some (match Grouping.find_group k0 gs with
               | Some vs => vs ++ [v]
               | None => [v]
               end)
    else Grouping.find_group k gs.
Proof.
  induction gs as [| [k' vs] gs IH];
    cbn [group_insert map fst Grouping.find_group]; intros H.
  - reflexivity.
  - inversion H as [| ? ? Hs Hf]; subst.
    destruct (Z.ltb_spec k0 k') as [Hlt | Hge].
    + cbn [Grouping.find_group].
      destruct (Z.eqb_spec k k0) as [Ek | Hk]; [ | reflexivity ].
      destruct (Z.eqb_spec k0 k'); [ lia | ].
      rewrite find_group_above; [ reflexivity | ].
      eapply Forall_impl; [ | exact Hf ]. cbv beta. intros; lia.
    + destruct (Z.eqb_spec k0 k') as [<- | Hne];
        cbn [Grouping.find_group].
      * destruct (Z.eqb_spec k k0); reflexivity.
      * rewrite (IH Hs).
        destruct (Z.eqb_spec k k') as [Ek | Hk'].
        -- destruct (Z.eqb_spec k k0); [ congruence | reflexivity ].
        -- reflexivity.
Qed.

Lemma group_of_snoc (k : Z) (done : list Reading) (r : Reading) :
  Grouping.group_of key m k (done ++ [r])
  = if (k =? key r)%Z
    then Some (match Grouping.group_of key m (key r) done with
               | Some vs => vs ++ [value_of m r]
               | None => [value_of m r]
               end)
    else Grouping.group_of key m k done.
Proof.
  unfold Grouping.group_of. rewrite filter_app. cbn [filter].
  destruct (Z.eqb_spec k (key r)) as [-> | Hk].
  - rewrite Z.eqb_refl.
    destruct (filter (fun r0 => (key r0 =? key r)%Z) done) as [| a l];
      cbn [app]; [ reflexivity | ].
    unfold column. cbn [map]. rewrite map_app. reflexivity.
  - destruct (Z.eqb_spec (key r) k); [ congruence | ].
    rewrite app_nil_r. reflexivity.
Qed.

Lemma groups_are_the_rows_of_their_key (rest done : list Reading)
  (gs : list (Z * Series)) :
  keys_ascend gs ->
  (forall k, Grouping.find_group k gs = Grouping.group_of key m k done) ->
  forall k,
    Grouping.find_group k
      (fold_left (fun gs r => group_insert (key r) (value_of m r) gs)
                 rest gs)
    = Grouping.group_of key m k (done ++ rest).
Proof.
  revert done gs. induction rest as [| r rest IH]; intros done gs Hs Hg k.
  - cbn [fold_left]. rewrite app_nil_r. apply Hg.
  - cbn [fold_left].
    replace (done ++ r :: rest) with ((done ++ [r]) ++ rest)
      by (rewrite <- app_assoc; reflexivity).
    apply IH; [ apply group_insert_ascend; exact Hs | ].
    intros k'. rewrite (@find_group_insert _ _ _ k' Hs), group_of_snoc, !Hg.
    reflexivity.
Qed.

Lemma groupby_find (df : list Reading) (k : Z) :
  Grouping.find_group k (groupby key m df) = Grouping.group_of key m k df.
Proof.
  unfold groupby.
  apply (@groups_are_the_rows_of_their_key df [] []);
    [ constructor | reflexivity ].
Qed.

Lemma groupby_group_of_row (df : list Reading) (r : Reading) :
  In r df ->
  In (key r, column m (filter (fun r0 => (key r0 =? key r)%Z) df))
     (groupby key m df).
Proof.
  intros Hin. apply find_group_In. rewrite groupby_find.
  unfold Grouping.group_of.
  destruct (filter (fun r0 => (key r0 =? key r)%Z) df) as [| a l] eqn:E;
    [ | reflexivity ].
  exfalso.
  assert (H : In r (filter (fun r0 => (key r0 =? key r)%Z) df)).
  { apply filter_In. split; [ exact Hin | apply Z.eqb_refl ]. }
  rewrite E in H. destruct H.
Qed.

End GroupContents.

Lemma arg_best_found (better : R -> R -> bool) (s : Series) (i : nat)
  (best : option (nat * R)) :
  arg_best better s i best = None
  <-> best = None /\ forall x, In x s -> x = None.
Proof.
  revert i best. induction s as [| [x |] s IH]; intros i best;
    cbn [arg_best].
  - split; [ intros ->; split; [ reflexivity | intros ? [] ] | tauto ].
  - destruct best as [[j b] |].
    + destruct (better x b); rewrite IH; split;
        intros [E _]; discriminate E.
    + rewrite IH. split; [ intros [E _]; discriminate E | ].
      intros [_ H]. discriminate (H (Some x) (or_introl eq_refl)).
  - rewrite IH. split.
    + intros [E H]. split; [ exact E | ].
      intros x [<- | Hx]; [ reflexivity | apply H; exact Hx ].
    + intros [E H]. split; [ exact E | ].
      intros x Hx. apply H. right. exact Hx.
Qed.

Lemma series_extreme_some (s : Series) (x : R) :
  In (Some x) s ->
  (exists a, Series_max s = Some a) /\ (exists b, Series_min s = Some b).
Proof.
  intros H.
  assert (Hd : dropna s <> []).
  { induction s as [| [y |] s IH]; cbn [dropna].
    - destruct H.
    - discriminate.
    - apply IH. destruct H as [E | H]; [ discriminate E | exact H ]. }
  unfold Series_max, Series_min.
  destruct (dropna s); [ congruence | ].
  split; eexists; reflexivity.
Qed.

Lemma valid_value_exists (s : Series) :
  (1 <= length (dropna s))%nat -> exists x, In (Some x) s.
Proof.
  induction s as [| [y |] s IH]; cbn [dropna length]; intros H.
  - lia.
  - exists y. left. reflexivity.
  - destruct (IH H) as [x Hx]. exists x. right. exact Hx.
Qed.

Lemma missing_or_valid (s : Series) :
  (forall x, In x s -> x = None) \/ exists x, In (Some x) s.
Proof.
  induction s as [| [y |] s IH].
  - left. intros x [].
  - right. exists y. left. reflexivity.
  - destruct IH as [H | [x Hx]].
    + left. intros x [<- | Hx]; [ reflexivity | apply H; exact Hx ].
    + right. exists x. right. exact Hx.
Qed.

Lemma arg_best_of_valid (better : R -> R -> bool) (s : Series) (x : R) :
  In (Some x) s -> arg_best better s 0%nat None <> None.
Proof.
  intros Hx E. apply arg_best_found in E. destruct E as [_ H].
  discriminate (H _ Hx).
Qed.

Lemma series_std_some (s : Series) :
  (exists sd, Series_std s = Some sd) <-> (2 <= length (dropna s))%nat.
Proof.
  unfold Series_std, Series_std_ddof.
  destruct (Nat.leb_spec (length (dropna s)) 1); split.
  - intros [sd E]. discriminate E.
  - lia.
  - lia.
  - intros _. eexists. reflexivity.
Qed.

Lemma variability_of_succeeds (m : metric) (df : list Reading) :
  (exists v, variability_of m df = Ok v)
  <-> exists h : Z,
        (2 <= Grouping.valid_with (fun r => ts_hour (timestamp r)) m h df)%nat.
Proof.
  split.
  - intros [v Hv]. revert Hv. unfold variability_of.
    destruct (idxmax _) as [imax |] eqn:E; cbn [bind]; [ | discriminate ].
    intros _. unfold idxmax in E.
    destruct (missing_or_valid
                (map (fun g => Series_std (snd g))
                     (groupby (fun r => ts_hour (timestamp r)) m df)))
      as [Hall | [sd Hsd]].
    + rewrite (proj2 (arg_best_found gt _ 0%nat None)
                 (conj eq_refl Hall)) in E.
      discriminate E.
    + apply in_map_iff in Hsd. destruct Hsd as [[k vs] [Hstd Hin]].
      cbn [snd] in Hstd. exists k.
      apply groupby_groups_bounded in Hin.
      assert (H2 : (2 <= length (dropna vs))%nat)
        by (apply series_std_some; exists sd; exact Hstd).
      lia.
  - intros [h Hh]. unfold Grouping.valid_with in Hh.
    destruct (@valid_value_exists
                (column m (filter (fun r => (ts_hour (timestamp r) =? h)%Z)
                                  df))) as [x Hx]; [ lia | ].
    unfold column in Hx. apply in_map_iff in Hx.
    destruct Hx as [r0 [Hv Hr0]].
    apply filter_In in Hr0. destruct Hr0 as [Hin Hhour].
    apply Z.eqb_eq in Hhour. subst h.
    set (hour := fun r : Reading => ts_hour (timestamp r)).
    set (day := fun r : Reading => ts_date (timestamp r)).
    set (rows := filter (fun r => (hour r =? hour r0)%Z) df).
    assert (Hlen : (2 <= length (dropna (column m rows)))%nat) by exact Hh.
    assert (Hg : In (hour r0, column m rows) (groupby hour m df))
      by (apply groupby_group_of_row; exact Hin).
    destruct (proj2 (series_std_some (column m rows)) Hlen) as [sd Hsd].
    assert (Hstd : In (Some sd)
                      (map (fun g => Series_std (snd g))
                           (groupby hour m df))).
    { apply in_map_iff. exists (hour r0, column m rows).
      split; [ exact Hsd | exact Hg ]. }
    set (drows := filter (fun r => (day r =? day r0)%Z) df).
    assert (Hd : In (day r0, column m drows) (groupby day m df))
      by (apply groupby_group_of_row; exact Hin).
    assert (Hxd : In (Some x) (column m drows)).
    { unfold column. apply in_map_iff. exists r0.
      split; [ exact Hv | ].
      apply filter_In. split; [ exact Hin | apply Z.eqb_refl ]. }
    destruct (@series_extreme_some _ _ Hxd) as [[a Ha] [b Hb]].
    assert (Hrange : In (Some (a - b)%R)
                       (map (fun g => sub_opt (Series_max (snd g))
                                              (Series_min (snd g)))
                            (groupby day m df))).
    { apply in_map_iff. exists (day r0, column m drows).
      split; [ cbn [snd]; rewrite Ha, Hb; reflexivity | exact Hd ]. }
    pose proof (@arg_best_of_valid gt _ _ Hstd) as H1.
    pose proof (@arg_best_of_valid lt _ _ Hstd) as H2.
    pose proof (@arg_best_of_valid gt _ _ Hrange) as H3.
    unfold variability_of, idxmax, idxmin.
    fold hour. fold day.
    destruct (arg_best gt (map (fun g => Series_std (snd g))
                               (groupby hour m df)) 0%nat None)
      as [[i1 x1] |]; [ | congruence ].
    destruct (arg_best lt (map (fun g => Series_std (snd g))
                               (groupby hour m df)) 0%nat None)
      as [[i2 x2] |]; [ | congruence ].
    destruct (arg_best gt
                (map (fun g => sub_opt (Series_max (snd g))
                                       (Series_min (snd g)))
                     (groupby day m df)) 0%nat None)
      as [[i3 x3] |]; [ | congruence ].
    cbn [bind]. eexists. reflexivity.
Qed.

(** X23. The variability analysis succeeds exactly when, for the
    temperature and for the humidity alike, some hour of the day has at
    least two valid readings in the batch; otherwise it raises (and the
    engine falls back to the empty analysis). *)
Theorem variability_needs_two_readings_in_an_hour (df : list Reading) :
  (exists v, _analyze_variability df = Ok v)
  <-> (exists h : Z,
         (2 <= Grouping.valid_with (fun r => ts_hour (timestamp r))
                 Temperature h df)%nat)
      /\ (exists h : Z,
            (2 <= Grouping.valid_with (fun r => ts_hour (timestamp r))
                    Humidity h df)%nat).
Proof.
  rewrite <- !variability_of_succeeds. unfold _analyze_variability.
  split.
  - intros [v Hv].
    destruct (variability_of Temperature df) as [t |]; cbn [bind] in Hv;
      [ | discriminate ].
    destruct (variability_of Humidity df) as [h |]; cbn [bind] in Hv;
      [ | discriminate ].
    split; eexists; reflexivity.
  - intros [[t ->] [h ->]]. cbn [bind]. eexists. reflexivity.
Qed.
